(** * cleanride: the real-time feed ingestion and merge layer

    A shallow embedding of [cleanride_next/src/lib/mtaApi.js] and of the
    handler of [cleanride_next/src/app/api/station/[stationId]/route.js].

    Conventions of the embedding
    - A JavaScript [Date] and the ISO-8601 string [toISOString] makes of it
      are both represented by the epoch-millisecond value they denote, a [Z]
      ([new Date (d.toISOString ())] is [d] again).
    - A JavaScript number holding a count or a time is a [Z]; the outcome of
      [Math.random ()] and the quotient [Date.now () / 1000] are rationals
      ([Q]), the rounding of doubles is left out.
    - A field that the code guards against being absent is an [option].
    - A read [tbl[key]] of an object literal looks the key up in the literal
      and then in [Object.prototype]; a field filled from such a read holds
      a string, [undefined] or a member of the prototype.
    - [Date.now ()], [Math.random ()], the network, the protobuf decoder and
      the document store are oracles of an environment; the mutable module
      state ([apiCache]) and the positions in the oracles are threaded
      through a state-and-exception monad. *)

From Stdlib Require Import ZArith QArith Qround Lia Ascii String.
From stdpp Require Import base tactics option list sorting numbers strings gmap pretty.

Local Open Scope Z_scope.

(** ** Strings *)

Module JsString.

(** [s ? s : other] as JavaScript decides it for a string that may be
    absent: [undefined], [null] and the empty string are falsy. *)
Definition truthy (s : option string) : bool :=
  match s with
  | Some EmptyString | None => false
  | Some _ => true
  end.

(** [a || b] on strings that may be absent. *)
Definition or_else (a b : option string) : option string :=
  if truthy a then a else b.

(** [s.includes ('..')] *)
Fixpoint includes_dotdot (s : string) : bool :=
  match s with
  | String "."%char (String "."%char _) => true
  | String _ rest => includes_dotdot rest
  | EmptyString => false
  end.

(** [s.split ('..')]: the pieces between successive, non-overlapping
    occurrences of the separator, scanning from the left. [cur] is the
    piece being read, reversed. *)
Fixpoint split_dotdot_go (cur : string) (s : string) : list string :=
  match s with
  | String "."%char (String "."%char rest) => String.rev cur :: split_dotdot_go "" rest
  | String c rest => split_dotdot_go (String c cur) rest
  | EmptyString => [String.rev cur]
  end.
Definition split_dotdot : string -> list string := split_dotdot_go "".

(** [s.split ('/')] *)
Fixpoint split_slash_go (cur : string) (s : string) : list string :=
  match s with
  | String "/"%char rest => String.rev cur :: split_slash_go "" rest
  | String c rest => split_slash_go (String c cur) rest
  | EmptyString => [String.rev cur]
  end.
Definition split_slash : string -> list string := split_slash_go "".

(** [s.endsWith ('N')] *)
Fixpoint endsWith_N (s : string) : bool :=
  match s with
  | EmptyString => false
  | String "N"%char EmptyString => true
  | String _ rest => endsWith_N rest
  end.

(** Template-literal interpolation of a non-negative integer. *)
Definition of_Z (n : Z) : string := pretty n.

End JsString.

(** ** The feed registry and the lookup tables *)

Record FeedSource := {
  feed_lines : list string;
  feed_url : string;
}.

(** [MTA_FEEDS], in the insertion order [Object.keys] and [Object.entries]
    enumerate it in (no key looks like an array index). *)
Definition MTA_FEEDS : list (string * FeedSource) :=
  [ ("IRT",  {| feed_lines := ["1"; "2"; "3"; "4"; "5"; "6"; "7"; "S"; "GS"];
                feed_url := "gtfs" |});
    ("ACE",  {| feed_lines := ["A"; "C"; "E"; "H"]; feed_url := "gtfs-ace" |});
    ("NQRW", {| feed_lines := ["N"; "Q"; "R"; "W"]; feed_url := "gtfs-nqrw" |});
    ("BDFM", {| feed_lines := ["B"; "D"; "F"; "M"; "FS"]; feed_url := "gtfs-bdfm" |});
    ("L",    {| feed_lines := ["L"]; feed_url := "gtfs-l" |});
    ("G",    {| feed_lines := ["G"]; feed_url := "gtfs-g" |});
    ("JZ",   {| feed_lines := ["J"; "Z"]; feed_url := "gtfs-jz" |});
    ("SIR",  {| feed_lines := ["SI"; "SIR"]; feed_url := "gtfs-si" |}) ]%string.

Definition MTA_API_BASE_URL : string :=
  "https://api-endpoint.mta.info/Dataservice/mtagtfsfeeds/nyct%2F".

(** The value an object literal itself gives a key, if it has the key (no
    table below has a key twice). *)
Fixpoint assoc {V} (k : string) (tbl : list (string * V)) : option V :=
  match tbl with
  | [] => None
  | (k', v) :: rest => if String.eqb k k' then Some v else assoc k rest
  end.

Definition object_keys {V} (tbl : list (string * V)) : list string := tbl.*1.

Module JsObject.

(** The names [Object.prototype] defines. An object literal inherits them:
    the read [tbl[key]] of one of these names, when the literal has no key
    of that name itself, gives the member of the prototype, not
    [undefined]. *)
Definition prototype_keys : list string :=
  [ "constructor"; "__defineGetter__"; "__defineSetter__"; "hasOwnProperty";
    "__lookupGetter__"; "__lookupSetter__"; "isPrototypeOf";
    "propertyIsEnumerable"; "toString"; "valueOf"; "__proto__";
    "toLocaleString" ]%string.

(** What the read [tbl[key]] finds. *)
Inductive Property (V : Type) :=
  | Own (v : V)      (* the value the literal gives the key *)
  | Inherited        (* the member of [Object.prototype] of that name *)
  | Missing.         (* [undefined] *)
Arguments Own {V} v.
Arguments Inherited {V}.
Arguments Missing {V}.

Definition get {V} (key : string) (tbl : list (string * V)) : Property V :=
  match assoc key tbl with
  | Some v => Own v
  | None => if bool_decide (key ∈ prototype_keys) then Inherited else Missing
  end.

(** The value of a field that is read from a table of strings: a string,
    [undefined], or the member of [Object.prototype] of the given name (a
    function; for [__proto__] the prototype itself). *)
Inductive Value :=
  | Str (s : string)
  | Undefined
  | Member (key : string).

(** A string that may be [undefined], as a value. *)
Definition of_option (s : option string) : Value :=
  match s with
  | Some s => Str s
  | None => Undefined
  end.

(** The key a string that may be [undefined] is when it is used as one. *)
Definition to_key (s : option string) : string := default "undefined"%string s.

(** A literal whose values are strings. *)
Definition strings (tbl : list (string * string)) : list (string * Value) :=
  prod_map id Str <$> tbl.

(** [tbl[key]] *)
Definition read (key : string) (tbl : list (string * Value)) : Value :=
  match get key tbl with
  | Own v => v
  | Inherited => Member key
  | Missing => Undefined
  end.

(** Functions and objects are truthy, [undefined] and the empty string are
    not. *)
Definition truthy (v : Value) : bool :=
  match v with
  | Str s => JsString.truthy (Some s)
  | Undefined => false
  | Member _ => true
  end.

(** [a || b] *)
Definition or_else (a b : Value) : Value := if truthy a then a else b.

End JsObject.

Definition lineColors : list (string * string) :=
  [ ("1", "#EE352E"); ("2", "#EE352E"); ("3", "#EE352E");
    ("4", "#00933C"); ("5", "#00933C"); ("6", "#00933C");
    ("7", "#B933AD");
    ("A", "#2850AD"); ("C", "#2850AD"); ("E", "#2850AD"); ("H", "#2850AD");
    ("B", "#FF6319"); ("D", "#FF6319"); ("F", "#FF6319"); ("M", "#FF6319");
    ("G", "#6CBE45");
    ("J", "#996633"); ("Z", "#996633");
    ("L", "#A7A9AC");
    ("N", "#FCCC0A"); ("Q", "#FCCC0A"); ("R", "#FCCC0A"); ("W", "#FCCC0A");
    ("S", "#808183"); ("GS", "#808183");
    ("SI", "#2850AD") ]%string.

(** [lineColors[line] || '#808183'] *)
Definition lineColor (line : string) : JsObject.Value :=
  JsObject.or_else (JsObject.read line (JsObject.strings lineColors))
                   (JsObject.Str "#808183").

(** ** Feed router *)

(** A JavaScript [Set] of strings in insertion order. *)
Definition set_add (x : string) (s : list string) : list string :=
  if bool_decide (x ∈ s) then s else s ++ [x].

(** [feed.lines.includes (line)] *)
Definition lines_include (feed : FeedSource) (line : string) : bool :=
  bool_decide (line ∈ feed_lines feed).

(** The body of [stationLines.forEach]: one pass over [Object.entries]. *)
Definition add_feeds_of_line (feedIds : list string) (line : string) : list string :=
  fold_left (fun acc '(feedId, feed) =>
               if lines_include feed line then set_add feedId acc else acc)
            MTA_FEEDS feedIds.

(** [stationLines] is [None] when the station document has no [lines]. *)
Definition getRelevantFeeds (stationLines : option (list string)) : list string :=
  match stationLines with
  | None | Some [] => object_keys MTA_FEEDS
  | Some lines =>
      let feedIds := fold_left add_feeds_of_line lines [] in
      if (0 <? Z.of_nat (length feedIds)) then feedIds else object_keys MTA_FEEDS
  end.

(** ** Exceptions, oracles and the module state *)

(** What a JavaScript computation can throw in this code. *)
Inductive exn :=
  | RangeError                          (* [toISOString] of an invalid date *)
  | TransportError (status : option Z)  (* axios: timeout, network, non-2xx *)
  | DecodeError                         (* protobuf decoding *)
  | DatabaseError.                      (* the document store *)

Inductive outcome (A : Type) :=
  | Returned (a : A)
  | Thrown (e : exn).
Arguments Returned {A} a.
Arguments Thrown {A} e.

(** *** The decoded feed (the fields the code reads) *)

Module Gtfs.

(** An int64 field is a plain number or a [Long] object with a signed
    [low] and [high] word, depending on the protobuf runtime. *)
Inductive JsTime :=
  | TimeNumber (n : Z)
  | TimeLong (low high : Z).

Record StopTimeEvent := {
  time : option JsTime;
  delay : option Z;
}.

Record StopTimeUpdate := {
  stop_id : string;
  arrival : option StopTimeEvent;
}.

Record NyctTripDescriptor := {
  train_id : option string;
  is_assigned : option bool;
}.

Record TripDescriptor := {
  trip_id : option string;
  route_id : string;
  (** [trip.extensions['nyct_trip_descriptor']], [None] when [extensions]
      or the key is missing *)
  nyct_trip_descriptor : option NyctTripDescriptor;
}.

Record TripUpdate := {
  trip : option TripDescriptor;
  stop_time_update : option (list StopTimeUpdate);
}.

Record FeedEntity := {
  trip_update : option TripUpdate;
}.

Record FeedMessage := {
  header_timestamp : Q;
  entity : list FeedEntity;
}.

End Gtfs.
Import Gtfs.

(** [{ header: { timestamp: now / 1000 }, entity: [] }] *)
Definition emptyFeed (now : Z) : FeedMessage :=
  {| header_timestamp := inject_Z now / 1000; entity := [] |}.

(** *** The station document of [gtfs_processed_stations] *)

Record Station := {
  station_name : string;
  station_lines : option (list string);
}.

(** *** Environment *)

Record Env := {
  (** [process.env.USE_MOCK_DATA === 'true'], read once at module load *)
  USE_MOCK_DATA : bool;
  (** the n-th reading of the clock, in epoch milliseconds *)
  clock : nat -> Z;
  (** the n-th outcome of [Math.random ()] *)
  random : nat -> Q;
  (** the n-th request of the process, to the given URL *)
  axios_get : nat -> string -> outcome (list Byte.byte);
  (** [GtfsRealtimeBindings.transit_realtime.FeedMessage.decode] *)
  decode : list Byte.byte -> outcome FeedMessage;
  (** [connectToDatabase] followed by [findOne ({ id })] *)
  findStation : string -> outcome (option Station);
}.

(** *** State *)

Record State := {
  apiCache_data : gmap string FeedMessage;
  apiCache_timestamp : gmap string Z;
  clock_reads : nat;
  random_draws : nat;
  (** the URLs requested so far, oldest first *)
  requests : list string;
}.

(** The state of a freshly loaded module. *)
Definition initial_state : State :=
  {| apiCache_data := ∅; apiCache_timestamp := ∅;
     clock_reads := 0; random_draws := 0; requests := [] |}.

(** *** The monad *)

Definition M (A : Type) : Type := State -> outcome A * State.

Definition ret {A} (a : A) : M A := fun s => (Returned a, s).

Definition bind {A B} (m : M A) (k : A -> M B) : M B :=
  fun s => match m s with
           | (Returned a, s') => k a s'
           | (Thrown e, s') => (Thrown e, s')
           end.

Definition throw {A} (e : exn) : M A := fun s => (Thrown e, s).

(** [try { m } catch (error) { h error }] *)
Definition try_catch {A} (m : M A) (h : exn -> M A) : M A :=
  fun s => match m s with
           | (Returned a, s') => (Returned a, s')
           | (Thrown e, s') => h e s'
           end.

Definition lift {A} (o : outcome A) : M A := fun s => (o, s).

Declare Scope js_scope.
Delimit Scope js_scope with js.
Notation "'let*' x := m 'in' k" := (bind m (fun x => k))
  (at level 10, x name, m at level 100, k at level 200,
   format "'[v' 'let*'  x  :=  m  'in' '/' k ']'") : js_scope.
Local Open Scope js_scope.

(** [for] over an array, collecting what each round yields. *)
Fixpoint mapM {A B} (f : A -> M B) (l : list A) : M (list B) :=
  match l with
  | [] => ret []
  | x :: rest => let* y := f x in let* ys := mapM f rest in ret (y :: ys)
  end.

(** [for (let i = 0; i < n; i++)] *)
Fixpoint repeatM {A} (n : nat) (m : M A) : M (list A) :=
  match n with
  | O => ret []
  | S n' => let* y := m in let* ys := repeatM n' m in ret (y :: ys)
  end.

Section Oracles.
Context (env : Env).

(** [Date.now ()] *)
Definition Date_now : M Z :=
  fun s => (Returned (clock env (clock_reads s)),
            {| apiCache_data := apiCache_data s;
               apiCache_timestamp := apiCache_timestamp s;
               clock_reads := S (clock_reads s);
               random_draws := random_draws s;
               requests := requests s |}).

(** [Math.random ()] *)
Definition Math_random : M Q :=
  fun s => (Returned (random env (random_draws s)),
            {| apiCache_data := apiCache_data s;
               apiCache_timestamp := apiCache_timestamp s;
               clock_reads := clock_reads s;
               random_draws := S (random_draws s);
               requests := requests s |}).

(** [Math.floor (Math.random () * n)] *)
Definition random_below (n : Z) : M Z :=
  let* r := Math_random in ret (Qfloor (r * inject_Z n)).

(** [await axios.get (url, { responseType: 'arraybuffer' })] *)
Definition axios_request (url : string) : M (list Byte.byte) :=
  fun s => (axios_get env (length (requests s)) url,
            {| apiCache_data := apiCache_data s;
               apiCache_timestamp := apiCache_timestamp s;
               clock_reads := clock_reads s;
               random_draws := random_draws s;
               requests := requests s ++ [url] |}).

(** [apiCache.data[feedId] = feed; apiCache.timestamp[feedId] = now] *)
Definition cache_store (feedId : string) (feed : FeedMessage) (now : Z) : M unit :=
  fun s => (Returned tt,
            {| apiCache_data := <[feedId := feed]> (apiCache_data s);
               apiCache_timestamp := <[feedId := now]> (apiCache_timestamp s);
               clock_reads := clock_reads s;
               random_draws := random_draws s;
               requests := requests s |}).

(** [apiCache.data[feedId] && now - apiCache.timestamp[feedId] < 30000]:
    the cached feed when the test holds. A missing time stamp makes the
    difference [NaN] and the comparison false. *)
Definition cache_lookup (feedId : string) (now : Z) : M (option FeedMessage) :=
  fun s => (Returned
              match apiCache_data s !! feedId, apiCache_timestamp s !! feedId with
              | Some feed, Some t => if now - t <? 30000 then Some feed else None
              | _, _ => None
              end, s).

(** ** Feed decoder *)

Definition parseGtfsRealtimeFeed (buffer : list Byte.byte) : M FeedMessage :=
  try_catch (lift (decode env buffer))
            (fun _ => let* now := Date_now in ret (emptyFeed now)).

(** ** Feed fetcher *)

(** [MTA_FEEDS[feedId]?.url || 'gtfs']. For a feed id the registry does not
    have the read gives [undefined] or a member of [Object.prototype], and
    neither has a [url]. *)
Definition feedUrl (feedId : string) : string :=
  match assoc feedId MTA_FEEDS with
  | Some feed => if JsString.truthy (Some (feed_url feed)) then feed_url feed else "gtfs"
  | None => "gtfs"
  end.

Definition fetchMtaFeed (feedId : string) : M FeedMessage :=
  let* now := Date_now in
  let* cached := cache_lookup feedId now in
  match cached with
  | Some feed => ret feed
  | None =>
      if USE_MOCK_DATA env then ret (emptyFeed now)
      else
        try_catch
          (let* response := axios_request (MTA_API_BASE_URL +:+ feedUrl feedId) in
           let* feed := parseGtfsRealtimeFeed response in
           let* _ := cache_store feedId feed now in
           ret feed)
          (fun _ => ret (emptyFeed now))
  end.

End Oracles.

(** ** Normalized arrivals *)

Inductive Direction := NORTH | SOUTH.

Module Normalized.

(** The object [getTrainArrivals] pushes. [direction] is absent from the
    objects of [generateMockArrivals]; [id] and [trainId] are absent when the
    trip descriptor carries no [trip_id]. *)
Record NormalizedArrival := {
  id : option string;
  line : string;
  direction : option Direction;
  destination : JsObject.Value;
  arrivalTime : Z;
  delay : Z;
  isRealtime : bool;
  isAssigned : bool;
  color : JsObject.Value;
  trainId : option string;
}.

End Normalized.
Import Normalized.

(** [new Date (ms).toISOString ()]: a time value beyond 8.64e15 ms makes an
    invalid date, on which [toISOString] throws. *)
Definition toISOString (ms : Z) : outcome Z :=
  if Z.abs ms <=? 8640000000000000 then Returned ms else Thrown RangeError.

(** [list.sort ((a, b) => key a - key b)]: the sort is stable, so the result
    is the one of inserting from the right, each element before the first
    one that is not smaller. *)
Section Sort.
Context {A : Type} (key : A -> Z).

Fixpoint insert_by (x : A) (l : list A) : list A :=
  match l with
  | [] => [x]
  | y :: rest => if key x <=? key y then x :: l else y :: insert_by x rest
  end.

Definition sort_by (l : list A) : list A := foldr insert_by [] l.
End Sort.

(** [formatStopId] *)
Definition formatStopId (stationId : string) (dir : Direction) : string :=
  stationId +:+ match dir with NORTH => "N" | SOUTH => "S" end.

(** [getNyctTripDescriptor] *)
Definition getNyctTripDescriptor (trip : TripDescriptor) : option NyctTripDescriptor :=
  nyct_trip_descriptor trip.

Definition known_destinations : list (string * string) :=
  [ ("TSQ", "Times Square"); ("GCT", "Grand Central"); ("14S", "14 St");
    ("34S", "34 St"); ("SFC", "South Ferry"); ("WTC", "World Trade Center");
    ("ATL", "Atlantic Av"); ("CIY", "Coney Island"); ("BBR", "Brighton Beach");
    ("FHL", "Flatbush Av"); ("UST", "Utica Av"); ("NLT", "New Lots Av");
    ("ENY", "East New York");
    ("WPK", "Wakefield"); ("WOD", "Woodlawn"); ("PBP", "Pelham Bay Park");
    ("ECD", "Eastchester");
    ("FLS", "Flushing"); ("JAM", "Jamaica Center"); ("179", "179 St Jamaica");
    ("Van Cortlandt Park", "Van Cortlandt Park"); ("South Ferry", "South Ferry");
    ("Wakefield", "Wakefield"); ("Flatbush Av", "Flatbush Av");
    ("Harlem", "Harlem"); ("New Lots Av", "New Lots Av") ]%string.

(** [getDestinationName]: [destinations[destination] || destinations['DEFAULT']],
    the table ending in the entry ['DEFAULT': destination]. The argument is
    a string, or the [undefined] that [getRandomDestination] can return. *)
Definition getDestinationName (destination : option string) : JsObject.Value :=
  let destinations :=
    JsObject.strings known_destinations
    ++ [("DEFAULT"%string, JsObject.of_option destination)] in
  JsObject.or_else (JsObject.read (JsObject.to_key destination) destinations)
                   (JsObject.read "DEFAULT" destinations).

Definition line_destinations : list (string * list string) :=
  [ ("1", ["Van Cortlandt Park"; "South Ferry"]);
    ("2", ["Wakefield"; "Flatbush Av"]);
    ("3", ["Harlem"; "New Lots Av"]);
    ("4", ["WOD"; "UST"; "NLT"]);
    ("5", ["ECD"; "FHL"]);
    ("6", ["PBP"; "BBR"]);
    ("7", ["FLS"; "34S"]);
    ("A", ["207"; "FAR"; "RPK"]);
    ("C", ["168"; "EUC"]);
    ("E", ["JAM"; "WTC"]);
    ("B", ["BPK"; "BBR"]);
    ("D", ["NWD"; "CIY"]);
    ("F", ["179"; "CIY"]);
    ("M", ["71A"; "MET"]);
    ("G", ["CTQ"; "CHA"]);
    ("J", ["JAM"; "BRS"]);
    ("Z", ["JAM"; "BRS"]);
    ("L", ["CAN"; "8AV"]);
    ("N", ["AST"; "CIY"]);
    ("Q", ["96S"; "CIY"]);
    ("R", ["71A"; "BAY"]);
    ("W", ["AST"; "WHS"]);
    ("S", ["TSQ"; "GCT"]);
    ("SI", ["STG"; "TOT"]) ]%string.

Section Core.
Context (env : Env).

(** ** Synthetic arrival generator *)

(** [list[Math.floor (Math.random () * list.length)]]: [undefined] for an
    index outside of the list. *)
Definition pickRandom (list : list string) : M (option string) :=
  let* i := random_below env (Z.of_nat (length list)) in
  ret (if i <? 0 then None else list !! Z.to_nat i).

(** [getRandomDestination]. For a line that names a member of
    [Object.prototype], [destinations[line]] is that member, which is
    truthy: its [length] is a number or [undefined], and it has no element
    at any index, so that after the draw the read gives [undefined]. *)
Definition getRandomDestination (line : string) : M (option string) :=
  match JsObject.get line line_destinations with
  | JsObject.Own lineDestinations => pickRandom lineDestinations
  | JsObject.Inherited => let* _ := Math_random env in ret None
  | JsObject.Missing => pickRandom ["UNK"%string]
  end.

(** One round of the inner [for] loop of [generateMockArrivals]. *)
Definition mockArrival (now : Z) (line : string) : M NormalizedArrival :=
  let* r := random_below env 30 in
  let minutesFromNow := r + 2 in
  let arrivalTime := now + minutesFromNow * 60 * 1000 in
  let* p := Math_random env in
  let* delayMinutes :=
    (if negb (Qle_bool (3 # 10) p)
     then let* d := random_below env 5 in ret (d + 1)
     else ret 0) in
  let* n := random_below env 100000 in
  let tripId := line +:+ "_" +:+ JsString.of_Z n in
  let* dest := getRandomDestination line in
  let* q := Math_random env in
  let* t := random_below env 10000 in
  ret {| id := Some tripId;
         line := line;
         direction := None;
         destination := getDestinationName dest;
         arrivalTime := arrivalTime;
         delay := delayMinutes * 60;
         isRealtime := true;
         isAssigned := negb (Qle_bool q (2 # 10));
         color := lineColor line;
         trainId := Some ("0 " +:+ line +:+ JsString.of_Z t) |}.

(** The body of [lines.forEach]. *)
Definition mockArrivalsOfLine (now : Z) (line : string) : M (list NormalizedArrival) :=
  let* k := random_below env 4 in
  let numArrivals := k + 2 in
  repeatM (Z.to_nat numArrivals) (mockArrival now line).

Definition generateMockArrivals (station : Station) : M (list NormalizedArrival) :=
  let* now := Date_now env in
  let lines := default [] (station_lines station) in
  match lines with
  | [] => ret []
  | _ =>
      let* blocks := mapM (mockArrivalsOfLine now) lines in
      ret (sort_by arrivalTime (concat blocks))
  end.

End Core.

(** ** Arrival extractor *)

(** [update.arrival?.time?.low || update.arrival?.time], as the number the
    later comparison and multiplication make of it; [None] when the
    expression is falsy ([undefined], or the number 0). A [Long] whose low
    word is 0 is kept as the object, which is truthy and converts (through
    [toString]) to the number it holds. *)
Definition arrivalTimeOf (update : StopTimeUpdate) : option Z :=
  match arrival update with
  | None => None
  | Some ev =>
      match Gtfs.time ev with
      | None => None
      | Some (TimeNumber n) => if n =? 0 then None else Some n
      | Some (TimeLong low high) => if low =? 0 then Some (high * 2 ^ 32) else Some low
      end
  end.

(** The destination code of a trip: from the [trip_id] after [..], else
    from the NYCT train id after [/]. *)
Definition destinationCode (trip : TripDescriptor)
    (nyctTrip : option NyctTripDescriptor) : string :=
  if JsString.truthy (trip_id trip)
     && JsString.includes_dotdot (default ""%string (trip_id trip))
  then
    default "Unknown"%string
      (JsString.or_else (JsString.split_dotdot (default ""%string (trip_id trip)) !! 1%nat)
                        (Some "Unknown"%string))
  else
    match nyctTrip with
    | Some nyct =>
        if JsString.truthy (train_id nyct) then
          let trainIdParts := JsString.split_slash (default ""%string (train_id nyct)) in
          if (1 <? Z.of_nat (length trainIdParts))
          then default "Unknown"%string (trainIdParts !! 1%nat)
          else "Unknown"%string
        else "Unknown"%string
    | None => "Unknown"%string
    end.

(** The body of the loop over [tripUpdate.stop_time_update], for the clock
    reading [now] in epoch seconds: the arrivals it pushes (none or one). *)
Definition extractUpdate (stationId : string) (now : Z) (trip : TripDescriptor)
    (nyctTrip : option NyctTripDescriptor) (update : StopTimeUpdate)
  : M (list NormalizedArrival) :=
  let northStopId := formatStopId stationId NORTH in
  let southStopId := formatStopId stationId SOUTH in
  if String.eqb (stop_id update) northStopId || String.eqb (stop_id update) southStopId
  then
    match arrivalTimeOf update with
    | Some arrivalTime =>
        if now <? arrivalTime then
          let dir := if JsString.endsWith_N (stop_id update) then NORTH else SOUTH in
          let routeId := route_id trip in
          let dest := destinationCode trip nyctTrip in
          let* iso := lift (toISOString (arrivalTime * 1000)) in
          ret [ {| id := trip_id trip;
                   line := routeId;
                   direction := Some dir;
                   destination := getDestinationName (Some dest);
                   arrivalTime := iso;
                   delay := default 0 (arrival update ≫= Gtfs.delay);
                   isRealtime := true;
                   isAssigned := default false (nyctTrip ≫= is_assigned);
                   color := lineColor routeId;
                   trainId := JsString.or_else (nyctTrip ≫= train_id) (trip_id trip) |} ]
        else ret []
    | None => ret []
    end
  else ret [].

(** The body of the loop over [feed.entity]. *)
Definition extractEntity (stationId : string) (now : Z) (e : FeedEntity)
  : M (list NormalizedArrival) :=
  match trip_update e with
  | Some tripUpdate =>
      match stop_time_update tripUpdate with
      | Some updates =>
          match trip tripUpdate with
          | None => ret []
          | Some trip =>
              let nyctTrip := getNyctTripDescriptor trip in
              let* found := mapM (extractUpdate stationId now trip nyctTrip) updates in
              ret (concat found)
          end
      | None => ret []
      end
  | None => ret []
  end.

Definition extractFeed (stationId : string) (now : Z) (feed : FeedMessage)
  : M (list NormalizedArrival) :=
  let* found := mapM (extractEntity stationId now) (entity feed) in
  ret (concat found).

(** The loop over [feeds]: the array [arrivals] when it ends. *)
Definition extractArrivals (stationId : string) (now : Z) (feeds : list FeedMessage)
  : M (list NormalizedArrival) :=
  let* found := mapM (extractFeed stationId now) feeds in
  ret (concat found).

(** ** [getTrainArrivals] *)

Record StationInfo := {
  info_id : string;
  info_name : string;
  info_lines : list string;
}.

(** What [getTrainArrivals] resolves to; the [catch] branch leaves
    [station] out. *)
Record TrainArrivals := {
  arrivals : list NormalizedArrival;
  station : option StationInfo;
}.

Section GetTrainArrivals.
Context (env : Env).

(** The fetches of [Promise.all] are taken one after the other, in the
    order of [relevantFeeds]: its feed ids differ from one another, so that no
    fetch reads or writes the cache entry of another. *)
Definition getTrainArrivals (stationId : string) : M TrainArrivals :=
  try_catch
    (let* found := lift (findStation env stationId) in
     match found with
     | None =>
         ret {| arrivals := [];
                station := Some {| info_id := stationId;
                                   info_name := "Unknown Station";
                                   info_lines := [] |} |}
     | Some st =>
         let relevantFeeds := getRelevantFeeds (station_lines st) in
         let* arrivals :=
           (if USE_MOCK_DATA env then generateMockArrivals env st
            else
              let* feeds := mapM (fetchMtaFeed env) relevantFeeds in
              let* ms := Date_now env in
              let now := ms `div` 1000 in
              let* arrivals := extractArrivals stationId now feeds in
              if (Z.of_nat (length arrivals) =? 0)
              then generateMockArrivals env st
              else ret arrivals) in
         ret {| arrivals := sort_by arrivalTime arrivals;
                station := Some {| info_id := stationId;
                                   info_name := station_name st;
                                   info_lines := default [] (station_lines st) |} |}
     end)
    (fun _ => ret {| arrivals := []; station := None |}).

End GetTrainArrivals.

(** ** The merge of [GET /api/station/[stationId]] *)

Module Route.

(** An entry of [getStationSchedule]. *)
Record ScheduledDeparture := {
  trip_id : string;
  route_short_name : string;
  headsign : string;
  arrival_timestamp : Z;
  route_color : string;
}.

(** An entry of [combinedArrivals]. The entries made of a scheduled
    departure have no [currentRating] and no [trainId]. *)
Record Arrival := {
  id : option string;
  line : string;
  destination : JsObject.Value;
  arrivalTime : Z;
  currentRating : option Q;
  color : JsObject.Value;
  delay : Z;
  isRealtime : bool;
  trainId : option string;
}.

(** [getLineColor], with a table of its own equal to [lineColors]. *)
Definition getLineColor (line : string) : JsObject.Value :=
  JsObject.or_else (JsObject.read line (JsObject.strings lineColors))
                   (JsObject.Str "#808183").

(** [trainInfo?.currentRating || 5] *)
Definition ratingOr5 (trainInfo : option Q) : Q :=
  match trainInfo with
  | Some r => if Qeq_bool r 0 then 5%Q else r
  | None => 5%Q
  end.

(** The object built for one entry of [mtaData.arrivals]; [trainInfo] is
    what [Train.findOne ({ trainId: train.id })] found. *)
Definition fromTrain (train : NormalizedArrival) (trainInfo : option Q) : Arrival :=
  {| id := Normalized.id train;
     line := Normalized.line train;
     destination := Normalized.destination train;
     arrivalTime := Normalized.arrivalTime train;
     currentRating := Some (ratingOr5 trainInfo);
     color := Normalized.color train;
     delay := Normalized.delay train;
     isRealtime := true;
     trainId := JsString.or_else (Normalized.trainId train) (Normalized.id train) |}.

(** The object pushed for a scheduled departure without a real-time
    equivalent. *)
Definition fromScheduled (scheduled : ScheduledDeparture) : Arrival :=
  {| id := Some (trip_id scheduled);
     line := route_short_name scheduled;
     destination := JsObject.Str (headsign scheduled);
     arrivalTime := arrival_timestamp scheduled;
     currentRating := None;
     color := JsObject.or_else (JsObject.Str (route_color scheduled))
                               (getLineColor (route_short_name scheduled));
     delay := 0;
     isRealtime := false;
     trainId := None |}.

(** The predicate of [realtimeArrivals.some]. *)
Definition sameTrain (scheduled : ScheduledDeparture) (rt : Arrival) : bool :=
  String.eqb (line rt) (route_short_name scheduled)
  && (Z.abs (arrivalTime rt - arrival_timestamp scheduled) <? 120000).

Definition hasRealtime (realtimeArrivals : list Arrival)
    (scheduled : ScheduledDeparture) : bool :=
  existsb (sameTrain scheduled) realtimeArrivals.

(** Lines 132 to 153: [combinedArrivals] after the [forEach]. *)
Definition combineArrivals (realtimeArrivals : list Arrival)
    (scheduledDepartures : list ScheduledDeparture) : list Arrival :=
  fold_left
    (fun combinedArrivals scheduled =>
       if hasRealtime realtimeArrivals scheduled
       then combinedArrivals
       else combinedArrivals ++ [fromScheduled scheduled])
    scheduledDepartures realtimeArrivals.

(** Lines 132 to 162: [filteredArrivals], for the clock reading [now]. *)
Definition mergeArrivals (realtimeArrivals : list Arrival)
    (scheduledDepartures : list ScheduledDeparture) (now : Z) : list Arrival :=
  let combinedArrivals := combineArrivals realtimeArrivals scheduledDepartures in
  let sorted := sort_by arrivalTime combinedArrivals in
  List.filter (fun a => now <? arrivalTime a) sorted.

(** Lines 100 to 130: the real-time arrivals of the request. [ratings]
    answers [Train.findOne]; a failure of it, as any other, leaves
    [realtimeArrivals] empty. *)
Definition realtimeArrivals (env : Env) (ratings : option string -> outcome (option Q))
    (useRealtime : bool) (stationId : string) : M (list Arrival) :=
  if useRealtime then
    try_catch
      (let* mtaData := getTrainArrivals env stationId in
       mapM (fun train =>
               let* trainInfo := lift (ratings (Normalized.id train)) in
               ret (fromTrain train trainInfo))
            (arrivals mtaData))
      (fun _ => ret [])
  else ret [].

End Route.

(** ** The rest of [GET /api/station/[stationId]] *)

Module Handler.

(** [Math.round (n / d)] for a positive [d]: the integer nearest to the
    quotient, the upper one of two at equal distance. *)
Definition round_div (n d : Z) : Z := (2 * n + d) `div` (2 * d).

(** An element of [arrivalsWithInfo]: the arrival with its three added
    fields; [delayInfo] is [null] when there is no delay. *)
Record ArrivalInfo := {
  arrival : Route.Arrival;
  minutesUntil : Z;
  delayMinutes : Z;
  delayInfo : option string;
}.

(** The function mapped over [filteredArrivals] (lines 165 to 176). *)
Definition withInfo (now : Z) (a : Route.Arrival) : ArrivalInfo :=
  let minutesUntil := round_div (Route.arrivalTime a - now) 60000 in
  let delayMinutes := round_div (Route.delay a) 60 in
  {| arrival := a;
     minutesUntil := minutesUntil;
     delayMinutes := delayMinutes;
     delayInfo := if 0 <? Route.delay a
                  then Some ("Delayed " +:+ JsString.of_Z delayMinutes +:+ " min")
                  else None |}.

(** [list.slice (0, limit)], for the number [parseInt] made of the [limit]
    parameter: [None] is [NaN], which counts as 0; a negative number counts
    from the end. *)
Definition slice0 {A} (limit : option Z) (l : list A) : list A :=
  match limit with
  | None => []
  | Some k => if 0 <=? k then take (Z.to_nat k) l
              else take (length l - Z.to_nat (- k)) l
  end.

(** [stationDetails], without the [location] it passes on as it is. *)
Record StationDetails := {
  details_id : string;
  details_name : string;
  details_lines : list string;
  scheduled : nat;
  realtime : nat;
}.

Inductive Response :=
  | Json (station : StationDetails) (arrivals : list ArrivalInfo)
  | Error (status : Z) (message : string).

(** What the handler asks of the outside, besides what [getTrainArrivals]
    does. *)
Record Collaborators := {
  (** [connectToDatabase] and the search of lines 36 to 74: the station
      document found, if any *)
  lookupStation : string -> outcome (option Station);
  (** the listing of five stations made for the log (lines 78 to 82) *)
  listStations : outcome unit;
  (** [getStationSchedule], which catches its own errors *)
  getStationSchedule : string -> option Z -> list Route.ScheduledDeparture;
  (** [Train.findOne ({ trainId })]: the [currentRating] of the train *)
  ratings : option string -> outcome (option Q);
}.

(** The parts of the request the handler reads: the route parameter, the
    parsed [limit] and whether [realtime] is not ['false']. *)
Record Request := {
  stationId : option string;
  limit : option Z;
  useRealtime : bool;
}.

Definition GET (env : Env) (db : Collaborators) (request : Request) : M Response :=
  try_catch
    (if negb (JsString.truthy (stationId request))
     then ret (Error 400 "Station ID is required")
     else
       let stationId := default ""%string (stationId request) in
       let* stationExists := lift (lookupStation db stationId) in
       match stationExists with
       | None =>
           let* _ := lift (listStations db) in
           ret (Error 404 "Station not found")
       | Some stationExists =>
           let scheduledDepartures := getStationSchedule db stationId (limit request) in
           let* realtimeArrivals :=
             Route.realtimeArrivals env (ratings db) (useRealtime request) stationId in
           let* now := Date_now env in
           let filteredArrivals :=
             Route.mergeArrivals realtimeArrivals scheduledDepartures now in
           let arrivalsWithInfo := withInfo now <$> filteredArrivals in
           let limitedArrivals := slice0 (limit request) arrivalsWithInfo in
           ret (Json {| details_id := stationId;
                        details_name := station_name stationExists;
                        details_lines := default [] (station_lines stationExists);
                        scheduled := length scheduledDepartures;
                        realtime := length realtimeArrivals |}
                     limitedArrivals)
       end)
    (fun _ => ret (Error 500 "Failed to fetch station data")).

End Handler.

(** * Specification vocabulary *)

(** The feed [feedId] of the registry serves one of [lines]. *)
Definition serves (feedId : string) (lines : list string) : Prop :=
  ∃ feed l, (feedId, feed) ∈ MTA_FEEDS ∧ l ∈ lines ∧ l ∈ feed_lines feed.

(** Ascending by [key], every element against every later one. *)
Definition ascending {A : Type} (key : A -> Z) (l : list A) : Prop :=
  StronglySorted (fun a b => key a <= key b) l.

Module RouteSpec.
Import Route.

(** The real-time arrival [rt] is on the line of [scheduled] and less than
    120 seconds away from its scheduled time. *)
Definition matches (scheduled : ScheduledDeparture) (rt : Arrival) : Prop :=
  line rt = route_short_name scheduled ∧
  Z.abs (arrivalTime rt - arrival_timestamp scheduled) < 120000.

#[global] Instance matches_dec scheduled rt : Decision (matches scheduled rt).
Proof. unfold matches. apply _. Defined.

End RouteSpec.

(** [wp m Q E s]: run from [s], the computation [m] returns a value and a
    state that satisfy [Q], or throws an exception and leaves a state that
    satisfy [E]. *)
Definition wp {A} (m : M A) (Q : A -> State -> Prop) (E : exn -> State -> Prop)
    (s : State) : Prop :=
  match m s with
  | (Returned a, s') => Q a s'
  | (Thrown e, s') => E e s'
  end.

(** No exception escapes. *)
Definition never : exn -> State -> Prop := fun _ _ => False.
(** Exceptions are left unconstrained. *)
Definition anyhow : exn -> State -> Prop := fun _ _ => True.

(** Run from [s], the computation [m] returns [a] and leaves [s']. *)
Definition returns {A} (m : M A) (s : State) (a : A) (s' : State) : Prop :=
  m s = (Returned a, s').

(** [Inv] does not depend on how often the clock and the random generator
    were read. *)
Definition tick_stable (Inv : State -> Prop) : Prop :=
  ∀ s c r, Inv s →
    Inv {| apiCache_data := apiCache_data s;
           apiCache_timestamp := apiCache_timestamp s;
           clock_reads := c; random_draws := r; requests := requests s |}.

(** Every outcome of [Math.random ()] lies in the interval from 0 to 1, 1 excluded. *)
Definition random_ok (env : Env) : Prop :=
  ∀ n, (0 <= random env n)%Q ∧ (random env n < 1)%Q.

(** What every object of [generateMockArrivals] looks like, for the clock
    reading [now] of the generator and the line [ln] it is made for. *)
Definition mock_shape (env : Env) (now : Z) (ln : string) (a : NormalizedArrival) : Prop :=
  line a = ln ∧ isRealtime a = true ∧ direction a = None ∧
  is_Some (id a) ∧ is_Some (trainId a) ∧
  (random_ok env → now + 2 * 60000 <= arrivalTime a <= now + 31 * 60000).

(** The arrivals made for one line. *)
Definition mock_block (env : Env) (now : Z) (ln : string)
    (block : list NormalizedArrival) : Prop :=
  Forall (mock_shape env now ln) block ∧
  (random_ok env → (2 <= length block <= 5)%nat).

(** The states a process can be in: the module is loaded, then
    [getTrainArrivals], the only export, is called any number of times;
    [fetchMtaFeed] is a step of its own so that a call of it can be looked
    at from any of them. *)
Inductive reachable (env : Env) : State -> Prop :=
  | reachable_loaded : reachable env initial_state
  | reachable_getTrainArrivals s stationId :
      reachable env s → reachable env (getTrainArrivals env stationId s).2
  | reachable_fetchMtaFeed s feedId :
      reachable env s → reachable env (fetchMtaFeed env feedId s).2.

(** The cache and the network log of [s'] are those of [s]. *)
Definition same_cache (s s' : State) : Prop :=
  apiCache_data s' = apiCache_data s ∧
  apiCache_timestamp s' = apiCache_timestamp s ∧
  requests s' = requests s.

(** The arrival [a] was pushed for the stop-time update [u], read at the
    clock reading [now] (epoch seconds). *)
Definition emitted_by (now : Z) (u : StopTimeUpdate) (a : NormalizedArrival) : Prop :=
  ∃ t, arrivalTimeOf u = Some t ∧ now < t ∧ arrivalTime a = t * 1000 ∧
       isRealtime a = true.

Definition emitted_by_entity (now : Z) (e : FeedEntity) (a : NormalizedArrival) : Prop :=
  ∃ tu us u, trip_update e = Some tu ∧ stop_time_update tu = Some us ∧
             u ∈ us ∧ emitted_by now u a.

Definition emitted_by_feed (now : Z) (feed : FeedMessage) (a : NormalizedArrival) : Prop :=
  ∃ e, e ∈ entity feed ∧ emitted_by_entity now e a.

(** The time an int64 field holds: the number, or the value of the two
    words of a [Long], the low one taken as unsigned. *)
Definition timeValue (t : JsTime) : Z :=
  match t with
  | TimeNumber n => n
  | TimeLong low high => high * 2 ^ 32 + low `mod` 2 ^ 32
  end.

(** The predicted arrival time of [u], in epoch seconds, when it has one. *)
Definition predictedTime (u : StopTimeUpdate) : option Z :=
  timeValue <$> (arrival u ≫= Gtfs.time).

(** The words of a [Long] are signed 32-bit numbers. *)
Definition words_in_range (u : StopTimeUpdate) : Prop :=
  ∀ low high, arrival u ≫= Gtfs.time = Some (TimeLong low high) →
              - 2 ^ 31 <= low < 2 ^ 31 ∧ - 2 ^ 31 <= high < 2 ^ 31.

(** The time of [u], as the code reads it, makes a valid [Date]. *)
Definition date_in_range (u : StopTimeUpdate) : Prop :=
  ∀ t, arrivalTimeOf u = Some t → Z.abs (t * 1000) <= 8640000000000000.

Definition entity_in_range (e : FeedEntity) : Prop :=
  ∀ tu us u, trip_update e = Some tu → stop_time_update tu = Some us →
             u ∈ us → date_in_range u.

Definition feed_in_range (feed : FeedMessage) : Prop :=
  ∀ e, e ∈ entity feed → entity_in_range e.

(** Either every exception is allowed for, or none can come up. *)
Definition covered (E : exn -> State -> Prop) (in_range : Prop) : Prop :=
  in_range ∨ ∀ e s, E e s.

(** The feeds hold no entity. *)
Definition cache_without_entities (s : State) : Prop :=
  ∀ feedId feed, apiCache_data s !! feedId = Some feed → entity feed = [].

(** ** Cache, generator and merge, in the words of the further properties *)

(** The state after one more reading of the clock. *)
Definition after_clock (s : State) : State :=
  {| apiCache_data := apiCache_data s;
     apiCache_timestamp := apiCache_timestamp s;
     clock_reads := S (clock_reads s);
     random_draws := random_draws s;
     requests := requests s |}.

(** The cache of [s] holds, for [feedId], the feed [feed], stored less than
    30 seconds before [now]. *)
Definition fresh_entry (s : State) (feedId : string) (now : Z) (feed : FeedMessage) : Prop :=
  apiCache_data s !! feedId = Some feed ∧
  ∃ t, apiCache_timestamp s !! feedId = Some t ∧ now - t < 30000.

(** The cache of [s] holds nothing for [feedId], or what it holds was stored
    30 seconds before [now] or earlier. *)
Definition no_fresh_entry (s : State) (feedId : string) (now : Z) : Prop :=
  apiCache_data s !! feedId = None ∨
  apiCache_timestamp s !! feedId = None ∨
  ∃ t, apiCache_timestamp s !! feedId = Some t ∧ 30000 <= now - t.

(** The URL [fetchMtaFeed] asks for. *)
Definition requestUrl (feedId : string) : string :=
  MTA_API_BASE_URL +:+ feedUrl feedId.

(** [Inv] holds on whatever the operations of the module make of a state
    that satisfies it. *)
Definition module_stable (Inv : State -> Prop) : Prop :=
  tick_stable Inv ∧
  (∀ s feedId, Inv s →
     Inv {| apiCache_data := apiCache_data s;
            apiCache_timestamp := apiCache_timestamp s;
            clock_reads := clock_reads s; random_draws := random_draws s;
            requests := requests s ++ [requestUrl feedId] |}) ∧
  (∀ s feedId feed now, Inv s →
     Inv {| apiCache_data := <[feedId := feed]> (apiCache_data s);
            apiCache_timestamp := <[feedId := now]> (apiCache_timestamp s);
            clock_reads := clock_reads s; random_draws := random_draws s;
            requests := requests s |}).

(** The two halves of the cache have the same keys. *)
Definition cache_consistent (s : State) : Prop :=
  dom (apiCache_data s) = dom (apiCache_timestamp s).

(** Every URL requested so far is the URL of a feed of the registry. *)
Definition requests_in_registry (s : State) : Prop :=
  Forall (fun url => ∃ feedId feed, (feedId, feed) ∈ MTA_FEEDS ∧
                                    url = MTA_API_BASE_URL +:+ feed_url feed)
         (requests s).

(** What [getRandomDestination] picks from, for a line: the destination
    codes listed for it, [UNK] for a line without a list, and [undefined]
    alone for a line that names a member of [Object.prototype]. *)
Definition candidates (ln : string) : list (option string) :=
  match JsObject.get ln line_destinations with
  | JsObject.Own lineDestinations => Some <$> lineDestinations
  | JsObject.Inherited => [None]
  | JsObject.Missing => [Some "UNK"%string]
  end.

(** What [mockArrival] fills in besides the time. *)
Definition mock_details (env : Env) (a : NormalizedArrival) : Prop :=
  color a = lineColor (line a) ∧
  (∃ n t, id a = Some (line a +:+ "_" +:+ JsString.of_Z n) ∧
          trainId a = Some ("0 " +:+ line a +:+ JsString.of_Z t) ∧
          (random_ok env → 0 <= n < 100000 ∧ 0 <= t < 10000)) ∧
  (random_ok env →
   (delay a = 0 ∨ ∃ d, 1 <= d <= 5 ∧ delay a = d * 60) ∧
   destination a ∈ (getDestinationName <$> candidates (line a))).

(** What [Train.findOne] found for a train, nothing when it failed. *)
Definition trainInfoOf (ratings : option string -> outcome (option Q))
    (train : NormalizedArrival) : option Q :=
  match ratings (id train) with
  | Returned trainInfo => trainInfo
  | Thrown _ => None
  end.

(** The function mapped over [mtaData.arrivals] (lines 108 to 123). *)
Definition routeEntry (ratings : option string -> outcome (option Q))
    (train : NormalizedArrival) : M Route.Arrival :=
  bind (lift (ratings (id train))) (fun trainInfo => ret (Route.fromTrain train trainInfo)).

(** The scheduled departures the merge keeps. *)
Definition keptScheduled (rts : list Route.Arrival)
    (scheduled : list Route.ScheduledDeparture) : list Route.ScheduledDeparture :=
  filter (fun sd => ¬ Exists (RouteSpec.matches sd) rts) scheduled.

(** ** Sample environments *)

Module Samples.

(** A decoder that takes the empty buffer for the empty message and
    rejects everything else. *)
Definition sample_decode (buffer : list Byte.byte) : outcome FeedMessage :=
  match buffer with
  | [] => Returned {| header_timestamp := 0; entity := [] |}
  | _ => Thrown DecodeError
  end.

Definition times_square : Station :=
  {| station_name := "Times Sq-42 St";
     station_lines := Some ["1"; "2"; "3"]%string |}.

(** A store with station 127 alone; a clock that ticks a millisecond per
    reading; [Math.random ()] always 1/2; a network that is down. *)
Definition sample_env (mock : bool) : Env :=
  {| USE_MOCK_DATA := mock;
     clock := fun n => 1700000000000 + Z.of_nat n;
     random := fun _ => 1 # 2;
     axios_get := fun _ _ => Thrown (TransportError None);
     decode := sample_decode;
     findStation := fun stationId =>
       if String.eqb stationId "127" then Returned (Some times_square)
       else Returned None |}.

(** A store in which every id finds a record named as the placeholder is,
    without lines. *)
Definition nameless_env : Env :=
  {| USE_MOCK_DATA := true;
     clock := fun n => 1700000000000 + Z.of_nat n;
     random := fun _ => 1 # 2;
     axios_get := fun _ _ => Thrown (TransportError None);
     decode := sample_decode;
     findStation := fun _ =>
       Returned (Some {| station_name := "Unknown Station"; station_lines := None |}) |}.

Definition sample_trip : TripDescriptor :=
  {| trip_id := Some "061200_6..N01R"%string;
     route_id := "6";
     nyct_trip_descriptor :=
       Some {| train_id := Some "06 1200 BBR/PEL"%string; is_assigned := Some true |} |}.

Definition update_past : StopTimeUpdate :=
  {| stop_id := "127S";
     arrival := Some {| Gtfs.time := Some (TimeNumber 1699999000); Gtfs.delay := None |} |}.

Definition update_future : StopTimeUpdate :=
  {| stop_id := "127N";
     arrival := Some {| Gtfs.time := Some (TimeLong 1700000060 0);
                        Gtfs.delay := Some 30 |} |}.

(** A [Long] of a time before 1970 (-2594967236 s) whose low word, read on
    its own, is the time of [update_future]. *)
Definition update_before_1970 : StopTimeUpdate :=
  {| stop_id := "127N";
     arrival := Some {| Gtfs.time := Some (TimeLong 1700000060 (-1));
                        Gtfs.delay := None |} |}.

(** A trip descriptor without [trip_id] and without the NYCT extension. *)
Definition anonymous_trip : TripDescriptor :=
  {| trip_id := None; route_id := "6"; nyct_trip_descriptor := None |}.

Definition sample_feed : FeedMessage :=
  {| header_timestamp := 1700000000;
     entity := [ {| trip_update :=
                      Some {| trip := Some sample_trip;
                              stop_time_update := Some [update_past; update_future] |} |} ] |}.

(** What the extractor makes of [sample_feed] for station 127 when the
    clock reads 1700000000 s. *)
Definition sample_arrivals : list NormalizedArrival :=
  Eval vm_compute in
    match extractArrivals "127" 1700000000 [sample_feed] initial_state with
    | (Returned arrs, _) => arrs
    | (Thrown _, _) => []
    end.

(** A real-time entry of line 6 and the timetable entry 90 s after it. *)
Definition sample_realtime : Route.Arrival :=
  {| Route.id := Some "061200_6..N01R"%string;
     Route.line := "6";
     Route.destination := JsObject.Str "Pelham Bay Park";
     Route.arrivalTime := 1700000000000;
     Route.currentRating := Some 5%Q;
     Route.color := JsObject.Str "#00933C";
     Route.delay := 0;
     Route.isRealtime := true;
     Route.trainId := Some "06 1200 BBR/PEL"%string |}.

Definition sample_scheduled : Route.ScheduledDeparture :=
  {| Route.trip_id := "AFA23GEN-6047-Weekday-00_061350_6..N01R";
     Route.route_short_name := "6"; Route.headsign := "Pelham Bay Park";
     Route.arrival_timestamp := 1700000090000; Route.route_color := "00933C" |}.

End Samples.

(** Further sample data. *)

Module Cases.

(** As [Samples.sample_env false], with a network that answers every
    request with the given bytes. *)
Definition answering_env (response : list Byte.byte) : Env :=
  {| USE_MOCK_DATA := false;
     clock := fun n => 1700000000000 + Z.of_nat n;
     random := fun _ => 1 # 2;
     axios_get := fun _ _ => Returned response;
     decode := Samples.sample_decode;
     findStation := fun stationId =>
       if String.eqb stationId "127" then Returned (Some Samples.times_square)
       else Returned None |}.

(** The timetable entry of line 6 ten minutes after [Samples.sample_realtime]. *)
Definition later_scheduled : Route.ScheduledDeparture :=
  {| Route.trip_id := "AFA23GEN-6047-Weekday-00_062200_6..N01R";
     Route.route_short_name := "6"; Route.headsign := "Pelham Bay Park";
     Route.arrival_timestamp := 1700000600000; Route.route_color := "00933C" |}.

(** A store that knows station 127 and rates no train. *)
Definition sample_db : Handler.Collaborators :=
  {| Handler.lookupStation := fun stationId =>
       if String.eqb stationId "127" then Returned (Some Samples.times_square)
       else Returned None;
     Handler.listStations := Returned tt;
     Handler.getStationSchedule := fun _ _ => [Samples.sample_scheduled; later_scheduled];
     Handler.ratings := fun _ => Returned None |}.

Definition sample_request : Handler.Request :=
  {| Handler.stationId := Some "127"%string;
     Handler.limit := Some 20;
     Handler.useRealtime := true |}.

(** Two trains at station 127, the later one first in the feed. *)
Definition unsorted_feed : FeedMessage :=
  {| header_timestamp := 1700000000;
     entity :=
       [ {| trip_update :=
              Some {| trip := Some Samples.sample_trip;
                      stop_time_update :=
                        Some [ {| stop_id := "127S";
                                  arrival := Some {| Gtfs.time := Some (TimeNumber 1700000120);
                                                     Gtfs.delay := None |} |};
                               Samples.update_future ] |} |} ] |}.

(** As [answering_env], with a decoder that makes [unsorted_feed] of every
    response. *)
Definition live_env : Env :=
  {| USE_MOCK_DATA := false;
     clock := fun n => 1700000000000 + Z.of_nat n;
     random := fun _ => 1 # 2;
     axios_get := fun _ _ => Returned [];
     decode := fun _ => Returned unsorted_feed;
     findStation := fun stationId =>
       if String.eqb stationId "127" then Returned (Some Samples.times_square)
       else Returned None |}.

(** A station whose only line is named as a member of [Object.prototype]. *)
Definition prototype_station : Station :=
  {| station_name := "Constructor St"; station_lines := Some ["constructor"%string] |}.

End Cases.


(** * Properties *)

(** ** Feed router *)

Lemma set_add_elem x y s : y ∈ set_add x s ↔ y ∈ s ∨ y = x.
Proof.
  unfold set_add. case_bool_decide as Hx.
  - split; [by left | intros [?| ->]; done].
  - rewrite elem_of_app, list_elem_of_singleton. done.
Qed.

Lemma set_add_NoDup x s : NoDup s → NoDup (set_add x s).
Proof.
  intros Hs. unfold set_add. case_bool_decide as Hx; [done|].
  apply NoDup_app. split_and!; [done| |apply NoDup_singleton].
  intros y Hy ->%list_elem_of_singleton. done.
Qed.

Section RouterFold.
Context (line : string).

Let step (acc : list string) (entry : string * FeedSource) : list string :=
  let '(feedId, feed) := entry in
  if lines_include feed line then set_add feedId acc else acc.

Lemma entries_fold_elem tbl acc f :
  f ∈ fold_left step tbl acc ↔
  f ∈ acc ∨ ∃ feed, (f, feed) ∈ tbl ∧ line ∈ feed_lines feed.
Proof.
  revert acc. induction tbl as [|[k feed] tbl IH]; intros acc; simpl.
  - split; [by left|]. intros [?|(feed & []%elem_of_nil & _)]. done.
  - rewrite IH. unfold lines_include. case_bool_decide as Hin.
    + rewrite set_add_elem. split.
      * intros [[?| ->]|(fd & ? & ?)]; [by left| |].
        -- right. exists feed. split; [left|done].
        -- right. exists fd. split; [by right|done].
      * intros [?|(fd & [[= -> ->]|?]%elem_of_cons & ?)];
          [by left; left|by left; right|right; by exists fd].
    + split.
      * intros [?|(fd & ? & ?)]; [by left|right; exists fd; split; [by right|done]].
      * intros [?|(fd & [[= -> ->]|?]%elem_of_cons & ?)];
          [by left|done|right; by exists fd].
Qed.

Lemma entries_fold_NoDup tbl acc : NoDup acc → NoDup (fold_left step tbl acc).
Proof.
  revert acc. induction tbl as [|[k feed] tbl IH]; intros acc Hacc; simpl; [done|].
  apply IH. destruct (lines_include feed line); [by apply set_add_NoDup|done].
Qed.
End RouterFold.

Lemma add_feeds_of_line_elem acc line f :
  f ∈ add_feeds_of_line acc line ↔
  f ∈ acc ∨ ∃ feed, (f, feed) ∈ MTA_FEEDS ∧ line ∈ feed_lines feed.
Proof. apply entries_fold_elem. Qed.

Lemma add_feeds_of_line_NoDup acc line :
  NoDup acc → NoDup (add_feeds_of_line acc line).
Proof. apply entries_fold_NoDup. Qed.

Lemma lines_fold_elem lines acc f :
  f ∈ fold_left add_feeds_of_line lines acc ↔ f ∈ acc ∨ serves f lines.
Proof.
  revert acc. induction lines as [|l lines IH]; intros acc; simpl.
  - split; [by left|]. intros [?|(feed & l & _ & []%elem_of_nil & _)]. done.
  - rewrite IH, add_feeds_of_line_elem. unfold serves. split.
    + intros [[?|(feed & ? & ?)]|(feed & l' & ? & ? & ?)].
      * by left.
      * right. exists feed, l. split_and!; [done|left|done].
      * right. exists feed, l'. split_and!; [done|by right|done].
    + intros [?|(feed & l' & ? & [->|?]%elem_of_cons & ?)].
      * by left; left.
      * left; right. by exists feed.
      * right. by exists feed, l'.
Qed.

Lemma lines_fold_NoDup lines acc :
  NoDup acc → NoDup (fold_left add_feeds_of_line lines acc).
Proof.
  revert acc. induction lines as [|l lines IH]; intros acc Hacc; simpl; [done|].
  by apply IH, add_feeds_of_line_NoDup.
Qed.

Lemma getRelevantFeeds_unfold lines :
  getRelevantFeeds (Some lines) =
  match fold_left add_feeds_of_line lines [] with
  | [] => object_keys MTA_FEEDS
  | feedIds => feedIds
  end.
Proof.
  destruct lines as [|l lines]; [done|].
  unfold getRelevantFeeds.
  destruct (fold_left add_feeds_of_line (l :: lines) []); done.
Qed.

(** C7. When the station's lines are unknown, empty or met by no feed of the
    registry, the router returns all 8 feed ids of the registry; otherwise
    it returns, each once, exactly the feeds serving one of the lines. *)
Theorem getRelevantFeeds_fail_open_or_exact (stationLines : option (list string)) :
  let lines := default [] stationLines in
  length (object_keys MTA_FEEDS) = 8%nat ∧
  ((∀ feedId, ¬ serves feedId lines) →
     getRelevantFeeds stationLines = object_keys MTA_FEEDS) ∧
  ((∃ feedId, serves feedId lines) →
     NoDup (getRelevantFeeds stationLines) ∧
     ∀ feedId, feedId ∈ getRelevantFeeds stationLines ↔ serves feedId lines).
Proof.
  intros lines. split; [done|].
  destruct stationLines as [ls|]; simpl in lines; subst lines.
  - rewrite getRelevantFeeds_unfold.
    pose proof (lines_fold_elem ls []) as Helem.
    pose proof (lines_fold_NoDup ls [] (NoDup_nil_2)) as Hnd.
    destruct (fold_left add_feeds_of_line ls []) as [|f fs] eqn:Hfold.
    + split; [done|]. intros [f Hf]. exfalso.
      assert (f ∈ @nil string) as []%elem_of_nil. apply Helem. by right.
    + split.
      * intros Hnone. exfalso. apply (Hnone f).
        destruct (proj1 (Helem f)) as [[]%elem_of_nil|?]; [left|done].
      * intros _. split; [done|]. intros g. rewrite Helem. split.
        -- intros [[]%elem_of_nil|?]; done.
        -- by right.
  - split; [done|]. intros [f (feed & l & _ & []%elem_of_nil & _)].
Qed.

(** A station served by the 1, the A and the 2. *)
Lemma getRelevantFeeds_fail_open_or_exact_witness :
  (∃ feedId, serves feedId ["1"; "A"; "2"]%string) ∧
  NoDup (getRelevantFeeds (Some ["1"; "A"; "2"]%string)) ∧
  (∀ feedId, feedId ∈ getRelevantFeeds (Some ["1"; "A"; "2"]%string)
             ↔ serves feedId ["1"; "A"; "2"]%string) ∧
  ((∀ feedId, ¬ serves feedId []) → getRelevantFeeds None = object_keys MTA_FEEDS).
Proof.
  assert (Hex : ∃ feedId, serves feedId ["1"; "A"; "2"]%string).
  { exists "IRT"%string. unfold serves. eexists _, "1"%string.
    split_and!; [by left|by left|by left]. }
  split; [exact Hex|].
  destruct (getRelevantFeeds_fail_open_or_exact (Some ["1"; "A"; "2"]%string))
    as (_ & _ & Hexact).
  destruct (Hexact Hex) as [Hnd Hiff].
  split; [exact Hnd|]. split; [exact Hiff|].
  exact (proj1 (proj2 (getRelevantFeeds_fail_open_or_exact None))).
Defined.

(** ** The stable sort *)

Section SortFacts.
Context {A : Type} (key : A -> Z).

Lemma insert_by_Permutation x l : insert_by key x l ≡ₚ x :: l.
Proof.
  induction l as [|y l IH]; simpl; [done|].
  destruct (key x <=? key y); [done|].
  rewrite IH. apply Permutation_swap.
Qed.

Lemma sort_by_Permutation l : sort_by key l ≡ₚ l.
Proof.
  induction l as [|x l IH]; simpl; [done|].
  by rewrite insert_by_Permutation, IH.
Qed.

Lemma insert_by_ascending x l : ascending key l → ascending key (insert_by key x l).
Proof.
  induction 1 as [|y l Hl IH Hy]; simpl.
  - repeat constructor.
  - destruct (Z.leb_spec (key x) (key y)) as [Hxy|Hxy].
    + constructor; [by constructor|].
      constructor; [done|]. eapply Forall_impl; [exact Hy|]. simpl. lia.
    + constructor; [done|].
      rewrite insert_by_Permutation. constructor; [lia|done].
Qed.

Lemma sort_by_ascending l : ascending key (sort_by key l).
Proof.
  induction l as [|x l IH]; simpl; [constructor|by apply insert_by_ascending].
Qed.

(** A list already in order, neighbour against neighbour, is left as it
    is: the sort is stable. *)
Lemma sort_by_Sorted_id l :
  Sorted (fun a b => key a <= key b) l → sort_by key l = l.
Proof.
  induction 1 as [|x l Hl IH Hx]; simpl; [done|].
  rewrite IH. destruct Hx as [|y l Hxy]; simpl; [done|].
  destruct (Z.leb_spec (key x) (key y)); [done|lia].
Qed.

Lemma ascending_filter (p : A -> bool) l : ascending key l → ascending key (List.filter p l).
Proof.
  induction 1 as [|x l Hl IH Hx]; simpl; [constructor|].
  destruct (p x); [|done]. constructor; [done|].
  apply Forall_forall. intros y Hy%list_elem_of_In%filter_In.
  rewrite Forall_forall in Hx. apply Hx, list_elem_of_In, Hy.
Qed.

Lemma filter_all (p : A -> bool) l : Forall (fun a => p a = true) l → List.filter p l = l.
Proof. induction 1 as [|x l Hx _ IH]; simpl; [done|]. by rewrite Hx, IH. Qed.

Lemma filter_Forall (p : A -> bool) l : Forall (fun a => p a = true) (List.filter p l).
Proof.
  apply Forall_forall. intros y Hy%list_elem_of_In%filter_In. apply Hy.
Qed.
End SortFacts.

(** ** Schedule/real-time merge *)

Lemma filter_Permutation {A} (p : A -> bool) (l l' : list A) :
  l ≡ₚ l' → List.filter p l ≡ₚ List.filter p l'.
Proof.
  induction 1 as [|x l l' _ IH|x y l|l l' l'' _ IH1 _ IH2]; simpl.
  - done.
  - destruct (p x); [by constructor|done].
  - destruct (p x), (p y); try done. apply Permutation_swap.
  - by rewrite IH1.
Qed.

Module RouteFacts.
Import Route RouteSpec.

Lemma sameTrain_matches scheduled rt :
  sameTrain scheduled rt = true ↔ matches scheduled rt.
Proof.
  unfold sameTrain, matches.
  rewrite andb_true_iff, String.eqb_eq, Z.ltb_lt. done.
Qed.

Lemma hasRealtime_Exists rts scheduled :
  hasRealtime rts scheduled = true ↔ Exists (matches scheduled) rts.
Proof.
  unfold hasRealtime. rewrite existsb_exists, Exists_exists.
  split; intros (rt & Hin & Hm); exists rt.
  - split; [by apply list_elem_of_In|by apply sameTrain_matches].
  - split; [by apply list_elem_of_In|by apply sameTrain_matches].
Qed.

(** The loop appends, in order, the scheduled departures it keeps. *)
Lemma combineArrivals_filter rts scheduled :
  combineArrivals rts scheduled =
  rts ++ (fromScheduled <$> filter (fun s => ¬ Exists (matches s) rts) scheduled).
Proof.
  unfold combineArrivals.
  enough (∀ acc, fold_left
            (fun combined s => if hasRealtime rts s then combined
                               else combined ++ [fromScheduled s]) scheduled acc
          = acc ++ (fromScheduled <$> filter (fun s => ¬ Exists (matches s) rts) scheduled))
    as H by apply H.
  induction scheduled as [|s scheduled IH]; intros acc; simpl.
  - by rewrite app_nil_r.
  - rewrite IH, filter_cons.
    destruct (hasRealtime rts s) eqn:Hrt.
    + apply hasRealtime_Exists in Hrt. by rewrite decide_False by tauto.
    + rewrite decide_True.
      * by rewrite fmap_cons, <- app_assoc.
      * rewrite <- hasRealtime_Exists. congruence.
Qed.

Lemma mergeArrivals_ascending rts scheduled now :
  ascending arrivalTime (mergeArrivals rts scheduled now).
Proof. unfold mergeArrivals. apply ascending_filter, sort_by_ascending. Qed.

Lemma mergeArrivals_future rts scheduled now :
  Forall (fun a => now < arrivalTime a) (mergeArrivals rts scheduled now).
Proof.
  unfold mergeArrivals. eapply Forall_impl; [apply filter_Forall|].
  simpl. intros a. by rewrite Z.ltb_lt.
Qed.

Lemma mergeArrivals_fixed l now :
  Sorted (fun a b => arrivalTime a <= arrivalTime b) l →
  Forall (fun a => now < arrivalTime a) l →
  mergeArrivals l [] now = l.
Proof.
  intros Hsorted Hfuture. unfold mergeArrivals, combineArrivals. simpl.
  rewrite sort_by_Sorted_id by done.
  apply filter_all. eapply Forall_impl; [exact Hfuture|].
  simpl. intros a. by rewrite Z.ltb_lt.
Qed.

(** Merging what a merge returned changes nothing. *)
Lemma mergeArrivals_again rts scheduled now :
  mergeArrivals (mergeArrivals rts scheduled now) [] now
  = mergeArrivals rts scheduled now.
Proof.
  apply mergeArrivals_fixed.
  - apply StronglySorted_Sorted, mergeArrivals_ascending.
  - apply mergeArrivals_future.
Qed.

(** At a distance of exactly 120 seconds the scheduled departure stays. *)
Lemma combineArrivals_at_120s rt scheduled :
  line rt = route_short_name scheduled →
  arrival_timestamp scheduled = arrivalTime rt + 120000 →
  combineArrivals [rt] [scheduled] = [rt; fromScheduled scheduled].
Proof.
  intros Hline Htime. unfold combineArrivals, hasRealtime, sameTrain. simpl.
  rewrite Htime.
  replace (arrivalTime rt - (arrivalTime rt + 120000)) with (-120000) by lia.
  by rewrite andb_false_r.
Qed.

(** C1. The merge step keeps the real-time arrivals and appends, in order,
    exactly the scheduled departures for which no real-time arrival of the
    same line lies less than 120 seconds (120000 ms) from the scheduled
    time; the others are dropped. In particular, for a real-time arrival
    of line 6 at [T] and a scheduled departure of line 6 at [T] + 90 s the
    combined list holds one entry, the real-time one, and so does the
    merged output when [T] is after the merge time. *)
Theorem merge_drops_scheduled_iff_realtime_within_120s :
  (∀ (rts : list Arrival) (scheduled : list ScheduledDeparture),
     combineArrivals rts scheduled =
     rts ++ (fromScheduled <$> filter (fun s => ¬ Exists (matches s) rts) scheduled)) ∧
  (∀ (rts : list Arrival) (s : ScheduledDeparture),
     ¬ Exists (matches s) rts ↔
     ¬ ∃ rt, rt ∈ rts ∧ line rt = route_short_name s ∧
             Z.abs (arrivalTime rt - arrival_timestamp s) < 120000) ∧
  (∀ T rt s,
     line rt = "6"%string → arrivalTime rt = T →
     route_short_name s = "6"%string → arrival_timestamp s = T + 90000 →
     combineArrivals [rt] [s] = [rt] ∧
     length (combineArrivals [rt] [s]) = 1%nat ∧
     ∀ now, now < T → mergeArrivals [rt] [s] now = [rt]).
Proof.
  split; [apply combineArrivals_filter|]. split.
  - intros rts s. rewrite Exists_exists. done.
  - intros T rt s Hl Ht Hr Hs.
    assert (Hc : combineArrivals [rt] [s] = [rt]).
    { unfold combineArrivals, hasRealtime, sameTrain. simpl.
      rewrite Hl, Hr, Hs, Ht.
      replace (T - (T + 90000)) with (-90000) by lia. done. }
    split; [done|]. split; [by rewrite Hc|].
    intros now Hnow. unfold mergeArrivals. rewrite Hc. simpl.
    rewrite Ht. by apply Z.ltb_lt in Hnow as ->.
Qed.

(** Line 6 at 22:13:20 UTC of 14 November 2023, the timetable 90 s later. *)
Lemma merge_drops_scheduled_iff_realtime_within_120s_witness :
  combineArrivals [Samples.sample_realtime] [Samples.sample_scheduled] = [Samples.sample_realtime] ∧
  length (combineArrivals [Samples.sample_realtime] [Samples.sample_scheduled]) = 1%nat ∧
  mergeArrivals [Samples.sample_realtime] [Samples.sample_scheduled] 1699999990000 = [Samples.sample_realtime].
Proof.
  destruct merge_drops_scheduled_iff_realtime_within_120s as (_ & _ & H).
  destruct (H 1700000000000 Samples.sample_realtime Samples.sample_scheduled
              eq_refl eq_refl eq_refl eq_refl) as (Hc & Hlen & Hm).
  split; [exact Hc|]. split; [exact Hlen|].
  apply Hm. reflexivity.
Defined.

(** C8. An arrival list that is sorted ascending by arrival time and lies
    wholly after the merge time is returned as it is, in the same order,
    when it is merged with no scheduled departure at that merge time. *)
Theorem merge_idempotent_on_merged_list (l : list Arrival) (now : Z) :
  Sorted (fun a b => arrivalTime a <= arrivalTime b) l →
  Forall (fun a => now < arrivalTime a) l →
  mergeArrivals l [] now = l.
Proof. apply mergeArrivals_fixed. Qed.

Lemma merge_idempotent_on_merged_list_witness :
  mergeArrivals [Samples.sample_realtime; fromScheduled Samples.sample_scheduled] [] 1699999990000
  = [Samples.sample_realtime; fromScheduled Samples.sample_scheduled].
Proof.
  apply merge_idempotent_on_merged_list.
  - repeat constructor. simpl. lia.
  - repeat constructor; simpl; lia.
Defined.

End RouteFacts.

(** ** A program logic for the monad *)

Section Logic.
Context {A B : Type}.
Implicit Types (Q : A -> State -> Prop) (E : exn -> State -> Prop).

Lemma wp_ret (a : A) Q E s : Q a s → wp (ret a) Q E s.
Proof. done. Qed.

Lemma wp_lift_returned (a : A) Q E s : Q a s → wp (lift (Returned a)) Q E s.
Proof. done. Qed.

Lemma wp_lift (o : outcome A) Q E s :
  match o with Returned a => Q a s | Thrown e => E e s end → wp (lift o) Q E s.
Proof. unfold wp, lift. by destruct o. Qed.

Lemma wp_bind (m : M A) (k : A -> M B) (R : B -> State -> Prop) E s :
  wp m (fun a s' => wp (k a) R E s') E s → wp (bind m k) R E s.
Proof. unfold wp, bind. by destruct (m s) as [[a|e] s']. Qed.

Lemma wp_try_catch (m : M A) (h : exn -> M A) Q E s :
  wp m Q (fun e s' => wp (h e) Q E s') s → wp (try_catch m h) Q E s.
Proof. unfold wp, try_catch. by destruct (m s) as [[a|e] s']. Qed.

Lemma wp_mono (m : M A) Q Q' E E' s :
  wp m Q E s →
  (∀ a s', Q a s' → Q' a s') → (∀ e s', E e s' → E' e s') →
  wp m Q' E' s.
Proof. unfold wp. destruct (m s) as [[a|e] s']; eauto. Qed.

Lemma wp_returns (m : M A) Q s :
  wp m Q never s ↔ ∃ a s', returns m s a s' ∧ Q a s'.
Proof.
  unfold wp, returns, never. destruct (m s) as [[a|e] s'].
  - split; [by exists a, s'|]. by intros (? & ? & [= <- <-] & ?).
  - split; [done|]. by intros (? & ? & [=] & ?).
Qed.

Lemma wp_anyhow (m : M A) Q s :
  wp m Q anyhow s ↔ ∀ a s', returns m s a s' → Q a s'.
Proof.
  unfold wp, returns, anyhow. destruct (m s) as [[a|e] s'].
  - split; [by intros ? ? ? [= <- <-]|]. intros H. by apply H.
  - split; [by intros _ ? ? [=]|done].
Qed.
End Logic.

(** A loop over an array: [Inv] holds of the state between the rounds,
    [P x y] of what the round of [x] yields. *)
Lemma wp_mapM {A B} (f : A -> M B) (Inv : State -> Prop) (P : A -> B -> Prop) E l s :
  (∀ x s0, x ∈ l → Inv s0 → wp (f x) (fun y s' => P x y ∧ Inv s') E s0) →
  Inv s →
  wp (mapM f l) (fun ys s' => Forall2 P l ys ∧ Inv s') E s.
Proof.
  revert s. induction l as [|x l IH]; intros s Hf Hs; simpl.
  - apply wp_ret. simpl. by split.
  - unfold wp, bind. specialize (Hf x s (list_elem_of_here _ _) Hs) as Hx.
    unfold wp in Hx. destruct (f x s) as [[y|e] s1]; [|done].
    destruct Hx as [Hy Hs1].
    specialize (IH s1 (fun x' s0 Hin => Hf x' s0 (list_elem_of_further _ _ _ Hin)) Hs1).
    unfold wp in IH. destruct (mapM f l s1) as [[ys|e] s2]; [|done].
    unfold ret. destruct IH. split; [by constructor|done].
Qed.

(** A counted loop. *)
Lemma wp_repeatM {A} (m : M A) (Inv : State -> Prop) (P : A -> Prop) E n s :
  (∀ s0, Inv s0 → wp m (fun y s' => P y ∧ Inv s') E s0) →
  Inv s →
  wp (repeatM n m) (fun ys s' => (Forall P ys ∧ length ys = n) ∧ Inv s') E s.
Proof.
  intros Hm. revert s. induction n as [|n IH]; intros s Hs; simpl.
  - apply wp_ret. simpl. by repeat split.
  - unfold wp, bind. specialize (Hm s Hs) as Hx.
    unfold wp in Hx. destruct (m s) as [[y|e] s1]; [|done].
    destruct Hx as [Hy Hs1]. specialize (IH s1 Hs1).
    unfold wp in IH. destruct (repeatM n m s1) as [[ys|e] s2]; [|done].
    unfold ret. destruct IH as [[? ?] ?]. repeat split; [by constructor|simpl; lia|done].
Qed.

(** ** Oracles and invariants *)

Lemma Qfloor_scaled_range (r : Q) (n : Z) :
  (0 <= r)%Q → (r < 1)%Q → 0 < n → 0 <= Qfloor (r * inject_Z n) < n.
Proof.
  intros H0 H1 Hn.
  assert (Hn' : (inject_Z 0 < inject_Z n)%Q) by (by rewrite <- Zlt_Qlt).
  split.
  - change 0 with (Qfloor (inject_Z 0)). apply Qfloor_resp_le.
    apply Qmult_le_0_compat; [done|by apply Qlt_le_weak].
  - rewrite Zlt_Qlt. eapply Qle_lt_trans; [apply Qfloor_le|].
    rewrite <- (Qmult_1_l (inject_Z n)) at 2.
    by apply Qmult_lt_compat_r.
Qed.

Section OracleRules.
Context (env : Env) (Inv : State -> Prop) (Hstable : tick_stable Inv).

Lemma wp_Date_now E s :
  Inv s →
  wp (Date_now env) (fun now s' => now = clock env (clock_reads s) ∧ Inv s') E s.
Proof. intros Hs. unfold wp, Date_now. split; [done|by apply Hstable]. Qed.

Lemma wp_Math_random E s :
  Inv s →
  wp (Math_random env)
     (fun r s' => (random_ok env → (0 <= r)%Q ∧ (r < 1)%Q) ∧ Inv s') E s.
Proof.
  intros Hs. unfold wp, Math_random. split; [|by apply Hstable].
  intros Hok. apply Hok.
Qed.

Lemma wp_random_below n E s :
  Inv s →
  wp (random_below env n)
     (fun k s' => (random_ok env → 0 < n → 0 <= k < n) ∧ Inv s') E s.
Proof.
  intros Hs. unfold random_below. apply wp_bind.
  eapply wp_mono; [by apply wp_Math_random| |done].
  intros r s' [Hr Hs']. apply wp_ret. split; [|done].
  intros Hok Hn. destruct (Hr Hok). by apply Qfloor_scaled_range.
Qed.
End OracleRules.

(** One step of a sequence: the rule of the oracle read first, then the rest. *)
Ltac wp_oracle Hstable :=
  apply wp_bind;
  eapply wp_mono;
  [ first [ apply (wp_random_below _ _ Hstable)
          | apply (wp_Math_random _ _ Hstable)
          | apply (wp_Date_now _ _ Hstable) ]; assumption
  | cbv beta
  | done ].

(** ** Synthetic arrival generator *)

Section Generator.
Context (env : Env) (Inv : State -> Prop) (Hstable : tick_stable Inv).

Lemma getRandomDestination_spec ln E s :
  Inv s → wp (getRandomDestination env ln) (fun _ s' => Inv s') E s.
Proof.
  intros Hs. unfold getRandomDestination, pickRandom.
  destruct (JsObject.get ln line_destinations) as [lineDestinations| |];
    wp_oracle Hstable; intros i s1 [_ Hs1]; by apply wp_ret.
Qed.

Lemma mockArrival_spec now ln E s :
  Inv s →
  wp (mockArrival env now ln) (fun a s' => mock_shape env now ln a ∧ Inv s') E s.
Proof.
  intros Hs. unfold mockArrival.
  wp_oracle Hstable. intros r s1 [Hr Hs1].
  wp_oracle Hstable. intros p s2 [_ Hs2].
  apply wp_bind.
  apply (wp_mono _ (fun _ s' => Inv s') _ E E).
  { destruct (negb (Qle_bool (3 # 10) p)).
    - wp_oracle Hstable. intros d s3 [_ Hs3]. by apply wp_ret.
    - by apply wp_ret. }
  2: done.
  intros delayMinutes s3 Hs3.
  wp_oracle Hstable. intros n s4 [_ Hs4].
  apply wp_bind.
  eapply wp_mono; [by apply getRandomDestination_spec| |done]. cbv beta.
  intros dest s5 Hs5.
  wp_oracle Hstable. intros q s6 [_ Hs6].
  wp_oracle Hstable. intros t s7 [_ Hs7].
  apply wp_ret. split; [|done].
  unfold mock_shape. simpl. split_and!; [done|done|done|by eexists|by eexists|].
  intros Hok. specialize (Hr Hok). lia.
Qed.

Lemma mockArrivalsOfLine_spec now ln E s :
  Inv s →
  wp (mockArrivalsOfLine env now ln)
     (fun block s' => mock_block env now ln block ∧ Inv s') E s.
Proof.
  intros Hs. unfold mockArrivalsOfLine.
  wp_oracle Hstable. intros k s1 [Hk Hs1].
  eapply wp_mono;
    [apply (wp_repeatM _ Inv (mock_shape env now ln));
     [intros s0 Hs0; by apply mockArrival_spec|done]| |done].
  cbv beta. intros block s2 [[Hall Hlen] Hs2]. split; [|done].
  split; [done|]. intros Hok. specialize (Hk Hok). lia.
Qed.

Lemma generateMockArrivals_spec st E s :
  Inv s →
  wp (generateMockArrivals env st)
     (fun arrs s' =>
        (∃ blocks,
           arrs = sort_by arrivalTime (concat blocks) ∧
           Forall2 (mock_block env (clock env (clock_reads s)))
                   (default [] (station_lines st)) blocks) ∧
        Inv s') E s.
Proof.
  intros Hs. unfold generateMockArrivals.
  wp_oracle Hstable. intros now s1 [-> Hs1].
  destruct (default [] (station_lines st)) as [|l ls] eqn:Hlines.
  - apply wp_ret. split; [|done]. exists []. split; [done|constructor].
  - rewrite <- Hlines. apply wp_bind.
    eapply wp_mono;
      [apply (wp_mapM _ Inv (mock_block env (clock env (clock_reads s))));
       [intros x s0 _ Hs0; by apply mockArrivalsOfLine_spec|done]| |done].
    cbv beta. intros blocks s2 [Hblocks Hs2].
    apply wp_ret. split; [|done]. by exists blocks.
Qed.
End Generator.

Lemma wp_trivial {A} (m : M A) (Q : A -> State -> Prop) (E : exn -> State -> Prop) s :
  (∀ a s', Q a s') → (∀ e s', E e s') → wp m Q E s.
Proof. intros HQ HE. unfold wp. destruct (m s) as [[a|e] s']; auto. Qed.

(** ** Feed decoder *)

(** C2. Whatever the bytes, [parseGtfsRealtimeFeed] returns a feed and
    throws nothing: the feed of the decoder when it decodes, and, when the
    decoder fails, the feed without entities whose header time stamp is the
    clock reading taken in the handler. *)
Theorem parseGtfsRealtimeFeed_never_throws (env : Env) (buffer : list Byte.byte)
    (s : State) :
  ∃ feed s',
    parseGtfsRealtimeFeed env buffer s = (Returned feed, s') ∧
    match decode env buffer with
    | Returned decoded => feed = decoded ∧ s' = s
    | Thrown _ =>
        entity feed = [] ∧
        header_timestamp feed = (inject_Z (clock env (clock_reads s)) / 1000)%Q ∧
        feed = emptyFeed (clock env (clock_reads s))
    end.
Proof.
  unfold parseGtfsRealtimeFeed, try_catch, lift.
  destruct (decode env buffer) as [decoded|e]; simpl.
  - by exists decoded, s.
  - unfold bind, Date_now, ret. eexists _, _. split; [done|]. done.
Qed.

(** ** Feed fetcher *)

Lemma same_cache_stable s : tick_stable (same_cache s).
Proof. by intros s' c r (? & ? & ?). Qed.

Lemma same_cache_refl s : same_cache s s.
Proof. done. Qed.

Section Offline.
Context (env : Env) (Hmock : USE_MOCK_DATA env = true).

(** With the flag set a call answers from the cache or with the empty
    feed, and touches neither the cache nor the network. *)
Lemma fetchMtaFeed_offline_step feedId s :
  ∃ feed s',
    fetchMtaFeed env feedId s = (Returned feed, s') ∧
    same_cache s s' ∧
    (feed = emptyFeed (clock env (clock_reads s)) ∨
     apiCache_data s !! feedId = Some feed).
Proof.
  unfold fetchMtaFeed, bind, Date_now, cache_lookup, ret. simpl.
  destruct (apiCache_data s !! feedId) as [cached|] eqn:Hdata.
  - destruct (apiCache_timestamp s !! feedId) as [t|].
    + destruct (clock env (clock_reads s) - t <? 30000).
      * eexists _, _. split; [done|]. split; [done|by right].
      * rewrite Hmock. eexists _, _. split; [done|]. split; [done|by left].
    + rewrite Hmock. eexists _, _. split; [done|]. split; [done|by left].
  - rewrite Hmock. eexists _, _. split; [done|]. split; [done|by left].
Qed.

Lemma getTrainArrivals_offline_Inv (Inv : State -> Prop) stationId s :
  tick_stable Inv → Inv s →
  wp (getTrainArrivals env stationId) (fun _ s' => Inv s') never s.
Proof.
  intros Hstable Hs. unfold getTrainArrivals.
  apply wp_try_catch, wp_bind, wp_lift.
  destruct (findStation env stationId) as [[st|]|e].
  - rewrite Hmock. apply wp_bind.
    eapply (wp_mono _ _ _ never);
      [by apply (generateMockArrivals_spec env Inv Hstable)| |by intros ? ? []].
    cbv beta. intros arrs s1 [_ Hs1]. by apply wp_ret.
  - by apply wp_ret.
  - by apply wp_ret.
Qed.

Lemma reachable_offline_cache s :
  reachable env s → same_cache initial_state s.
Proof.
  induction 1 as [|s stationId _ IH|s feedId _ IH].
  - done.
  - pose proof (getTrainArrivals_offline_Inv (same_cache initial_state)
                  stationId s (same_cache_stable _) IH) as Hwp.
    unfold wp in Hwp. by destruct (getTrainArrivals env stationId s) as [[r|e] s'].
  - destruct (fetchMtaFeed_offline_step feedId s) as (feed & s' & -> & Hsame & _).
    simpl. destruct IH as (? & ? & ?), Hsame as (? & ? & ?).
    split_and!; congruence.
Qed.
End Offline.

(** C3. With [USE_MOCK_DATA] set, a call of [fetchMtaFeed], for any feed id
    and in any state a process with the flag set can be in (the cache is
    private to the module and written on the network path alone, so that
    it is empty then), returns the empty feed whose header time stamp is
    the clock reading of the call, and makes no request. Also from a state
    of the record type that no such process gets into, the call returns
    without a request and without a change to the cache. *)
Theorem fetchMtaFeed_offline_returns_empty_feed (env : Env) (feedId : string) :
  USE_MOCK_DATA env = true →
  (∀ s, reachable env s →
     ∃ s', fetchMtaFeed env feedId s
           = (Returned (emptyFeed (clock env (clock_reads s))), s') ∧
           entity (emptyFeed (clock env (clock_reads s))) = [] ∧
           header_timestamp (emptyFeed (clock env (clock_reads s)))
           = (inject_Z (clock env (clock_reads s)) / 1000)%Q ∧
           requests s' = requests s ∧ requests s' = [] ∧
           apiCache_data s' = ∅) ∧
  (∀ s, ∃ feed s', fetchMtaFeed env feedId s = (Returned feed, s') ∧
                   same_cache s s' ∧
                   (feed = emptyFeed (clock env (clock_reads s)) ∨
                    apiCache_data s !! feedId = Some feed)).
Proof.
  intros Hmock. split.
  - intros s Hs.
    destruct (reachable_offline_cache env Hmock s Hs) as (Hdata & Hts & Hreq).
    destruct (fetchMtaFeed_offline_step env Hmock feedId s)
      as (feed & s' & Hrun & (Hd & Ht & Hr) & Hfeed).
    simpl in Hdata, Hts, Hreq.
    exists s'. destruct Hfeed as [->|Hcached].
    + split_and!; [done|done|done|done|congruence|congruence].
    + rewrite Hdata in Hcached. by rewrite lookup_empty in Hcached.
  - intros s. apply (fetchMtaFeed_offline_step env Hmock feedId s).
Qed.

(** ** Arrival extractor *)

Lemma Forall2_concat {X Y} (R : X -> Y -> Prop) (l : list X) (yss : list (list Y)) :
  Forall2 (fun x ys => Forall (R x) ys) l yss →
  Forall (fun y => ∃ x, x ∈ l ∧ R x y) (concat yss).
Proof.
  induction 1 as [|x ys l yss Hx _ IH]; simpl; [constructor|].
  apply Forall_app. split.
  - eapply Forall_impl; [exact Hx|]. intros y Hy. exists x. split; [left|done].
  - eapply Forall_impl; [exact IH|]. intros y (x' & ? & ?).
    exists x'. split; [by right|done].
Qed.

Section Extractor.
Context (stationId : string) (now : Z).
Context (Inv : State -> Prop) (E : exn -> State -> Prop).

Lemma extractUpdate_spec trip nyctTrip u s :
  covered E (date_in_range u) → Inv s →
  wp (extractUpdate stationId now trip nyctTrip u)
     (fun arrs s' => Forall (emitted_by now u) arrs ∧ Inv s') E s.
Proof.
  intros Hcov Hs. unfold extractUpdate.
  destruct (_ || _); [|by apply wp_ret].
  destruct (arrivalTimeOf u) as [t|] eqn:Ht; [|by apply wp_ret].
  destruct (Z.ltb_spec now t) as [Hlt|Hge]; [|by apply wp_ret].
  apply wp_bind, wp_lift. unfold toISOString.
  destruct (Z.leb_spec (Z.abs (t * 1000)) 8640000000000000) as [Hin|Hout].
  - apply wp_ret. split; [|done]. repeat constructor. by exists t.
  - destruct Hcov as [Hrange|Hany]; [|apply Hany].
    specialize (Hrange t Ht). lia.
Qed.

Lemma extractEntity_spec e s :
  covered E (entity_in_range e) → Inv s →
  wp (extractEntity stationId now e)
     (fun arrs s' => Forall (emitted_by_entity now e) arrs ∧ Inv s') E s.
Proof.
  intros Hcov Hs. unfold extractEntity.
  destruct (trip_update e) as [tu|] eqn:Htu; [|by apply wp_ret].
  destruct (stop_time_update tu) as [us|] eqn:Hus; [|by apply wp_ret].
  destruct (trip tu) as [tr|]; [|by apply wp_ret].
  apply wp_bind.
  eapply wp_mono;
    [apply (wp_mapM _ Inv (fun u arrs => Forall (emitted_by now u) arrs));
     [|done]| |done].
  - intros u s0 Hu Hs0. apply extractUpdate_spec; [|done].
    destruct Hcov as [Hrange|Hany]; [left|by right]. by eapply Hrange.
  - cbv beta. intros found s1 [Hfound Hs1]. apply wp_ret. split; [|done].
    eapply Forall_impl; [exact (Forall2_concat _ _ _ Hfound)|].
    intros a (u & Hu & Ha). by exists tu, us, u.
Qed.

Lemma extractFeed_spec feed s :
  covered E (feed_in_range feed) → Inv s →
  wp (extractFeed stationId now feed)
     (fun arrs s' => Forall (emitted_by_feed now feed) arrs ∧ Inv s') E s.
Proof.
  intros Hcov Hs. unfold extractFeed. apply wp_bind.
  eapply wp_mono;
    [apply (wp_mapM _ Inv (fun e arrs => Forall (emitted_by_entity now e) arrs));
     [|done]| |done].
  - intros e s0 He Hs0. apply extractEntity_spec; [|done].
    destruct Hcov as [Hrange|Hany]; [left|by right]. by apply Hrange.
  - cbv beta. intros found s1 [Hfound Hs1]. apply wp_ret. split; [|done].
    exact (Forall2_concat _ _ _ Hfound).
Qed.

Lemma extractArrivals_spec feeds s :
  covered E (Forall feed_in_range feeds) → Inv s →
  wp (extractArrivals stationId now feeds)
     (fun arrs s' =>
        Forall (fun a => ∃ feed, feed ∈ feeds ∧ emitted_by_feed now feed a) arrs ∧
        Inv s') E s.
Proof.
  intros Hcov Hs. unfold extractArrivals. apply wp_bind.
  eapply wp_mono;
    [apply (wp_mapM _ Inv (fun f arrs => Forall (emitted_by_feed now f) arrs));
     [|done]| |done].
  - intros f s0 Hf Hs0. apply extractFeed_spec; [|done].
    destruct Hcov as [Hrange|Hany]; [left|by right].
    rewrite Forall_forall in Hrange. by apply Hrange.
  - cbv beta. intros found s1 [Hfound Hs1]. apply wp_ret. split; [|done].
    exact (Forall2_concat _ _ _ Hfound).
Qed.
End Extractor.

Lemma emitted_after_clock nowMs feed a :
  emitted_by_feed (nowMs `div` 1000) feed a → nowMs < arrivalTime a.
Proof.
  intros (e & _ & tu & us & u & _ & _ & _ & t & _ & Hlt & -> & _).
  pose proof (Z.mod_pos_bound nowMs 1000 ltac:(lia)).
  pose proof (Z.div_mod nowMs 1000 ltac:(lia)). lia.
Qed.

Lemma arrivalTimeOf_predicted (u : StopTimeUpdate) (t now : Z) :
  predictedTime u = Some t → words_in_range u → 0 <= t <= now →
  ∀ t', arrivalTimeOf u = Some t' → t' <= now.
Proof.
  unfold predictedTime, words_in_range, arrivalTimeOf.
  destruct (arrival u) as [ev|]; [|done]. simpl.
  destruct (Gtfs.time ev) as [[n|low high]|]; [| |done]; simpl.
  - intros [= <-] _ Ht t'. destruct (n =? 0); [done|]. intros [= <-]. lia.
  - intros [= <-] Hwords Ht t'.
    destruct (Hwords low high eq_refl) as [Hlow Hhigh].
    pose proof (Z.mod_pos_bound low (2 ^ 32) ltac:(lia)) as Hmod.
    assert (0 <= high) as Hpos by lia.
    destruct (Z.eqb_spec low 0) as [->|Hne]; intros [= <-].
    + rewrite Z.mod_0_l in Ht by lia. lia.
    + destruct (Z.lt_ge_cases low 0) as [Hneg|Hnn]; [lia|].
      rewrite Z.mod_small in Ht by lia. lia.
Qed.

(** C5, as amended. Every arrival the extractor emits has an arrival time
    after the clock reading, in milliseconds, the extraction took, and stems
    from a stop-time update whose time, as the code reads it (the number, or
    the low word of a [Long]), is after that reading in seconds; a stop-time
    update whose time so read is at or before it yields no entry. For a
    predicted time that is not negative, the reading does not turn a time
    at or before the clock reading into a later one: such an update yields
    no entry. When every time read makes a valid date, the extractor
    returns. *)
Theorem extractor_emits_future_arrivals_only (stationId : string) (nowMs : Z)
    (feeds : list FeedMessage) (s : State) :
  let now := nowMs `div` 1000 in
  (∀ arrs s',
     extractArrivals stationId now feeds s = (Returned arrs, s') →
     Forall (fun a => nowMs < arrivalTime a ∧
                      ∃ feed, feed ∈ feeds ∧ emitted_by_feed now feed a) arrs) ∧
  (∀ trip nyctTrip u,
     (∀ t, arrivalTimeOf u = Some t → t <= now) →
     extractUpdate stationId now trip nyctTrip u s = (Returned [], s)) ∧
  (∀ trip nyctTrip u t,
     predictedTime u = Some t → words_in_range u → 0 <= t <= now →
     extractUpdate stationId now trip nyctTrip u s = (Returned [], s)) ∧
  (Forall feed_in_range feeds →
     ∃ arrs, extractArrivals stationId now feeds s = (Returned arrs, s)).
Proof.
  intros now.
  assert (Hpast : ∀ trip nyctTrip u,
            (∀ t, arrivalTimeOf u = Some t → t <= now) →
            extractUpdate stationId now trip nyctTrip u s = (Returned [], s)).
  { intros tr nyctTrip u Hpast. unfold extractUpdate.
    destruct (_ || _); [|done].
    destruct (arrivalTimeOf u) as [t|]; [|done].
    specialize (Hpast t eq_refl).
    destruct (Z.ltb_spec now t); [lia|done]. }
  split_and!.
  - intros arrs s' Hrun.
    pose proof (extractArrivals_spec stationId now (fun _ => True) anyhow feeds s
                  (or_intror (fun _ _ => I)) I) as Hwp.
    unfold wp in Hwp. rewrite Hrun in Hwp. destruct Hwp as [Hall _].
    eapply Forall_impl; [exact Hall|]. intros a (feed & Hin & Hem).
    split; [by eapply emitted_after_clock|by exists feed].
  - exact Hpast.
  - intros tr nyctTrip u t Ht Hwords Hle. apply Hpast.
    by eapply arrivalTimeOf_predicted.
  - intros Hrange.
    pose proof (extractArrivals_spec stationId now (fun s' => s' = s) never feeds s
                  (or_introl Hrange) eq_refl) as Hwp.
    unfold wp in Hwp.
    destruct (extractArrivals stationId now feeds s) as [[arrs|e] s']; [|done].
    destruct Hwp as [_ ->]. by exists arrs.
Qed.

(** ** [getTrainArrivals] *)

Lemma getTrainArrivals_ascending (env : Env) (stationId : string) (s : State) :
  wp (getTrainArrivals env stationId)
     (fun r _ => ascending arrivalTime (arrivals r)) never s.
Proof.
  unfold getTrainArrivals. apply wp_try_catch, wp_bind, wp_lift.
  destruct (findStation env stationId) as [[st|]|e].
  - apply wp_bind, wp_trivial.
    + intros arrs s1. apply wp_ret. simpl. apply sort_by_ascending.
    + intros e s1. apply wp_ret. constructor.
  - apply wp_ret. constructor.
  - apply wp_ret. constructor.
Qed.

(** C6. Whatever the decoded feeds hold and in whatever order, the call
    [getTrainArrivals] returns, and the arrival list it returns is sorted
    ascending by arrival time. When the station is found, the flag is unset
    and the extractor yields arrivals from the feeds fetched, the list
    returned holds these arrivals, each as often as it was yielded, in
    ascending order; for another order of what was yielded the sort gives
    a list of the same arrivals in ascending order again. When the
    extractor yields nothing, or the flag is set, the list returned holds
    the arrivals of the generator instead. The merged list of the route is
    sorted too and holds what of the combined list lies after the merge
    time. *)
Theorem getTrainArrivals_returns_sorted_arrivals (env : Env) (stationId : string)
    (s : State) :
  (∃ r s', getTrainArrivals env stationId s = (Returned r, s') ∧
           ascending arrivalTime (arrivals r) ∧
           Sorted (fun a b => arrivalTime a <= arrivalTime b) (arrivals r)) ∧
  (∀ st feeds s1 arrs s2,
     findStation env stationId = Returned (Some st) →
     USE_MOCK_DATA env = false →
     mapM (fetchMtaFeed env) (getRelevantFeeds (station_lines st)) s
     = (Returned feeds, s1) →
     extractArrivals stationId (clock env (clock_reads s1) `div` 1000) feeds
       (after_clock s1) = (Returned arrs, s2) →
     arrs ≠ [] →
     ∃ r, getTrainArrivals env stationId s = (Returned r, s2) ∧
          arrivals r = sort_by arrivalTime arrs ∧
          arrivals r ≡ₚ arrs ∧
          ascending arrivalTime (arrivals r) ∧
          ∀ arrs', arrs' ≡ₚ arrs →
                   sort_by arrivalTime arrs' ≡ₚ arrivals r ∧
                   ascending arrivalTime (sort_by arrivalTime arrs')) ∧
  (∀ st feeds s1 s2 mock s3,
     findStation env stationId = Returned (Some st) →
     USE_MOCK_DATA env = false →
     mapM (fetchMtaFeed env) (getRelevantFeeds (station_lines st)) s
     = (Returned feeds, s1) →
     extractArrivals stationId (clock env (clock_reads s1) `div` 1000) feeds
       (after_clock s1) = (Returned [], s2) →
     generateMockArrivals env st s2 = (Returned mock, s3) →
     ∃ r, getTrainArrivals env stationId s = (Returned r, s3) ∧
          arrivals r = sort_by arrivalTime mock ∧ arrivals r ≡ₚ mock) ∧
  (∀ st mock s1,
     findStation env stationId = Returned (Some st) →
     USE_MOCK_DATA env = true →
     generateMockArrivals env st s = (Returned mock, s1) →
     ∃ r, getTrainArrivals env stationId s = (Returned r, s1) ∧
          arrivals r = sort_by arrivalTime mock ∧ arrivals r ≡ₚ mock) ∧
  (∀ rts scheduled now,
     ascending Route.arrivalTime (Route.mergeArrivals rts scheduled now) ∧
     Route.mergeArrivals rts scheduled now
     ≡ₚ List.filter (fun a => now <? Route.arrivalTime a)
                    (Route.combineArrivals rts scheduled)).
Proof.
  split_and!.
  - destruct (proj1 (wp_returns _ _ _) (getTrainArrivals_ascending env stationId s))
      as (r & s' & Hrun & Hsorted).
    exists r, s'. split; [done|]. split; [done|by apply StronglySorted_Sorted].
  - intros st feeds s1 arrs s2 Hfind Hflag Hfetch Hextract Hne.
    unfold getTrainArrivals, try_catch, bind at 1, lift. rewrite Hfind, Hflag.
    unfold bind at 1. unfold bind at 1. rewrite Hfetch.
    unfold bind at 1. unfold Date_now at 1. unfold bind at 1.
    fold (after_clock s1). rewrite Hextract.
    destruct arrs as [|a arrs]; [done|]. cbn [length Z.of_nat Z.eqb ret].
    eexists. split; [reflexivity|]. cbn [arrivals].
    split; [done|]. split; [apply sort_by_Permutation|].
    split; [apply sort_by_ascending|].
    intros arrs' Hperm. split; [|apply sort_by_ascending].
    by rewrite !sort_by_Permutation.
  - intros st feeds s1 s2 mock s3 Hfind Hflag Hfetch Hextract Hmock.
    unfold getTrainArrivals, try_catch, bind at 1, lift. rewrite Hfind, Hflag.
    unfold bind at 1. unfold bind at 1. rewrite Hfetch.
    unfold bind at 1. unfold Date_now at 1. unfold bind at 1.
    fold (after_clock s1). rewrite Hextract.
    cbv beta iota. simpl (Z.of_nat _ =? 0). cbv beta iota.
    rewrite Hmock.
    eexists. split; [reflexivity|]. cbn [arrivals].
    split; [done|apply sort_by_Permutation].
  - intros st mock s1 Hfind Hflag Hmock.
    unfold getTrainArrivals, try_catch, bind at 1, lift. rewrite Hfind, Hflag.
    unfold bind at 1. rewrite Hmock.
    eexists. split; [reflexivity|]. cbn [arrivals].
    split; [done|apply sort_by_Permutation].
  - intros rts scheduled now. split; [apply RouteFacts.mergeArrivals_ascending|].
    unfold Route.mergeArrivals. apply filter_Permutation, sort_by_Permutation.
Qed.

Lemma cache_without_entities_stable : tick_stable cache_without_entities.
Proof. intros s c r Hs. exact Hs. Qed.

Lemma cache_without_entities_initial : cache_without_entities initial_state.
Proof. intros k f. simpl. by rewrite lookup_empty. Qed.

Section EmptyFeeds.
Context (env : Env).
Context (Hdecode : ∀ buffer feed, decode env buffer = Returned feed → entity feed = []).

Lemma fetchMtaFeed_without_entities feedId s :
  cache_without_entities s →
  wp (fetchMtaFeed env feedId)
     (fun feed s' => entity feed = [] ∧ cache_without_entities s') never s.
Proof.
  intros Hs.
  unfold wp, fetchMtaFeed, bind, Date_now, cache_lookup, ret. simpl.
  assert (Hnet :
    match
      (if USE_MOCK_DATA env
       then (fun s0 => (Returned (emptyFeed (clock env (clock_reads s))), s0))
       else
         try_catch
           (bind (axios_request env (MTA_API_BASE_URL +:+ feedUrl feedId))
              (fun response =>
                 bind (parseGtfsRealtimeFeed env response)
                   (fun feed =>
                      bind (cache_store feedId feed (clock env (clock_reads s)))
                        (fun _ s0 => (Returned feed, s0)))))
           (fun _ s0 => (Returned (emptyFeed (clock env (clock_reads s))), s0)))
        {| apiCache_data := apiCache_data s;
           apiCache_timestamp := apiCache_timestamp s;
           clock_reads := S (clock_reads s);
           random_draws := random_draws s;
           requests := requests s |}
    with
    | (Returned feed, s') => entity feed = [] ∧ cache_without_entities s'
    | (Thrown _, _) => False
    end).
  { destruct (USE_MOCK_DATA env); [done|].
    unfold try_catch, bind, axios_request. simpl.
    destruct (axios_get env _ _) as [response|e]; [|done].
    unfold parseGtfsRealtimeFeed, try_catch, lift, bind, Date_now, ret, cache_store.
    destruct (decode env response) as [feed|e] eqn:Hdec; simpl.
    - split; [by eapply Hdecode|].
      intros k f. simpl. destruct (decide (k = feedId)) as [->|Hne].
      + rewrite lookup_insert_eq. intros [= <-]. by eapply Hdecode.
      + rewrite lookup_insert_ne by done. apply Hs.
    - split; [done|].
      intros k f. simpl. destruct (decide (k = feedId)) as [->|Hne].
      + rewrite lookup_insert_eq. by intros [= <-].
      + rewrite lookup_insert_ne by done. apply Hs. }
  destruct (apiCache_data s !! feedId) as [cached|] eqn:Hdata; [|exact Hnet].
  destruct (apiCache_timestamp s !! feedId) as [t|]; [|exact Hnet].
  destruct (clock env (clock_reads s) - t <? 30000); [|exact Hnet].
  split; [by eapply Hs|done].
Qed.

Lemma extractArrivals_without_entities stationId now feeds s :
  Forall (fun feed => entity feed = []) feeds →
  extractArrivals stationId now feeds s = (Returned [], s).
Proof.
  intros Hfeeds. unfold extractArrivals, bind.
  enough (mapM (extractFeed stationId now) feeds s
          = (Returned (replicate (length feeds) []), s)) as ->.
  { unfold ret. f_equal. f_equal. induction (length feeds); simpl; congruence. }
  induction Hfeeds as [|feed feeds Hfeed _ IH]; [done|].
  simpl. unfold bind, extractFeed, ret in *. rewrite Hfeed. simpl. by rewrite IH.
Qed.
End EmptyFeeds.

(** ** The generator behind [getTrainArrivals] *)

Lemma mock_blocks_concat (env : Env) (now : Z) (lines : list string)
    (blocks : list (list NormalizedArrival)) :
  random_ok env →
  Forall2 (mock_block env now) lines blocks →
  (2 * length lines <= length (concat blocks) <= 5 * length lines)%nat ∧
  Forall (fun a => line a ∈ lines ∧
                   now + 2 * 60000 <= arrivalTime a <= now + 31 * 60000)
         (concat blocks).
Proof.
  intros Hok. induction 1 as [|ln block lines blocks [Hall Hlen] _ [IHlen IHall]]; simpl.
  - split; [lia|constructor].
  - specialize (Hlen Hok). split; [rewrite length_app; lia|].
    apply Forall_app. split.
    + eapply Forall_impl; [exact Hall|].
      intros a (<- & _ & _ & _ & _ & Hb). split; [left|by apply Hb].
    + eapply Forall_impl; [exact IHall|]. intros a [? ?]. split; [by right|done].
Qed.

Lemma mock_blocks_shape (env : Env) (now : Z) (lines : list string)
    (blocks : list (list NormalizedArrival)) :
  Forall2 (mock_block env now) lines blocks →
  Forall (fun a => ∃ ln, mock_shape env now ln a) (concat blocks).
Proof.
  induction 1 as [|ln block lines blocks [Hall _] _ IH]; simpl; [constructor|].
  apply Forall_app. split; [|done].
  eapply Forall_impl; [exact Hall|]. intros a Ha. by exists ln.
Qed.

Section Synthetic.
Context (env : Env).
Context (Hdecode : ∀ buffer feed, decode env buffer = Returned feed → entity feed = []).

(** With no entity in any feed, the arrivals of a known station are those
    of the generator, for one of the readings of the clock. *)
Lemma getTrainArrivals_synthetic stationId st s :
  findStation env stationId = Returned (Some st) →
  cache_without_entities s →
  wp (getTrainArrivals env stationId)
     (fun r _ =>
        ∃ n blocks,
          arrivals r ≡ₚ concat blocks ∧
          Forall2 (mock_block env (clock env n)) (default [] (station_lines st)) blocks)
     never s.
Proof.
  intros Hfind Hs. unfold getTrainArrivals.
  match goal with |- wp _ ?post _ _ => set (Q := post) end.
  apply wp_try_catch.
  apply (wp_mono _ Q _ never); [|done|by intros ? ? []].
  subst Q.
  apply wp_bind, wp_lift. rewrite Hfind.
  apply wp_bind.
  eapply (wp_mono _
    (fun arrs _ => ∃ n blocks,
       arrs = sort_by arrivalTime (concat blocks) ∧
       Forall2 (mock_block env (clock env n)) (default [] (station_lines st)) blocks)
    _ never); [| |done].
  2:{ cbv beta. intros arrs s1 (n & blocks & -> & Hblocks).
      apply wp_ret. simpl. exists n, blocks. split; [|done].
      by rewrite !sort_by_Permutation. }
  destruct (USE_MOCK_DATA env).
  - eapply wp_mono;
      [by apply (generateMockArrivals_spec env cache_without_entities
                   cache_without_entities_stable)| |done].
    cbv beta. intros arrs s1 [(blocks & ? & ?) _]. by eexists _, blocks.
  - apply wp_bind.
    eapply wp_mono;
      [apply (wp_mapM _ cache_without_entities (fun _ feed => entity feed = []));
       [|done]| |done].
    { intros feedId s0 _ Hs0. by apply fetchMtaFeed_without_entities. }
    cbv beta. intros feeds s1 [Hfeeds Hs1].
    wp_oracle cache_without_entities_stable. intros ms s2 [_ Hs2].
    apply wp_bind. unfold wp at 1.
    rewrite extractArrivals_without_entities
      by (eapply Forall2_Forall_r; [exact Hfeeds|by apply Forall_forall]).
    simpl.
    eapply wp_mono;
      [by apply (generateMockArrivals_spec env cache_without_entities
                   cache_without_entities_stable)| |done].
    cbv beta. intros arrs s3 [(blocks & ? & ?) _]. by eexists _, blocks.
Qed.
End Synthetic.

(** C9. For outcomes of [Math.random ()] in the interval from 0 to 1: for a
    station with a non-empty list of lines the generator returns, for every
    line, between 2 and 5 arrivals of that line, each between 2 and 32
    minutes (31 at most, in fact) after the clock reading it took; and for a
    station served by the lines 1, 2 and 3 whose feeds hold no entity,
    [getTrainArrivals] returns between 4 and 15 arrivals (6 at least, in
    fact), all of these lines and within these times. *)
Theorem generateMockArrivals_counts_and_times (env : Env) :
  random_ok env →
  (∀ st lines s,
     station_lines st = Some lines → lines ≠ [] →
     let now := clock env (clock_reads s) in
     ∃ arrs s' blocks,
       generateMockArrivals env st s = (Returned arrs, s') ∧
       arrs ≡ₚ concat blocks ∧
       Forall2 (fun ln block =>
                  (2 <= length block <= 5)%nat ∧
                  Forall (fun a => line a = ln ∧
                                   now + 2 * 60000 <= arrivalTime a <= now + 32 * 60000 ∧
                                   arrivalTime a <= now + 31 * 60000) block)
               lines blocks) ∧
  (∀ name s,
     findStation env "127"
     = Returned (Some {| station_name := name;
                         station_lines := Some ["1"; "2"; "3"]%string |}) →
     (∀ buffer feed, decode env buffer = Returned feed → entity feed = []) →
     cache_without_entities s →
     ∃ r s' n,
       getTrainArrivals env "127" s = (Returned r, s') ∧
       (4 <= length (arrivals r) <= 15)%nat ∧ (6 <= length (arrivals r))%nat ∧
       Forall (fun a => line a ∈ ["1"; "2"; "3"]%string ∧
                        clock env n + 2 * 60000 <= arrivalTime a
                        <= clock env n + 32 * 60000)
              (arrivals r)).
Proof.
  intros Hok. split.
  - intros st lines s Hlines Hne now.
    pose proof (generateMockArrivals_spec env (fun _ => True) (fun _ _ _ _ => I)
                  st never s I) as Hwp.
    apply wp_returns in Hwp as (arrs & s' & Hrun & (blocks & -> & Hblocks) & _).
    rewrite Hlines in Hblocks. simpl in Hblocks.
    exists (sort_by arrivalTime (concat blocks)), s', blocks.
    split; [done|]. split; [apply sort_by_Permutation|].
    eapply Forall2_impl; [exact Hblocks|].
    intros ln block [Hall Hlen]. split; [by apply Hlen|].
    eapply Forall_impl; [exact Hall|].
    intros a (Hl & _ & _ & _ & _ & Hb). specialize (Hb Hok). fold now in Hb.
    split; [done|lia].
  - intros name s Hfind Hdecode Hs.
    pose proof (getTrainArrivals_synthetic env Hdecode "127" _ s Hfind Hs) as Hwp.
    apply wp_returns in Hwp as (r & s' & Hrun & n & blocks & Hperm & Hblocks).
    simpl in Hblocks.
    destruct (mock_blocks_concat env _ _ _ Hok Hblocks) as [Hlen Hall].
    exists r, s', n. split; [done|].
    rewrite Hperm. simpl in Hlen. split; [lia|]. split; [lia|].
    eapply Forall_impl; [exact Hall|]. intros a [? ?]. split; [done|lia].
Qed.

(** ** The realtime flag in the merged output *)

Lemma mock_shape_fromTrain env now ln train trainInfo :
  mock_shape env now ln train →
  Route.isRealtime (Route.fromTrain train trainInfo) = true ∧
  is_Some (Route.id (Route.fromTrain train trainInfo)) ∧
  is_Some (Route.trainId (Route.fromTrain train trainInfo)).
Proof.
  intros (_ & _ & _ & [i Hi] & [t Ht] & _). split; [done|]. split; [by exists i|].
  unfold Route.fromTrain. simpl. rewrite Hi, Ht.
  unfold JsString.or_else. by destruct (JsString.truthy _).
Qed.

Lemma extractUpdate_fromTrain stationId now tr nyctTrip u s arrs s' train trainInfo :
  extractUpdate stationId now tr nyctTrip u s = (Returned arrs, s') →
  train ∈ arrs →
  isRealtime train = true ∧
  Route.isRealtime (Route.fromTrain train trainInfo) = true ∧
  Route.id (Route.fromTrain train trainInfo) = trip_id tr ∧
  (is_Some (trip_id tr) → is_Some (Route.trainId (Route.fromTrain train trainInfo))) ∧
  (trip_id tr = None → nyctTrip ≫= train_id = None →
   Route.trainId (Route.fromTrain train trainInfo) = None).
Proof.
  unfold extractUpdate.
  destruct (_ || _); [|by intros [= <- <-] []%elem_of_nil].
  destruct (arrivalTimeOf u) as [t|]; [|by intros [= <- <-] []%elem_of_nil].
  destruct (now <? t); [|by intros [= <- <-] []%elem_of_nil].
  unfold bind, lift, ret. destruct (toISOString (t * 1000)) as [iso|e]; [|done].
  intros [= <- <-] ->%list_elem_of_singleton. split; [done|]. split; [done|].
  split; [done|]. split.
  - intros [i Hi]. unfold Route.fromTrain. simpl. rewrite Hi.
    unfold JsString.or_else.
    destruct (nyctTrip ≫= train_id) as [[|c tid]|]; simpl; [|by eexists|];
      destruct i; by eexists.
  - intros Hid Htid. unfold Route.fromTrain. simpl. by rewrite Hid, Htid.
Qed.

Section RouteRealtime.
Context (env : Env) (ratings : option string -> outcome (option Q)).

Lemma realtimeArrivals_flagged useRealtime stationId s :
  wp (Route.realtimeArrivals env ratings useRealtime stationId)
     (fun rts _ => Forall (fun e => Route.isRealtime e = true) rts) never s.
Proof.
  unfold Route.realtimeArrivals. destruct useRealtime; [|by apply wp_ret].
  apply wp_try_catch.
  apply (wp_mono _ (fun rts _ => Forall (fun e => Route.isRealtime e = true) rts)
           _ anyhow); [|done|by intros; apply wp_ret].
  apply wp_bind, wp_trivial; [|by unfold anyhow].
  intros mtaData s1.
  eapply (wp_mono _ _ _ anyhow);
    [apply (wp_mapM _ (fun _ => True) (fun _ e => Route.isRealtime e = true));
     [|done]| |done].
  - intros train s0 _ _. apply wp_bind, wp_lift.
    destruct (ratings (id train)); [apply wp_ret; simpl; by split|by unfold anyhow].
  - cbv beta. intros rts s2 [Hrts _].
    eapply Forall2_Forall_r; [exact Hrts|by apply Forall_forall].
Qed.
End RouteRealtime.

Lemma mergeArrivals_elem (rts : list Route.Arrival)
    (scheduled : list Route.ScheduledDeparture) (now : Z) (e : Route.Arrival) :
  e ∈ Route.mergeArrivals rts scheduled now →
  e ∈ rts ∨ ∃ sd, sd ∈ scheduled ∧ e = Route.fromScheduled sd.
Proof.
  unfold Route.mergeArrivals.
  intros [He _]%list_elem_of_In%filter_In. apply list_elem_of_In in He.
  rewrite sort_by_Permutation, RouteFacts.combineArrivals_filter in He.
  apply elem_of_app in He as [?|He]; [by left|right].
  apply list_elem_of_fmap in He as (sd & -> & Hsd).
  apply list_elem_of_filter in Hsd as [_ ?]. by exists sd.
Qed.

(** C10, as amended. Every arrival of the generator has the realtime flag
    set, as has every arrival of the extractor, and the route sets it on
    every entry it takes from [getTrainArrivals]: the flag does not tell a
    synthetic arrival from a decoded one. The response entry of a synthetic
    arrival has an id and a train id; that of a decoded arrival has the id
    of its trip, and a train id when the trip has an id: of a trip without
    one it has no id, and no train id either when the NYCT train id is
    missing too. In the merged output the entries with the flag unset are
    exactly those made of a scheduled departure. *)
Theorem synthetic_arrivals_carry_realtime_flag :
  (∀ env st s,
     ∃ arrs s', generateMockArrivals env st s = (Returned arrs, s') ∧
                Forall (fun a => isRealtime a = true ∧
                                 ∀ trainInfo,
                                   Route.isRealtime (Route.fromTrain a trainInfo) = true ∧
                                   is_Some (Route.id (Route.fromTrain a trainInfo)) ∧
                                   is_Some (Route.trainId (Route.fromTrain a trainInfo)))
                       arrs) ∧
  (∀ stationId now tr nyctTrip u s arrs s' train trainInfo,
     extractUpdate stationId now tr nyctTrip u s = (Returned arrs, s') →
     train ∈ arrs →
     isRealtime train = true ∧
     Route.isRealtime (Route.fromTrain train trainInfo) = true ∧
     Route.id (Route.fromTrain train trainInfo) = trip_id tr ∧
     (is_Some (trip_id tr) →
      is_Some (Route.trainId (Route.fromTrain train trainInfo))) ∧
     (trip_id tr = None → nyctTrip ≫= train_id = None →
      Route.trainId (Route.fromTrain train trainInfo) = None)) ∧
  (∀ env ratings useRealtime stationId s scheduled now,
     ∃ rts s',
       Route.realtimeArrivals env ratings useRealtime stationId s = (Returned rts, s') ∧
       ∀ e, e ∈ Route.mergeArrivals rts scheduled now →
            (Route.isRealtime e = true ↔ e ∈ rts) ∧
            (Route.isRealtime e = false ↔
             ∃ sd, sd ∈ scheduled ∧ e = Route.fromScheduled sd)).
Proof.
  split_and!.
  - intros env st s.
    pose proof (generateMockArrivals_spec env (fun _ => True) (fun _ _ _ _ => I)
                  st never s I) as Hwp.
    apply wp_returns in Hwp as (arrs & s' & Hrun & (blocks & -> & Hblocks) & _).
    eexists _, s'. split; [done|].
    rewrite sort_by_Permutation.
    eapply Forall_impl; [exact (mock_blocks_shape _ _ _ _ Hblocks)|].
    intros a [ln Ha]. split; [apply Ha|].
    intros trainInfo. by eapply mock_shape_fromTrain.
  - apply extractUpdate_fromTrain.
  - intros env ratings useRealtime stationId s scheduled now.
    pose proof (realtimeArrivals_flagged env ratings useRealtime stationId s) as Hwp.
    apply wp_returns in Hwp as (rts & s' & Hrun & Hflag).
    exists rts, s'. split; [done|]. intros e He.
    rewrite Forall_forall in Hflag.
    destruct (mergeArrivals_elem _ _ _ _ He) as [Hrt|(sd & Hsd & ->)].
    + pose proof (Hflag e Hrt) as He'. split; [by split|].
      rewrite He'. split; [done|]. by intros (sd & _ & ->).
    + split; [|split; [by exists sd|done]]. simpl. split; [done|].
      intros Hin. by specialize (Hflag _ Hin).
Qed.

(** ** Unknown stations *)

(** C4, as amended. For a station id without a station record
    [getTrainArrivals] returns, as a value and not as an error, an empty
    arrival list with the placeholder station of that id, named
    [Unknown Station] and without lines. No error at all leaves
    [getTrainArrivals]: it returns in every environment and state, and a
    failure of the station lookup gives the object with the empty arrival
    list alone. *)
Theorem getTrainArrivals_unknown_station_placeholder (env : Env) (stationId : string)
    (s : State) :
  (findStation env stationId = Returned None →
   getTrainArrivals env stationId s
   = (Returned {| arrivals := [];
                  station := Some {| info_id := stationId;
                                     info_name := "Unknown Station";
                                     info_lines := [] |} |}, s)) ∧
  (∃ r s', getTrainArrivals env stationId s = (Returned r, s')) ∧
  (∀ e, findStation env stationId = Thrown e →
        getTrainArrivals env stationId s
        = (Returned {| arrivals := []; station := None |}, s)).
Proof.
  split_and!.
  - intros Hfind. unfold getTrainArrivals, try_catch, bind, lift. by rewrite Hfind.
  - destruct (proj1 (wp_returns _ _ _) (getTrainArrivals_ascending env stationId s))
      as (r & s' & Hrun & _).
    by exists r, s'.
  - intros e Hfind. unfold getTrainArrivals, try_catch, bind, lift. by rewrite Hfind.
Qed.

Lemma sample_random_ok mock : random_ok (Samples.sample_env mock).
Proof. intros n. split; [discriminate|reflexivity]. Qed.

Lemma sample_decode_without_entities buffer feed :
  Samples.sample_decode buffer = Returned feed → entity feed = [].
Proof. destruct buffer; [by intros [= <-]|done]. Qed.

(** C4, as stated, fails: the result for a station id without a record is a
    returned value; no test of the result tells it from the result for a
    stored station, as the record of [nameless_env] gives the same. *)
Lemma getTrainArrivals_unknown_station_not_surfaced :
  getTrainArrivals (Samples.sample_env true) "999" initial_state
  = (Returned {| arrivals := [];
                 station := Some {| info_id := "999";
                                    info_name := "Unknown Station";
                                    info_lines := [] |} |}, initial_state) ∧
  ¬ (∀ env stationId s,
       findStation env stationId = Returned None →
       ∃ e s', getTrainArrivals env stationId s = (Thrown e, s')) ∧
  ¬ (∃ notFound : TrainArrivals -> Prop,
       (∀ env stationId s r s',
          findStation env stationId = Returned None →
          getTrainArrivals env stationId s = (Returned r, s') → notFound r) ∧
       (∀ env stationId s r s' st,
          findStation env stationId = Returned (Some st) →
          getTrainArrivals env stationId s = (Returned r, s') → ¬ notFound r)).
Proof.
  assert (Hmissing :
    getTrainArrivals (Samples.sample_env true) "999" initial_state
    = (Returned {| arrivals := [];
                   station := Some {| info_id := "999";
                                      info_name := "Unknown Station";
                                      info_lines := [] |} |}, initial_state))
    by reflexivity.
  split; [exact Hmissing|]. split.
  - intros Hclaim.
    destruct (Hclaim (Samples.sample_env true) "999"%string initial_state eq_refl)
      as (e & s' & Hthrown).
    rewrite Hmissing in Hthrown. discriminate.
  - intros (notFound & Hyes & Hno).
    eapply (Hno Samples.nameless_env "999"%string initial_state); [reflexivity| |].
    + reflexivity.
    + simpl. eapply (Hyes (Samples.sample_env true) "999"%string initial_state).
      * reflexivity.
      * exact Hmissing.
Qed.

(** ** Instances *)

(** The process answered a request for station 127 in mock mode; then the
    IRT feed is fetched. *)
Lemma fetchMtaFeed_offline_returns_empty_feed_witness :
  let s := (getTrainArrivals (Samples.sample_env true) "127" initial_state).2 in
  ∃ s', fetchMtaFeed (Samples.sample_env true) "IRT" s
        = (Returned (emptyFeed (clock (Samples.sample_env true) (clock_reads s))), s') ∧
        requests s' = [] ∧ apiCache_data s' = ∅.
Proof.
  intros s.
  destruct (fetchMtaFeed_offline_returns_empty_feed (Samples.sample_env true) "IRT"
              eq_refl) as [Hreach _].
  destruct (Hreach s) as (s' & Hrun & _ & _ & _ & Hreq & Hcache).
  - apply reachable_getTrainArrivals, reachable_loaded.
  - exists s'. split; [exact Hrun|]. split; [exact Hreq|exact Hcache].
Defined.

(** Station 999 is not in the store. *)
Lemma getTrainArrivals_unknown_station_placeholder_witness :
  getTrainArrivals (Samples.sample_env false) "999" initial_state
  = (Returned {| arrivals := [];
                 station := Some {| info_id := "999";
                                    info_name := "Unknown Station";
                                    info_lines := [] |} |}, initial_state).
Proof.
  apply (getTrainArrivals_unknown_station_placeholder
           (Samples.sample_env false) "999" initial_state).
  reflexivity.
Defined.

(** C5, as stated, fails for a [Long] of a time before 1970: the code reads
    its low word, a time a minute ahead, and emits an arrival for it. *)
Lemma extractUpdate_emits_for_time_before_1970 :
  predictedTime Samples.update_before_1970 = Some (-2594967236) ∧
  -2594967236 <= 1700000000 ∧
  (∃ a, extractUpdate "127" 1700000000 Samples.sample_trip None
          Samples.update_before_1970 initial_state = (Returned [a], initial_state) ∧
        arrivalTime a = 1700000060000) ∧
  ¬ (∀ stationId now trip nyctTrip u s t,
       predictedTime u = Some t → t <= now →
       extractUpdate stationId now trip nyctTrip u s = (Returned [], s)).
Proof.
  split; [reflexivity|]. split; [lia|]. split.
  - eexists. split; reflexivity.
  - intros Hclaim.
    specialize (Hclaim "127"%string 1700000000 Samples.sample_trip None
                  Samples.update_before_1970 initial_state (-2594967236)
                  eq_refl ltac:(lia)).
    discriminate Hclaim.
Qed.

(** Of the two updates of [sample_feed] the one a minute ahead is emitted,
    the one of the past is not. *)
Lemma extractor_emits_future_arrivals_only_witness :
  Forall (fun a => 1700000000123 < arrivalTime a ∧
                   ∃ feed, feed ∈ [Samples.sample_feed] ∧
                           emitted_by_feed (1700000000123 `div` 1000) feed a)
         Samples.sample_arrivals ∧
  length Samples.sample_arrivals = 1%nat ∧
  extractUpdate "127" (1700000000123 `div` 1000) Samples.sample_trip None
    Samples.update_past initial_state = (Returned [], initial_state).
Proof.
  pose proof (extractor_emits_future_arrivals_only "127" 1700000000123
                [Samples.sample_feed] initial_state) as H.
  cbv zeta in H. destruct H as (Hfuture & _ & Hpast & _).
  split; [|split; [reflexivity|]].
  - apply (Hfuture Samples.sample_arrivals initial_state). reflexivity.
  - apply (Hpast Samples.sample_trip None Samples.update_past 1699999000).
    + reflexivity.
    + intros low high Hlong. discriminate Hlong.
    + vm_compute. split; discriminate.
Defined.

(** Station 127 with the network down. *)
Lemma generateMockArrivals_counts_and_times_witness :
  ∃ r s' n,
    getTrainArrivals (Samples.sample_env false) "127" initial_state = (Returned r, s') ∧
    (4 <= length (arrivals r) <= 15)%nat ∧ (6 <= length (arrivals r))%nat ∧
    Forall (fun a => line a ∈ ["1"; "2"; "3"]%string ∧
                     clock (Samples.sample_env false) n + 2 * 60000 <= arrivalTime a
                     <= clock (Samples.sample_env false) n + 32 * 60000)
           (arrivals r).
Proof.
  destruct (generateMockArrivals_counts_and_times (Samples.sample_env false)
              (sample_random_ok false)) as [_ Hscenario].
  apply (Hscenario "Times Sq-42 St"%string initial_state).
  - reflexivity.
  - exact sample_decode_without_entities.
  - exact cache_without_entities_initial.
Defined.

(** The two trains of [unsorted_feed] come out earlier one first. *)
Lemma getTrainArrivals_returns_sorted_arrivals_witness :
  ∃ r s',
    getTrainArrivals Cases.live_env "127" initial_state = (Returned r, s') ∧
    arrivalTime <$> arrivals r = [1700000060000; 1700000120000] ∧
    direction <$> arrivals r = [Some NORTH; Some SOUTH].
Proof.
  destruct (getTrainArrivals_returns_sorted_arrivals Cases.live_env "127" initial_state)
    as (_ & Hsorted & _ & _ & _).
  edestruct (Hsorted Samples.times_square) as (r & Hrun & Heq & _).
  - reflexivity.
  - reflexivity.
  - reflexivity.
  - reflexivity.
  - discriminate.
  - eexists r, _. split; [exact Hrun|]. rewrite Heq. split; reflexivity.
Defined.

(** C10, as stated, fails on the id: a decoded arrival of a trip without
    [trip_id] gives a response entry without id and train id, which tells
    it from every synthetic one. *)
Lemma extracted_entry_without_id :
  (∃ train,
     extractUpdate "127" 1700000000 Samples.anonymous_trip None Samples.update_future
       initial_state = (Returned [train], initial_state) ∧
     Route.isRealtime (Route.fromTrain train None) = true ∧
     Route.id (Route.fromTrain train None) = None ∧
     Route.trainId (Route.fromTrain train None) = None) ∧
  ¬ (∀ stationId now tr nyctTrip u s arrs s' train trainInfo,
       extractUpdate stationId now tr nyctTrip u s = (Returned arrs, s') →
       train ∈ arrs →
       is_Some (Route.id (Route.fromTrain train trainInfo))).
Proof.
  assert (Hentry : ∃ train,
     extractUpdate "127" 1700000000 Samples.anonymous_trip None Samples.update_future
       initial_state = (Returned [train], initial_state) ∧
     Route.isRealtime (Route.fromTrain train None) = true ∧
     Route.id (Route.fromTrain train None) = None ∧
     Route.trainId (Route.fromTrain train None) = None).
  { eexists. split; [reflexivity|]. by split_and!. }
  split; [exact Hentry|].
  intros Hclaim. destruct Hentry as (train & Hrun & _ & Hid & _).
  destruct (Hclaim _ _ _ _ _ _ _ _ train None Hrun ltac:(left)) as [i Hi].
  rewrite Hid in Hi. discriminate Hi.
Qed.

(** The arrival extracted from [sample_feed]. *)
Lemma synthetic_arrivals_carry_realtime_flag_witness :
  Forall (fun train =>
            isRealtime train = true ∧
            Route.isRealtime (Route.fromTrain train None) = true ∧
            Route.id (Route.fromTrain train None) = Some "061200_6..N01R"%string ∧
            is_Some (Route.trainId (Route.fromTrain train None)))
         Samples.sample_arrivals.
Proof.
  destruct synthetic_arrivals_carry_realtime_flag as (_ & Hextracted & _).
  apply Forall_forall. intros train Htrain.
  destruct (Hextracted "127"%string 1700000000 Samples.sample_trip
              (nyct_trip_descriptor Samples.sample_trip) Samples.update_future
              initial_state Samples.sample_arrivals initial_state train None
              eq_refl Htrain) as (Hcore & Hflag & Hid & Htid & _).
  split; [exact Hcore|]. split; [exact Hflag|]. split; [exact Hid|].
  apply Htid. by eexists.
Defined.

(** * Further properties of the code *)

(** ** The fetch cache *)

Lemma cache_lookup_fresh feedId now feed s :
  fresh_entry s feedId now feed →
  cache_lookup feedId now s = (Returned (Some feed), s).
Proof.
  intros (Hdata & t & Hts & Hlt). unfold cache_lookup. rewrite Hdata, Hts.
  by apply Z.ltb_lt in Hlt as ->.
Qed.

Lemma cache_lookup_none feedId now s :
  no_fresh_entry s feedId now →
  cache_lookup feedId now s = (Returned None, s).
Proof.
  unfold cache_lookup. intros [Hdata|[Hts|(t & Hts & Hge)]].
  - by rewrite Hdata.
  - rewrite Hts. by destruct (apiCache_data s !! feedId).
  - rewrite Hts. apply Z.ltb_ge in Hge as ->. by destruct (apiCache_data s !! feedId).
Qed.

(** What a call makes of a state without a fresh entry, with the flag
    unset: one request, and a store unless the request fails. *)
Lemma fetchMtaFeed_online_miss env feedId s :
  USE_MOCK_DATA env = false →
  no_fresh_entry s feedId (clock env (clock_reads s)) →
  fetchMtaFeed env feedId s =
  let now := clock env (clock_reads s) in
  match axios_get env (length (requests s)) (requestUrl feedId) with
  | Thrown _ =>
      (Returned (emptyFeed now),
       {| apiCache_data := apiCache_data s;
          apiCache_timestamp := apiCache_timestamp s;
          clock_reads := S (clock_reads s); random_draws := random_draws s;
          requests := requests s ++ [requestUrl feedId] |})
  | Returned response =>
      match decode env response with
      | Returned feed =>
          (Returned feed,
           {| apiCache_data := <[feedId := feed]> (apiCache_data s);
              apiCache_timestamp := <[feedId := now]> (apiCache_timestamp s);
              clock_reads := S (clock_reads s); random_draws := random_draws s;
              requests := requests s ++ [requestUrl feedId] |})
      | Thrown _ =>
          let later := clock env (S (clock_reads s)) in
          (Returned (emptyFeed later),
           {| apiCache_data := <[feedId := emptyFeed later]> (apiCache_data s);
              apiCache_timestamp := <[feedId := now]> (apiCache_timestamp s);
              clock_reads := S (S (clock_reads s)); random_draws := random_draws s;
              requests := requests s ++ [requestUrl feedId] |})
      end
  end.
Proof.
  intros Hflag Hmiss. unfold fetchMtaFeed. unfold bind at 1. unfold Date_now at 1.
  unfold bind at 1. rewrite (cache_lookup_none feedId _ (after_clock s)) by exact Hmiss.
  rewrite Hflag. fold (requestUrl feedId).
  unfold try_catch, bind, axios_request. simpl.
  destruct (axios_get env (length (requests s)) (requestUrl feedId)) as [response|e];
    [|done].
  unfold parseGtfsRealtimeFeed, try_catch, lift, bind, Date_now, ret, cache_store.
  simpl. by destruct (decode env response).
Qed.

Lemma fresh_or_not (s : State) (feedId : string) (now : Z) :
  (∃ feed, fresh_entry s feedId now feed) ∨ no_fresh_entry s feedId now.
Proof.
  unfold fresh_entry, no_fresh_entry.
  destruct (apiCache_data s !! feedId) as [feed|]; [|by right; left].
  destruct (apiCache_timestamp s !! feedId) as [t|]; [|by right; right; left].
  destruct (Z.lt_ge_cases (now - t) 30000).
  - left. exists feed. split; [done|]. by exists t.
  - right. right. right. by exists t.
Qed.

Lemma fresh_not_both (s : State) (feedId : string) (now : Z) (feed : FeedMessage) :
  fresh_entry s feedId now feed → no_fresh_entry s feedId now → False.
Proof.
  intros (Hdata & t & Hts & Hlt) [Hnone|[Hnone|(t' & Hts' & Hge)]]; [congruence..|].
  rewrite Hts in Hts'. injection Hts' as <-. lia.
Qed.

Lemma fetchMtaFeed_hit env feedId feed s :
  fresh_entry s feedId (clock env (clock_reads s)) feed →
  fetchMtaFeed env feedId s = (Returned feed, after_clock s).
Proof.
  intros Hfresh. unfold fetchMtaFeed. unfold bind at 1. unfold Date_now at 1.
  unfold bind at 1.
  by rewrite (cache_lookup_fresh feedId _ feed (after_clock s)) by exact Hfresh.
Qed.

Lemma fetchMtaFeed_mock_miss env feedId s :
  USE_MOCK_DATA env = true →
  no_fresh_entry s feedId (clock env (clock_reads s)) →
  fetchMtaFeed env feedId s
  = (Returned (emptyFeed (clock env (clock_reads s))), after_clock s).
Proof.
  intros Hflag Hmiss. unfold fetchMtaFeed. unfold bind at 1. unfold Date_now at 1.
  unfold bind at 1. rewrite (cache_lookup_none feedId _ (after_clock s)) by exact Hmiss.
  by rewrite Hflag.
Qed.

(** X1. For the 30 seconds after a download the feed is served from the
    cache: when a call, with the flag unset and no fresh entry, gets a
    response from the network, the feed it returns is returned again, with
    no request, by every call for the same feed made from a state with that
    cache while the clock reads less than 30 seconds more. *)
Theorem fetchMtaFeed_download_then_cache_hit (env : Env) (feedId : string) (s : State)
    (response : list Byte.byte) :
  USE_MOCK_DATA env = false →
  no_fresh_entry s feedId (clock env (clock_reads s)) →
  axios_get env (length (requests s)) (requestUrl feedId) = Returned response →
  ∃ feed s1,
    fetchMtaFeed env feedId s = (Returned feed, s1) ∧
    requests s1 = requests s ++ [requestUrl feedId] ∧
    ∀ s2, same_cache s1 s2 →
          clock env (clock_reads s2) - clock env (clock_reads s) < 30000 →
          fetchMtaFeed env feedId s2 = (Returned feed, after_clock s2) ∧
          requests (after_clock s2) = requests s2.
Proof.
  intros Hflag Hmiss Hnet.
  rewrite (fetchMtaFeed_online_miss env feedId s Hflag Hmiss). cbv zeta. rewrite Hnet.
  destruct (decode env response) as [feed|e].
  - eexists _, _. split; [done|]. split; [done|].
    intros s2 (Hdata & Hts & _) Hyoung. simpl in Hdata, Hts. split; [|done].
    apply fetchMtaFeed_hit. split.
    + by rewrite Hdata, lookup_insert_eq.
    + eexists. rewrite Hts, lookup_insert_eq. done.
  - eexists _, _. split; [done|]. split; [done|].
    intros s2 (Hdata & Hts & _) Hyoung. simpl in Hdata, Hts. split; [|done].
    apply fetchMtaFeed_hit. split.
    + by rewrite Hdata, lookup_insert_eq.
    + eexists. rewrite Hts, lookup_insert_eq. done.
Qed.

(** X2. A failed request is not remembered: with the flag unset and no
    fresh entry, a transport error makes the call return the empty feed of
    the clock reading, after exactly one request, and leaves both halves of
    the cache as they were. *)
Theorem fetchMtaFeed_failure_not_cached (env : Env) (feedId : string) (s : State)
    (e : exn) :
  USE_MOCK_DATA env = false →
  no_fresh_entry s feedId (clock env (clock_reads s)) →
  axios_get env (length (requests s)) (requestUrl feedId) = Thrown e →
  ∃ s1,
    fetchMtaFeed env feedId s
    = (Returned (emptyFeed (clock env (clock_reads s))), s1) ∧
    requests s1 = requests s ++ [requestUrl feedId] ∧
    apiCache_data s1 = apiCache_data s ∧
    apiCache_timestamp s1 = apiCache_timestamp s ∧
    no_fresh_entry s1 feedId (clock env (clock_reads s)).
Proof.
  intros Hflag Hmiss Hnet.
  rewrite (fetchMtaFeed_online_miss env feedId s Hflag Hmiss). cbv zeta. rewrite Hnet.
  eexists. split; [done|]. by split_and!.
Qed.

(** X3. A response the decoder rejects is remembered as an empty feed: the
    call returns the feed without entities, stamped with the clock reading
    taken in the handler, and stores it under the feed id with the time of
    the call, so that for 30 seconds no new download is tried. *)
Theorem fetchMtaFeed_caches_undecodable_response (env : Env) (feedId : string)
    (s : State) (response : list Byte.byte) (e : exn) :
  USE_MOCK_DATA env = false →
  no_fresh_entry s feedId (clock env (clock_reads s)) →
  axios_get env (length (requests s)) (requestUrl feedId) = Returned response →
  decode env response = Thrown e →
  let later := clock env (S (clock_reads s)) in
  ∃ s1,
    fetchMtaFeed env feedId s = (Returned (emptyFeed later), s1) ∧
    entity (emptyFeed later) = [] ∧
    apiCache_data s1 !! feedId = Some (emptyFeed later) ∧
    apiCache_timestamp s1 !! feedId = Some (clock env (clock_reads s)) ∧
    fresh_entry s1 feedId (clock env (clock_reads s)) (emptyFeed later).
Proof.
  intros Hflag Hmiss Hnet Hdec later.
  rewrite (fetchMtaFeed_online_miss env feedId s Hflag Hmiss). cbv zeta.
  rewrite Hnet, Hdec. eexists. split; [done|]. simpl.
  split; [done|]. rewrite !lookup_insert_eq. split; [done|]. split; [done|].
  split; simpl; [by rewrite lookup_insert_eq|].
  eexists. rewrite lookup_insert_eq. split; [done|lia].
Qed.

Lemma fetchMtaFeed_returns (env : Env) (feedId : string) (s : State) :
  ∃ feed s1, fetchMtaFeed env feedId s = (Returned feed, s1).
Proof.
  destruct (fresh_or_not s feedId (clock env (clock_reads s))) as [[feed Hfresh]|Hmiss].
  - rewrite (fetchMtaFeed_hit env feedId feed s Hfresh). by eexists _, _.
  - destruct (USE_MOCK_DATA env) eqn:Hflag.
    + rewrite (fetchMtaFeed_mock_miss env feedId s Hflag Hmiss). by eexists _, _.
    + rewrite (fetchMtaFeed_online_miss env feedId s Hflag Hmiss). cbv zeta.
      destruct (axios_get env _ _) as [response|e];
        [destruct (decode env response)|]; by eexists _, _.
Qed.

(** X4. [fetchMtaFeed] returns in every environment and state, and makes at
    most one request, to the URL of the feed; it makes one exactly when the
    flag is unset and the cache holds no entry of the feed younger than 30
    seconds (an entry of exactly 30 seconds is not used). *)
Theorem fetchMtaFeed_requests_iff_online_miss (env : Env) (feedId : string) (s : State) :
  ∃ feed s1,
    fetchMtaFeed env feedId s = (Returned feed, s1) ∧
    (requests s1 = requests s ∨ requests s1 = requests s ++ [requestUrl feedId]) ∧
    (requests s1 = requests s ++ [requestUrl feedId] ↔
     USE_MOCK_DATA env = false ∧ no_fresh_entry s feedId (clock env (clock_reads s))).
Proof.
  assert (Hneq : ∀ url, requests s ≠ requests s ++ [url]).
  { intros url Heq. apply (f_equal length) in Heq. rewrite length_app in Heq.
    simpl in Heq. lia. }
  destruct (fresh_or_not s feedId (clock env (clock_reads s))) as [[feed Hfresh]|Hmiss].
  - rewrite (fetchMtaFeed_hit env feedId feed s Hfresh).
    eexists _, _. split; [done|]. split; [by left|]. simpl. split.
    + intros Heq. by apply Hneq in Heq.
    + intros [_ Hmiss]. destruct (fresh_not_both _ _ _ _ Hfresh Hmiss).
  - destruct (USE_MOCK_DATA env) eqn:Hflag.
    + rewrite (fetchMtaFeed_mock_miss env feedId s Hflag Hmiss).
      eexists _, _. split; [done|]. split; [by left|]. simpl. split.
      * intros Heq. by apply Hneq in Heq.
      * by intros [? _].
    + rewrite (fetchMtaFeed_online_miss env feedId s Hflag Hmiss). cbv zeta.
      destruct (axios_get env _ _) as [response|e];
        [destruct (decode env response)|];
        (eexists _, _; split; [done|]; split; [by right|]; simpl; by split).
Qed.

(** ** Invariants of the module state *)

Lemma assoc_Some_elem {V} (k : string) (tbl : list (string * V)) (v : V) :
  assoc k tbl = Some v → (k, v) ∈ tbl.
Proof.
  induction tbl as [|[k' v'] tbl IH]; simpl; [done|].
  destruct (String.eqb_spec k k') as [->|_].
  - intros [= ->]. left.
  - intros H. right. by apply IH.
Qed.

Lemma requestUrl_in_registry (feedId : string) :
  ∃ fid feed, (fid, feed) ∈ MTA_FEEDS ∧ requestUrl feedId = MTA_API_BASE_URL +:+ feed_url feed.
Proof.
  assert (Hirt : ∃ fid feed, (fid, feed) ∈ MTA_FEEDS ∧ feed_url feed = "gtfs"%string).
  { eexists "IRT"%string, _. split; [left|done]. }
  unfold requestUrl, feedUrl.
  destruct (assoc feedId MTA_FEEDS) as [feed|] eqn:Hfeed.
  - destruct (JsString.truthy (Some (feed_url feed))).
    + exists feedId, feed. split; [by apply assoc_Some_elem|done].
    + destruct Hirt as (fid & irt & ? & <-). by exists fid, irt.
  - destruct Hirt as (fid & irt & ? & <-). by exists fid, irt.
Qed.

Lemma mapM_state_id {A B} (f : A -> M B) (l : list A) (s : State) :
  (∀ x s0, (f x s0).2 = s0) → (mapM f l s).2 = s.
Proof.
  intros Hf. revert s. induction l as [|x l IH]; intros s; simpl; [done|].
  unfold bind. specialize (Hf x s). destruct (f x s) as [[y|e] s1]; simpl in Hf; subst s1.
  - specialize (IH s). by destruct (mapM f l s) as [[ys|e] s2].
  - done.
Qed.

Lemma extractUpdate_state_id stationId now tr nyctTrip u s :
  (extractUpdate stationId now tr nyctTrip u s).2 = s.
Proof.
  unfold extractUpdate. destruct (_ || _); [|done].
  destruct (arrivalTimeOf u) as [t|]; [|done].
  destruct (now <? t); [|done].
  unfold bind, lift. by destruct (toISOString (t * 1000)).
Qed.

Lemma extractEntity_state_id stationId now e s :
  (extractEntity stationId now e s).2 = s.
Proof.
  unfold extractEntity.
  destruct (trip_update e) as [tu|]; [|done].
  destruct (stop_time_update tu) as [us|]; [|done].
  destruct (trip tu) as [tr|]; [|done].
  unfold bind.
  pose proof (mapM_state_id (extractUpdate stationId now tr (getNyctTripDescriptor tr))
                us s (fun x s0 => extractUpdate_state_id _ _ _ _ x s0)) as H.
  by destruct (mapM _ us s) as [[found|err] s1].
Qed.

Lemma extractFeed_state_id stationId now feed s :
  (extractFeed stationId now feed s).2 = s.
Proof.
  unfold extractFeed, bind.
  pose proof (mapM_state_id (extractEntity stationId now) (entity feed) s
                (fun x s0 => extractEntity_state_id _ _ x s0)) as H.
  by destruct (mapM _ (entity feed) s) as [[found|err] s1].
Qed.

(** The extractor reads no clock, draws no number and touches no cache. *)
Lemma extractArrivals_state_id stationId now feeds s :
  (extractArrivals stationId now feeds s).2 = s.
Proof.
  unfold extractArrivals, bind.
  pose proof (mapM_state_id (extractFeed stationId now) feeds s
                (fun x s0 => extractFeed_state_id _ _ x s0)) as H.
  by destruct (mapM _ feeds s) as [[found|err] s1].
Qed.

Section Preservation.
Context (env : Env) (Inv : State -> Prop) (Hstable : module_stable Inv).

Lemma fetchMtaFeed_preserves feedId s :
  Inv s → wp (fetchMtaFeed env feedId) (fun _ s' => Inv s') never s.
Proof.
  intros Hs. destruct Hstable as (Htick & Hreq & Hstore).
  assert (Hafter : Inv (after_clock s)) by (by apply Htick).
  unfold wp.
  destruct (fresh_or_not s feedId (clock env (clock_reads s))) as [[feed Hfresh]|Hmiss].
  - by rewrite (fetchMtaFeed_hit env feedId feed s Hfresh).
  - destruct (USE_MOCK_DATA env) eqn:Hflag.
    + by rewrite (fetchMtaFeed_mock_miss env feedId s Hflag Hmiss).
    + rewrite (fetchMtaFeed_online_miss env feedId s Hflag Hmiss). cbv zeta.
      pose proof (Hreq _ feedId Hafter) as Hasked.
      destruct (axios_get env _ _) as [response|e];
        [destruct (decode env response) as [feed|e]|].
      * exact (Hstore _ feedId feed (clock env (clock_reads s)) Hasked).
      * pose proof (Hstore _ feedId (emptyFeed (clock env (S (clock_reads s))))
                      (clock env (clock_reads s)) Hasked) as Hstored.
        exact (Htick _ (S (S (clock_reads s))) (random_draws s) Hstored).
      * exact Hasked.
Qed.

Lemma getTrainArrivals_preserves stationId s :
  Inv s → wp (getTrainArrivals env stationId) (fun _ s' => Inv s') never s.
Proof.
  intros Hs. pose proof (proj1 Hstable) as Htick. unfold getTrainArrivals.
  apply wp_try_catch.
  apply (wp_mono _ (fun _ s' => Inv s') _ (fun _ s' => Inv s'));
    [|done|by intros; apply wp_ret].
  apply wp_bind, wp_lift.
  destruct (findStation env stationId) as [[st|]|e]; [|by apply wp_ret|exact Hs].
  apply wp_bind.
  apply (wp_mono _ (fun _ s' => Inv s') _ (fun _ s' => Inv s'));
    [|by intros; apply wp_ret|done].
  destruct (USE_MOCK_DATA env).
  - eapply (wp_mono _ _ _ never);
      [by apply (generateMockArrivals_spec env Inv Htick)|by intros ? ? [_ ?]|by intros ? ? []].
  - apply wp_bind.
    eapply (wp_mono _ _ _ never);
      [apply (wp_mapM _ Inv (fun _ _ => True)); [|done]| |by intros ? ? []].
    { intros feedId s0 _ Hs0.
      eapply wp_mono; [by apply fetchMtaFeed_preserves|by intros ? ? ?|done]. }
    cbv beta. intros feeds s1 [_ Hs1].
    apply wp_bind.
    eapply (wp_mono _ _ _ never);
      [by apply (wp_Date_now _ _ Htick)|cbv beta|by intros ? ? []].
    intros ms s2 [_ Hs2].
    apply wp_bind. unfold wp at 1.
    pose proof (extractArrivals_state_id stationId (ms `div` 1000) feeds s2) as Hid.
    destruct (extractArrivals stationId (ms `div` 1000) feeds s2) as [[arrs|e] s3];
      simpl in Hid; subst s3; [|done].
    destruct (Z.of_nat (length arrs) =? 0); [|by apply wp_ret].
    eapply (wp_mono _ _ _ never);
      [by apply (generateMockArrivals_spec env Inv Htick)|by intros ? ? [_ ?]|by intros ? ? []].
Qed.

Lemma reachable_Inv s : Inv initial_state → reachable env s → Inv s.
Proof.
  intros Hinit. induction 1 as [|s stationId _ IH|s feedId _ IH]; [done| |].
  - pose proof (getTrainArrivals_preserves stationId s IH) as Hwp.
    unfold wp in Hwp. by destruct (getTrainArrivals env stationId s) as [[r|e] s'].
  - pose proof (fetchMtaFeed_preserves feedId s IH) as Hwp.
    unfold wp in Hwp. by destruct (fetchMtaFeed env feedId s) as [[r|e] s'].
Qed.
End Preservation.

Lemma cache_consistent_stable : module_stable cache_consistent.
Proof.
  unfold module_stable, tick_stable, cache_consistent. split_and!; try done.
  intros s feedId feed now Hs. simpl. by rewrite !dom_insert_L, Hs.
Qed.

Lemma requests_in_registry_stable : module_stable requests_in_registry.
Proof.
  unfold module_stable, tick_stable, requests_in_registry. split_and!; try done.
  intros s feedId Hs. simpl. apply Forall_app. split; [done|].
  constructor; [|constructor]. apply requestUrl_in_registry.
Qed.

(** X5. In every state a process can reach, in mock mode or not, the two
    halves of the cache (feeds and time stamps) have the same keys, and
    every URL that was requested is the URL of one of the feeds of the
    registry (the IRT one for a feed id the registry does not know). *)
Theorem reachable_cache_consistent_requests_in_registry (env : Env) (s : State) :
  reachable env s →
  dom (apiCache_data s) = dom (apiCache_timestamp s) ∧
  Forall (fun url => ∃ feedId feed, (feedId, feed) ∈ MTA_FEEDS ∧
                                    url = MTA_API_BASE_URL +:+ feed_url feed)
         (requests s).
Proof.
  intros Hs. split.
  - by apply (reachable_Inv env cache_consistent cache_consistent_stable s).
  - apply (reachable_Inv env requests_in_registry requests_in_registry_stable s);
      [constructor|done].
Qed.

(** ** [getTrainArrivals], case by case *)

(** X6. In mock mode [getTrainArrivals] asks the network for nothing and
    leaves the cache as it is, whatever the station and the state. *)
Theorem getTrainArrivals_mock_mode_offline (env : Env) (stationId : string) (s : State) :
  USE_MOCK_DATA env = true →
  ∃ r s', getTrainArrivals env stationId s = (Returned r, s') ∧
          requests s' = requests s ∧
          apiCache_data s' = apiCache_data s ∧
          apiCache_timestamp s' = apiCache_timestamp s.
Proof.
  intros Hmock.
  pose proof (getTrainArrivals_offline_Inv env Hmock (same_cache s) stationId s
                (same_cache_stable s) (same_cache_refl s)) as Hwp.
  apply wp_returns in Hwp as (r & s' & Hrun & Hd & Ht & Hr).
  by exists r, s'.
Qed.

(** What holds of every arrival an update yields holds of every arrival of
    the extractor. *)
Lemma extractArrivals_Forall (P : NormalizedArrival -> Prop) stationId now feeds s :
  (∀ tr nyctTrip u s0 arrs s1,
     extractUpdate stationId now tr nyctTrip u s0 = (Returned arrs, s1) →
     Forall P arrs) →
  wp (extractArrivals stationId now feeds) (fun arrs _ => Forall P arrs) anyhow s.
Proof.
  intros Hupdate.
  assert (Hconcat : ∀ {X} (l : list X) (yss : list (list NormalizedArrival)),
             Forall2 (fun _ ys => Forall P ys) l yss → Forall P (concat yss)).
  { intros X l yss. induction 1; simpl; [constructor|by apply Forall_app]. }
  assert (Hentity : ∀ e s0,
    wp (extractEntity stationId now e) (fun arrs _ => Forall P arrs ∧ True) anyhow s0).
  { intros e s0. unfold extractEntity.
    destruct (trip_update e) as [tu|]; [|by apply wp_ret].
    destruct (stop_time_update tu) as [us|]; [|by apply wp_ret].
    destruct (trip tu) as [tr|]; [|by apply wp_ret].
    apply wp_bind.
    eapply (wp_mono _ _ _ anyhow);
      [apply (wp_mapM _ (fun _ => True) (fun _ arrs => Forall P arrs)); [|done]| |done].
    - intros u s1 _ _. unfold wp.
      destruct (extractUpdate stationId now tr (getNyctTripDescriptor tr) u s1)
        as [[arrs|err] s2] eqn:Hrun; [|done].
      split; [by eapply Hupdate|done].
    - cbv beta. intros found s1 [Hfound _]. apply wp_ret. split; [|done].
      by eapply Hconcat. }
  assert (Hfeed : ∀ feed s0,
    wp (extractFeed stationId now feed) (fun arrs _ => Forall P arrs ∧ True) anyhow s0).
  { intros feed s0. unfold extractFeed. apply wp_bind.
    eapply (wp_mono _ _ _ anyhow);
      [apply (wp_mapM _ (fun _ => True) (fun _ arrs => Forall P arrs)); [|done]| |done].
    - intros e s1 _ _. apply Hentity.
    - cbv beta. intros found s1 [Hfound _]. apply wp_ret. split; [|done].
      by eapply Hconcat. }
  unfold extractArrivals. apply wp_bind.
  eapply (wp_mono _ _ _ anyhow);
    [apply (wp_mapM _ (fun _ => True) (fun _ arrs => Forall P arrs)); [|done]| |done].
  - intros feed s1 _ _. apply Hfeed.
  - cbv beta. intros found s1 [Hfound _]. apply wp_ret. by eapply Hconcat.
Qed.

Lemma extractUpdate_direction stationId now tr nyctTrip u s arrs s' :
  extractUpdate stationId now tr nyctTrip u s = (Returned arrs, s') →
  Forall (fun a => is_Some (direction a)) arrs.
Proof.
  unfold extractUpdate.
  destruct (_ || _); [|by intros [= <- <-]].
  destruct (arrivalTimeOf u) as [t|]; [|by intros [= <- <-]].
  destruct (now <? t); [|by intros [= <- <-]].
  unfold bind, lift, ret. destruct (toISOString (t * 1000)) as [iso|e]; [|done].
  intros [= <- <-]. repeat constructor. by eexists.
Qed.

Lemma mapM_thrown {A B} (f : A -> M B) (P : exn -> Prop) (l : list A) s e s' :
  (∀ x s0 e0 s1, f x s0 = (Thrown e0, s1) → P e0) →
  mapM f l s = (Thrown e, s') → P e.
Proof.
  intros Hf. revert s. induction l as [|x l IH]; intros s; simpl; [done|].
  unfold bind. destruct (f x s) as [[y|e0] s1] eqn:Hx.
  - specialize (IH s1). destruct (mapM f l s1) as [[ys|e1] s2]; [done|].
    intros [= <- <-]. by apply IH.
  - intros [= <- <-]. by eapply Hf.
Qed.

(** The one exception the extractor can throw is the [RangeError] of a date
    that cannot be converted. *)
Lemma extractArrivals_thrown stationId now feeds s e s' :
  extractArrivals stationId now feeds s = (Thrown e, s') → e = RangeError.
Proof.
  assert (Hupdate : ∀ tr nyctTrip u s0 e0 s1,
    extractUpdate stationId now tr nyctTrip u s0 = (Thrown e0, s1) → e0 = RangeError).
  { intros tr nyctTrip u s0 e0 s1. unfold extractUpdate.
    destruct (_ || _); [|done].
    destruct (arrivalTimeOf u) as [t|]; [|done].
    destruct (now <? t); [|done].
    unfold bind, lift, toISOString.
    destruct (Z.abs (t * 1000) <=? 8640000000000000); [done|by intros [= <- <-]]. }
  assert (Hentity : ∀ en s0 e0 s1,
    extractEntity stationId now en s0 = (Thrown e0, s1) → e0 = RangeError).
  { intros en s0 e0 s1. unfold extractEntity.
    destruct (trip_update en) as [tu|]; [|done].
    destruct (stop_time_update tu) as [us|]; [|done].
    destruct (trip tu) as [tr|]; [|done].
    unfold bind.
    destruct (mapM _ us s0) as [[found|e1] s2] eqn:Hrun; [done|].
    intros [= <- <-].
    eapply (mapM_thrown _ (fun e => e = RangeError)); [|exact Hrun].
    intros u. apply Hupdate. }
  assert (Hfeed : ∀ feed s0 e0 s1,
    extractFeed stationId now feed s0 = (Thrown e0, s1) → e0 = RangeError).
  { intros feed s0 e0 s1. unfold extractFeed, bind.
    destruct (mapM _ (entity feed) s0) as [[found|e1] s2] eqn:Hrun; [done|].
    intros [= <- <-].
    eapply (mapM_thrown _ (fun e => e = RangeError)); [|exact Hrun].
    exact Hentity. }
  unfold extractArrivals, bind.
  destruct (mapM _ feeds s) as [[found|e1] s2] eqn:Hrun; [done|].
  intros [= <- <-].
  eapply (mapM_thrown _ (fun e => e = RangeError)); [|exact Hrun].
  exact Hfeed.
Qed.

(** X7. For a station of the store, [getTrainArrivals] returns one of three
    things. With the flag unset and a non-empty yield of the extractor over
    the fetched feeds (as many as the router named): that yield, sorted, all
    with a direction, and no synthetic arrival. Otherwise the yield of the
    generator, sorted, none with a direction. Or, when a date of the feeds
    cannot be converted, no arrival and no station at all. *)
Theorem getTrainArrivals_real_or_synthetic (env : Env) (stationId : string)
    (st : Station) (s : State) :
  findStation env stationId = Returned (Some st) →
  ∃ r s',
    getTrainArrivals env stationId s = (Returned r, s') ∧
    ((∃ feeds now s0 arrs,
        USE_MOCK_DATA env = false ∧
        length feeds = length (getRelevantFeeds (station_lines st)) ∧
        extractArrivals stationId now feeds s0 = (Returned arrs, s0) ∧
        arrs ≠ [] ∧
        arrivals r = sort_by arrivalTime arrs ∧
        Forall (fun a => is_Some (direction a)) (arrivals r) ∧
        is_Some (station r))
     ∨ (∃ n blocks,
          arrivals r ≡ₚ concat blocks ∧
          Forall2 (mock_block env (clock env n)) (default [] (station_lines st)) blocks ∧
          Forall (fun a => direction a = None) (arrivals r) ∧
          is_Some (station r))
     ∨ (∃ feeds now s0,
          USE_MOCK_DATA env = false ∧
          extractArrivals stationId now feeds s0 = (Thrown RangeError, s0) ∧
          r = {| arrivals := []; station := None |})).
Proof.
  intros Hfind.
  match goal with |- ∃ r s', _ ∧ @?post r => set (Q := fun r (_ : State) => post r) end.
  enough (wp (getTrainArrivals env stationId) Q never s) as Hwp.
  { apply wp_returns in Hwp as (r & s' & Hrun & HQ). by exists r, s'. }
  assert (Hmock : ∀ s0,
    wp (generateMockArrivals env st)
       (fun arrs s1 =>
          wp (ret {| arrivals := sort_by arrivalTime arrs;
                     station := Some {| info_id := stationId;
                                        info_name := station_name st;
                                        info_lines := default [] (station_lines st) |} |})
             Q never s1) never s0).
  { intros s0.
    eapply wp_mono;
      [by apply (generateMockArrivals_spec env (fun _ => True) (fun _ _ _ _ => I))| |done].
    cbv beta. intros arrs s1 [(blocks & -> & Hblocks) _].
    apply wp_ret. subst Q. cbv beta. right. left.
    exists (clock_reads s0), blocks. simpl. split_and!.
    - by rewrite !sort_by_Permutation.
    - done.
    - rewrite !sort_by_Permutation.
      eapply Forall_impl; [exact (mock_blocks_shape _ _ _ _ Hblocks)|].
      by intros a (ln & _ & _ & ? & _).
    - by eexists. }
  unfold getTrainArrivals. unfold wp, try_catch, bind at 1, lift. rewrite Hfind.
  destruct (USE_MOCK_DATA env) eqn:Hflag.
  - specialize (Hmock s). unfold wp in Hmock. unfold bind.
    by destruct (generateMockArrivals env st s) as [[arrs|e] s1].
  - unfold bind at 1. unfold bind at 1.
    pose proof (wp_mapM (fetchMtaFeed env) (fun _ => True) (fun _ _ => True) never
                  (getRelevantFeeds (station_lines st)) s) as Hfetch.
    unfold wp in Hfetch.
    destruct (mapM (fetchMtaFeed env) (getRelevantFeeds (station_lines st)) s)
      as [[feeds|e] s1].
    2:{ exfalso. apply Hfetch; [|done]. intros feedId s0 _ _.
        destruct (fetchMtaFeed_returns env feedId s0) as (feed & s2 & Hrun).
        unfold wp. by rewrite Hrun. }
    destruct Hfetch as [Hlen _]; [|done|].
    { intros feedId s0 _ _.
      destruct (fetchMtaFeed_returns env feedId s0) as (feed & s2 & Hrun).
      unfold wp. by rewrite Hrun. }
    apply Forall2_length in Hlen.
    unfold bind at 1. unfold Date_now at 1. unfold bind at 1.
    set (now := clock env (clock_reads s1) `div` 1000).
    pose proof (extractArrivals_state_id stationId now feeds (after_clock s1)) as Hid.
    pose proof (extractArrivals_Forall (fun a => is_Some (direction a)) stationId now
                  feeds (after_clock s1)
                  (fun tr nyctTrip u s0 arrs s2 =>
                     extractUpdate_direction stationId now tr nyctTrip u s0 arrs s2))
      as Hdir.
    unfold wp in Hdir. fold (after_clock s1).
    destruct (extractArrivals stationId now feeds (after_clock s1)) as [[arrs|e] s2] eqn:Hrun;
      simpl in Hid; subst s2.
    + destruct arrs as [|a arrs]; simpl Z.of_nat.
      * specialize (Hmock (after_clock s1)). unfold wp in Hmock. simpl.
        by destruct (generateMockArrivals env st (after_clock s1)) as [[mock|e] s3].
      * simpl. subst Q. cbv beta. left.
        exists feeds, now, (after_clock s1), (a :: arrs).
        split_and!; [done|by symmetry|done|done|done| |by eexists].
        simpl. by rewrite (sort_by_Permutation arrivalTime (a :: arrs)).
    + simpl. subst Q. cbv beta. right. right.
      exists feeds, now, (after_clock s1). split; [done|]. split; [|done].
      pose proof (extractArrivals_thrown _ _ _ _ _ _ Hrun) as ->. exact Hrun.
Qed.

(** ** Reads of the lookup tables *)

Lemma assoc_strings (key : string) (tbl : list (string * string)) :
  assoc key (JsObject.strings tbl) = JsObject.Str <$> assoc key tbl.
Proof.
  induction tbl as [|[k v] tbl IH]; simpl; [done|].
  by destruct (String.eqb key k).
Qed.

Lemma assoc_app_Some {V} (k : string) (t1 t2 : list (string * V)) (v : V) :
  assoc k t1 = Some v → assoc k (t1 ++ t2) = Some v.
Proof.
  induction t1 as [|[k' v'] t1 IH]; simpl; [done|].
  by destruct (String.eqb k k').
Qed.

Lemma assoc_app_None {V} (k : string) (t1 t2 : list (string * V)) :
  assoc k t1 = None → assoc k (t1 ++ t2) = assoc k t2.
Proof.
  induction t1 as [|[k' v'] t1 IH]; simpl; [done|].
  by destruct (String.eqb k k').
Qed.

(** A line that names a member of [Object.prototype] gets that member as
    its colour; every other line the colour of the table, or grey. *)
Lemma lineColor_cases (ln : string) :
  (ln ∈ JsObject.prototype_keys → lineColor ln = JsObject.Member ln) ∧
  (ln ∉ JsObject.prototype_keys →
   lineColor ln = JsObject.Str (default "#808183"%string (assoc ln lineColors))).
Proof.
  split.
  - intros Hin. unfold JsObject.prototype_keys in Hin.
    repeat (apply elem_of_cons in Hin as [->|Hin]; [reflexivity|]).
    by apply elem_of_nil in Hin.
  - intros Hout. unfold lineColor, JsObject.read, JsObject.get.
    rewrite assoc_strings.
    destruct (assoc ln lineColors) as [c|] eqn:Hc; simpl.
    + apply assoc_Some_elem in Hc.
      assert (Hall : Forall (fun p : string * string => p.2 ≠ ""%string) lineColors)
        by (repeat constructor; done).
      rewrite Forall_forall in Hall. specialize (Hall _ Hc). simpl in Hall.
      unfold JsObject.or_else. simpl. by destruct c.
    + destruct (bool_decide_reflect (ln ∈ JsObject.prototype_keys)); done.
Qed.

(** ** Stop ids and directions *)

Lemma endsWith_N_skip (c : ascii) (x : string) :
  x ≠ EmptyString → JsString.endsWith_N (String c x) = JsString.endsWith_N x.
Proof.
  destruct x as [|d x]; [done|]. intros _.
  destruct c as [[] [] [] [] [] [] [] []]; reflexivity.
Qed.

Lemma append_nonempty (x y : string) : y ≠ EmptyString → x +:+ y ≠ EmptyString.
Proof. destruct x; simpl; [done|discriminate]. Qed.

Lemma endsWith_N_north (stationId : string) :
  JsString.endsWith_N (formatStopId stationId NORTH) = true.
Proof.
  unfold formatStopId. induction stationId as [|c x IH]; [done|].
  change (String c x +:+ "N") with (String c (x +:+ "N")).
  rewrite endsWith_N_skip; [done|by apply append_nonempty].
Qed.

Lemma endsWith_N_south (stationId : string) :
  JsString.endsWith_N (formatStopId stationId SOUTH) = false.
Proof.
  unfold formatStopId. induction stationId as [|c x IH]; [done|].
  change (String c x +:+ "S") with (String c (x +:+ "S")).
  rewrite endsWith_N_skip; [done|by apply append_nonempty].
Qed.

Lemma arrivalTimeOf_small (u : StopTimeUpdate) (t : Z) :
  predictedTime u = Some t → words_in_range u → 0 < t < 2 ^ 31 →
  arrivalTimeOf u = Some t.
Proof.
  unfold predictedTime, words_in_range, arrivalTimeOf.
  destruct (arrival u) as [ev|]; [|done]. simpl.
  destruct (Gtfs.time ev) as [[n|low high]|]; [| |done]; simpl.
  - intros [= <-] _ Ht. destruct (Z.eqb_spec n 0); [lia|done].
  - intros [= <-] Hwords Ht.
    destruct (Hwords low high eq_refl) as [Hlow Hhigh].
    pose proof (Z.mod_pos_bound low (2 ^ 32) ltac:(lia)) as Hmod.
    assert (high = 0) as -> by lia.
    destruct (Z.lt_ge_cases low 0) as [Hneg|Hpos].
    + assert (low + 2 ^ 32 = low `mod` 2 ^ 32) as Hwrap
        by (apply (Z.mod_unique_pos low (2 ^ 32) (-1)); lia).
      lia.
    + rewrite Z.mod_small in Ht |- * by lia.
      destruct (Z.eqb_spec low 0); [lia|]. by rewrite Z.add_0_l.
Qed.

(** X8. An update counts for a station exactly when its stop id is the
    station id followed by N or by S. Then, when the time the code reads of
    it (the number, or the low word of a [Long]) is after [now], it yields
    one arrival whose direction is the one of that letter, with the trip's
    id and route, what [lineColors] holds for the route and the time in
    milliseconds; or, when that time is beyond what a [Date] can hold, it
    throws a [RangeError]. An update of another stop yields nothing. The
    time read is the predicted time when that is positive and below 2^31
    seconds. *)
Theorem extractUpdate_by_stop_id (stationId : string) (now : Z) (tr : TripDescriptor)
    (nyctTrip : option NyctTripDescriptor) (u : StopTimeUpdate) (s : State) :
  (stop_id u ≠ formatStopId stationId NORTH →
   stop_id u ≠ formatStopId stationId SOUTH →
   extractUpdate stationId now tr nyctTrip u s = (Returned [], s)) ∧
  (∀ dir t,
     stop_id u = formatStopId stationId dir →
     arrivalTimeOf u = Some t → now < t →
     (Z.abs (t * 1000) <= 8640000000000000 →
      ∃ a, extractUpdate stationId now tr nyctTrip u s = (Returned [a], s) ∧
           direction a = Some dir ∧ arrivalTime a = t * 1000 ∧
           line a = route_id tr ∧ id a = trip_id tr ∧
           color a = lineColor (route_id tr) ∧
           delay a = default 0 (arrival u ≫= Gtfs.delay)) ∧
     (8640000000000000 < Z.abs (t * 1000) →
      extractUpdate stationId now tr nyctTrip u s = (Thrown RangeError, s))) ∧
  (∀ t, predictedTime u = Some t → words_in_range u → 0 < t < 2 ^ 31 →
        arrivalTimeOf u = Some t) ∧
  (route_id tr ∈ JsObject.prototype_keys →
   lineColor (route_id tr) = JsObject.Member (route_id tr)) ∧
  (route_id tr ∉ JsObject.prototype_keys →
   lineColor (route_id tr)
   = JsObject.Str (default "#808183"%string (assoc (route_id tr) lineColors))).
Proof.
  split_and!.
  - intros Hn Hs. unfold extractUpdate.
    destruct (String.eqb_spec (stop_id u) (formatStopId stationId NORTH)); [done|].
    by destruct (String.eqb_spec (stop_id u) (formatStopId stationId SOUTH)).
  - intros dir t Hstop Ht Hlt. unfold extractUpdate.
    assert (String.eqb (stop_id u) (formatStopId stationId NORTH)
            || String.eqb (stop_id u) (formatStopId stationId SOUTH) = true) as ->.
    { rewrite Hstop. destruct dir; rewrite String.eqb_refl; [done|by rewrite orb_true_r]. }
    rewrite Ht. apply Z.ltb_lt in Hlt as ->.
    assert ((if JsString.endsWith_N (stop_id u) then NORTH else SOUTH) = dir) as ->.
    { rewrite Hstop. destruct dir; [by rewrite endsWith_N_north|by rewrite endsWith_N_south]. }
    unfold bind, lift, toISOString, ret. split.
    + intros Hin. apply Z.leb_le in Hin as ->. eexists. split; [done|]. by split_and!.
    + intros Hout. by apply Z.leb_gt in Hout as ->.
  - apply arrivalTimeOf_small.
  - apply lineColor_cases.
  - apply lineColor_cases.
Qed.

(** ** The requests of one call *)

Lemma getRelevantFeeds_NoDup (stationLines : option (list string)) :
  NoDup (getRelevantFeeds stationLines).
Proof.
  assert (Hall : NoDup (object_keys MTA_FEEDS)).
  { exact (bool_decide_unpack (NoDup (object_keys MTA_FEEDS)) I). }
  destruct stationLines as [lines|]; [|done].
  rewrite getRelevantFeeds_unfold.
  pose proof (lines_fold_NoDup lines [] (NoDup_nil_2)) as Hnd.
  by destruct (fold_left add_feeds_of_line lines []).
Qed.

Lemma fetch_all_online_requests (env : Env) (feedIds : list string) (s : State) :
  USE_MOCK_DATA env = false →
  NoDup feedIds →
  (∀ feedId, feedId ∈ feedIds → apiCache_data s !! feedId = None) →
  ∃ feeds s',
    mapM (fetchMtaFeed env) feedIds s = (Returned feeds, s') ∧
    requests s' = requests s ++ (requestUrl <$> feedIds).
Proof.
  intros Hflag. revert s. induction feedIds as [|x ids IH]; intros s Hnd Hcold; simpl.
  - exists [], s. by rewrite app_nil_r.
  - apply NoDup_cons in Hnd as [Hx Hnd].
    unfold bind at 1.
    rewrite (fetchMtaFeed_online_miss env x s Hflag)
      by (left; apply Hcold; left).
    cbv zeta.
    assert (Hrest : ∀ s1 : State,
      requests s1 = requests s ++ [requestUrl x] →
      (∀ y, y ≠ x → apiCache_data s1 !! y = apiCache_data s !! y) →
      ∀ feed,
        ∃ feeds s',
          (let (o, s'0) := mapM (fetchMtaFeed env) ids s1 in
           match o with
           | Returned a => ret (feed :: a) s'0
           | Thrown e => (Thrown e, s'0)
           end) = (Returned feeds, s') ∧
          requests s' = requests s ++ requestUrl x :: (requestUrl <$> ids)).
    { intros s1 Hreq Hcache feed.
      destruct (IH s1 Hnd) as (feeds & s' & Hrun & Hreqs).
      - intros y Hy. rewrite Hcache; [apply Hcold; by right|].
        intros ->. done.
      - rewrite Hrun. exists (feed :: feeds), s'. split; [done|].
        by rewrite Hreqs, Hreq, <- app_assoc. }
    destruct (axios_get env _ _) as [response|e];
      [destruct (decode env response) as [feed|e]|]; unfold bind.
    + apply Hrest; [done|]. intros y Hy. simpl. by rewrite lookup_insert_ne.
    + apply Hrest; [done|]. intros y Hy. simpl. by rewrite lookup_insert_ne.
    + by apply Hrest.
Qed.

(** X9. With the flag unset and an empty cache, [getTrainArrivals] for a
    station of the store requests exactly the feeds the router names for
    the station's lines, each once and in that order, whatever the network
    answers. *)
Theorem getTrainArrivals_requests_relevant_feeds (env : Env) (stationId : string)
    (st : Station) (s : State) :
  USE_MOCK_DATA env = false →
  findStation env stationId = Returned (Some st) →
  apiCache_data s = ∅ →
  ∃ r s',
    getTrainArrivals env stationId s = (Returned r, s') ∧
    requests s' = requests s ++ (requestUrl <$> getRelevantFeeds (station_lines st)).
Proof.
  intros Hflag Hfind Hcold.
  destruct (fetch_all_online_requests env (getRelevantFeeds (station_lines st)) s Hflag
              (getRelevantFeeds_NoDup _)) as (feeds & s1 & Hfetch & Hreqs).
  { intros feedId _. by rewrite Hcold, lookup_empty. }
  set (urls := requests s ++ (requestUrl <$> getRelevantFeeds (station_lines st))) in *.
  assert (Hstable : tick_stable (fun s0 => requests s0 = urls)) by (by intros ? ? ? ?).
  unfold getTrainArrivals, try_catch, bind at 1, lift. rewrite Hfind, Hflag.
  unfold bind at 1. unfold bind at 1. rewrite Hfetch.
  unfold bind at 1. unfold Date_now at 1. unfold bind at 1.
  set (now := clock env (clock_reads s1) `div` 1000).
  pose proof (extractArrivals_state_id stationId now feeds (after_clock s1)) as Hid.
  fold (after_clock s1).
  assert (Hmock : ∀ s0, requests s0 = urls →
    ∃ arrs s2, generateMockArrivals env st s0 = (Returned arrs, s2) ∧ requests s2 = urls).
  { intros s0 Hs0.
    pose proof (generateMockArrivals_spec env _ Hstable st never s0 Hs0) as Hwp.
    apply wp_returns in Hwp as (arrs & s2 & Hrun & _ & Hs2). by exists arrs, s2. }
  destruct (extractArrivals stationId now feeds (after_clock s1)) as [[arrs|e] s2];
    simpl in Hid; subst s2.
  - destruct arrs as [|a arrs]; simpl Z.of_nat; simpl.
    + destruct (Hmock (after_clock s1) Hreqs) as (mock & s2 & -> & Hs2).
      by eexists _, _.
    + by eexists _, _.
  - by eexists _, _.
Qed.

(** ** What the generator makes up *)

Lemma get_Own_elem {V} (key : string) (tbl : list (string * V)) (v : V) :
  JsObject.get key tbl = JsObject.Own v → (key, v) ∈ tbl.
Proof.
  unfold JsObject.get. destruct (assoc key tbl) as [v'|] eqn:Hv.
  - intros [= <-]. by apply assoc_Some_elem.
  - by destruct (bool_decide _).
Qed.

Lemma get_Inherited {V} (key : string) (tbl : list (string * V)) :
  JsObject.get key tbl = JsObject.Inherited →
  key ∈ JsObject.prototype_keys ∧ assoc key tbl = None.
Proof.
  unfold JsObject.get. destruct (assoc key tbl); [done|].
  destruct (bool_decide_reflect (key ∈ JsObject.prototype_keys)); done.
Qed.

Lemma get_Missing {V} (key : string) (tbl : list (string * V)) :
  JsObject.get key tbl = JsObject.Missing →
  assoc key tbl = None ∧ key ∉ JsObject.prototype_keys.
Proof.
  unfold JsObject.get. destruct (assoc key tbl); [done|].
  destruct (bool_decide_reflect (key ∈ JsObject.prototype_keys)); done.
Qed.

Lemma pickRandom_member (env : Env) (l : list string) (s : State) :
  (0 < length l)%nat →
  wp (pickRandom env l) (fun dest _ => random_ok env → dest ∈ (Some <$> l)) never s.
Proof.
  intros Hne. unfold pickRandom.
  apply wp_bind.
  eapply (wp_mono _ _ _ never);
    [apply (wp_random_below env (fun _ => True)); [by intros ? ? ? ?|exact I]
    |cbv beta|done].
  intros i s1 [Hi _]. apply wp_ret. intros Hok.
  specialize (Hi Hok ltac:(lia)).
  destruct (Z.ltb_spec i 0); [lia|].
  destruct (lookup_lt_is_Some_2 l (Z.to_nat i) ltac:(lia)) as [d Hd].
  rewrite Hd. apply list_elem_of_fmap. exists d. split; [done|].
  by eapply list_elem_of_lookup_2.
Qed.

Lemma getRandomDestination_member (env : Env) (ln : string) (s : State) :
  wp (getRandomDestination env ln)
     (fun dest _ => random_ok env → dest ∈ candidates ln) never s.
Proof.
  unfold getRandomDestination, candidates.
  destruct (JsObject.get ln line_destinations) as [l| |] eqn:Hget.
  - apply pickRandom_member.
    apply get_Own_elem in Hget.
    assert (Hall : Forall (fun p : string * list string => (0 < length p.2)%nat)
                          line_destinations)
      by (repeat constructor).
    rewrite Forall_forall in Hall. apply (Hall _ Hget).
  - apply wp_bind. unfold wp at 1, Math_random. apply wp_ret. intros _. by left.
  - apply pickRandom_member. simpl. lia.
Qed.

Ltac wp_draw Hstable :=
  apply wp_bind;
  eapply (wp_mono _ _ _ never);
  [ first [ apply (wp_random_below _ (fun _ => True) Hstable)
          | apply (wp_Math_random _ (fun _ => True) Hstable) ]; exact I
  | cbv beta
  | done ].

Lemma mockArrival_details (env : Env) (now : Z) (ln : string) (s : State) :
  wp (mockArrival env now ln) (fun a _ => mock_details env a) never s.
Proof.
  assert (Hstable : tick_stable (fun _ => True)) by (by intros ? ? ? ?).
  unfold mockArrival.
  wp_draw Hstable. intros r s1 [_ _].
  wp_draw Hstable. intros p s2 [_ _].
  apply wp_bind.
  apply (wp_mono _ (fun d _ => random_ok env → d = 0 ∨ 1 <= d <= 5) _ never never).
  { destruct (negb (Qle_bool (3 # 10) p)).
    - wp_draw Hstable.
      intros d s3 [Hd _]. apply wp_ret. intros Hok. specialize (Hd Hok). lia.
    - apply wp_ret. by left. }
  2: done.
  intros delayMinutes s3 Hdelay.
  wp_draw Hstable. intros n s4 [Hn _].
  apply wp_bind.
  eapply (wp_mono _ _ _ never); [apply getRandomDestination_member|cbv beta|done].
  intros dest s5 Hdest.
  wp_draw Hstable. intros q s6 [_ _].
  wp_draw Hstable. intros t s7 [Ht _].
  apply wp_ret. unfold mock_details. simpl. split; [done|]. split.
  - exists n, t. split; [done|]. split; [done|]. intros Hok.
    specialize (Hn Hok). specialize (Ht Hok). lia.
  - intros Hok. split.
    + destruct (Hdelay Hok) as [->|Hd]; [by left|right].
      exists delayMinutes. by split.
    + apply list_elem_of_fmap. exists dest. split; [done|by apply Hdest].
Qed.

Lemma generateMockArrivals_Forall (env : Env) (P : NormalizedArrival -> Prop)
    (st : Station) (s : State) :
  (∀ now ln s0, wp (mockArrival env now ln) (fun a _ => P a) never s0) →
  wp (generateMockArrivals env st) (fun arrs _ => Forall P arrs) never s.
Proof.
  intros Hone. unfold generateMockArrivals.
  apply wp_bind. unfold wp at 1, Date_now.
  destruct (default [] (station_lines st)) as [|l ls] eqn:Hlines.
  - apply wp_ret. constructor.
  - rewrite <- Hlines. apply wp_bind.
    eapply (wp_mono _ _ _ never);
      [apply (wp_mapM _ (fun _ => True) (fun _ block => Forall P block)); [|done]
      |cbv beta|done].
    + intros ln s0 _ _. unfold mockArrivalsOfLine. apply wp_bind.
      unfold wp at 1, random_below, bind, Math_random, ret.
      eapply (wp_mono _ _ _ never);
        [apply (wp_repeatM _ (fun _ => True) P); [|done]|cbv beta|done].
      * intros s1 _. eapply wp_mono; [apply Hone|by intros|done].
      * by intros block s1 [[? _] _].
    + intros blocks s1 [Hblocks _]. apply wp_ret.
      rewrite sort_by_Permutation.
      clear -Hblocks. induction Hblocks; simpl; [constructor|by apply Forall_app].
Qed.

(** ** Destination names *)

Lemma getDestinationName_known (dest label : string) :
  assoc dest known_destinations = Some label →
  getDestinationName (Some dest) = JsObject.Str label.
Proof.
  intros Hknown. unfold getDestinationName, JsObject.read at 1, JsObject.get.
  simpl JsObject.to_key.
  rewrite (assoc_app_Some _ _ _ (JsObject.Str label))
    by (by rewrite assoc_strings, Hknown).
  assert (label ≠ ""%string) as Hne.
  { apply assoc_Some_elem in Hknown.
    assert (Hall : Forall (fun p : string * string => p.2 ≠ ""%string) known_destinations)
      by (repeat constructor; done).
    rewrite Forall_forall in Hall. apply (Hall _ Hknown). }
  unfold JsObject.or_else. simpl. by destruct label.
Qed.

Lemma getDestinationName_inherited (dest : string) :
  dest ∈ JsObject.prototype_keys →
  getDestinationName (Some dest) = JsObject.Member dest.
Proof.
  intros Hin. unfold JsObject.prototype_keys in Hin.
  repeat (apply elem_of_cons in Hin as [->|Hin]; [reflexivity|]).
  by apply elem_of_nil in Hin.
Qed.

Lemma getDestinationName_unknown (dest : string) :
  assoc dest known_destinations = None → dest ∉ JsObject.prototype_keys →
  getDestinationName (Some dest) = JsObject.Str dest.
Proof.
  intros Hunknown Hout. unfold getDestinationName, JsObject.read, JsObject.get.
  simpl JsObject.to_key.
  rewrite !assoc_app_None by (by rewrite assoc_strings; try rewrite Hunknown).
  simpl. destruct (String.eqb dest "DEFAULT"); unfold JsObject.or_else; simpl.
  - by destruct dest.
  - by destruct (bool_decide_reflect (dest ∈ JsObject.prototype_keys)).
Qed.

(** X10. Besides the time, every arrival of the generator has an id made of
    the line, an underscore and a number below 100000, a train id made of
    [0 ], the line and a number below 10000, and a delay of 0 or of 1 to 5
    whole minutes in seconds. For a line that names no member of
    [Object.prototype], its colour is the one of the table (grey without
    one) and its destination the display name of one of the destination
    codes listed for the line (of [UNK] for a line without a list); for a
    line that names one, its colour is that member and its destination is
    [undefined]. *)
Theorem generateMockArrivals_details (env : Env) (st : Station) (s : State) :
  random_ok env →
  ∃ arrs s',
    generateMockArrivals env st s = (Returned arrs, s') ∧
    Forall (fun a =>
              color a = lineColor (line a) ∧
              (∃ n t, 0 <= n < 100000 ∧ 0 <= t < 10000 ∧
                      id a = Some (line a +:+ "_" +:+ JsString.of_Z n) ∧
                      trainId a = Some ("0 " +:+ line a +:+ JsString.of_Z t)) ∧
              (delay a = 0 ∨ ∃ d, 1 <= d <= 5 ∧ delay a = d * 60) ∧
              destination a ∈ (getDestinationName <$> candidates (line a)) ∧
              (line a ∉ JsObject.prototype_keys →
               color a
               = JsObject.Str (default "#808183"%string (assoc (line a) lineColors)) ∧
               ∃ code,
                 code ∈ default ["UNK"%string] (assoc (line a) line_destinations) ∧
                 destination a
                 = JsObject.Str (default code (assoc code known_destinations))) ∧
              (line a ∈ JsObject.prototype_keys →
               color a = JsObject.Member (line a) ∧
               destination a = JsObject.Undefined))
           arrs.
Proof.
  intros Hok.
  pose proof (generateMockArrivals_Forall env (mock_details env) st s
                (mockArrival_details env)) as Hwp.
  apply wp_returns in Hwp as (arrs & s' & Hrun & Hall).
  exists arrs, s'. split; [done|].
  eapply Forall_impl; [exact Hall|].
  intros a (Hcolor & (n & t & Hid & Htid & Hnt) & Hrest).
  destruct (Hnt Hok) as [Hn Ht]. destruct (Hrest Hok) as [Hdelay Hdest].
  split; [done|]. split; [by exists n, t|]. split; [done|]. split; [done|].
  assert (Hcodes : Forall (fun p : string * list string =>
                             Forall (fun code => code ∉ JsObject.prototype_keys) p.2)
                          line_destinations).
  { exact (bool_decide_unpack
             (Forall (fun p : string * list string =>
                        Forall (fun code => code ∉ JsObject.prototype_keys) p.2)
                     line_destinations) I). }
  unfold candidates in Hdest. split.
  - intros Hout. split; [rewrite Hcolor; by apply lineColor_cases|].
    destruct (JsObject.get (line a) line_destinations) as [l| |] eqn:Hget.
    + apply list_elem_of_fmap in Hdest as (dest & -> & Hin).
      apply list_elem_of_fmap in Hin as (code & -> & Hin).
      pose proof (get_Own_elem _ _ _ Hget) as Helem.
      rewrite Forall_forall in Hcodes. specialize (Hcodes _ Helem). simpl in Hcodes.
      rewrite Forall_forall in Hcodes. specialize (Hcodes _ Hin).
      exists code. split.
      * unfold JsObject.get in Hget.
        destruct (assoc (line a) line_destinations) as [l'|]; [|by destruct (bool_decide _)].
        by injection Hget as ->.
      * destruct (assoc code known_destinations) as [label|] eqn:Hcode; simpl.
        -- by apply getDestinationName_known.
        -- by apply getDestinationName_unknown.
    + by apply get_Inherited in Hget as [? _].
    + apply get_Missing in Hget as [-> _].
      apply list_elem_of_fmap in Hdest as (dest & -> & Hin).
      apply list_elem_of_singleton in Hin as ->.
      exists "UNK"%string. split; [by left|reflexivity].
  - intros Hin. split; [rewrite Hcolor; by apply lineColor_cases|].
    assert (JsObject.get (line a) line_destinations = JsObject.Inherited) as Hget.
    { clear -Hin. unfold JsObject.prototype_keys in Hin.
      repeat (apply elem_of_cons in Hin as [->|Hin]; [reflexivity|]).
      by apply elem_of_nil in Hin. }
    rewrite Hget in Hdest.
    apply list_elem_of_fmap in Hdest as (dest & -> & Hd).
    by apply list_elem_of_singleton in Hd as ->.
Qed.

(** X11. [getDestinationName] maps a known code to its label, a string that
    names a member of [Object.prototype] to that member, every other string
    to itself, and [undefined] to [undefined]; a name it returns is returned
    unchanged when it is passed in again. *)
Theorem getDestinationName_idempotent (dest : string) :
  (∀ label, assoc dest known_destinations = Some label →
            getDestinationName (Some dest) = JsObject.Str label) ∧
  (dest ∈ JsObject.prototype_keys →
   getDestinationName (Some dest) = JsObject.Member dest) ∧
  (assoc dest known_destinations = None → dest ∉ JsObject.prototype_keys →
   getDestinationName (Some dest) = JsObject.Str dest) ∧
  getDestinationName None = JsObject.Undefined ∧
  (∀ name, getDestinationName (Some dest) = JsObject.Str name →
           getDestinationName (Some name) = JsObject.Str name).
Proof.
  split; [apply getDestinationName_known|].
  split; [apply getDestinationName_inherited|].
  split; [apply getDestinationName_unknown|].
  split; [reflexivity|].
  intros name Hname.
  destruct (assoc dest known_destinations) as [label|] eqn:Hdest.
  - rewrite (getDestinationName_known dest label Hdest) in Hname.
    injection Hname as <-.
    apply assoc_Some_elem in Hdest.
    assert (Hall : Forall (fun p : string * string =>
                             getDestinationName (Some p.2) = JsObject.Str p.2)
                          known_destinations)
      by (repeat constructor).
    rewrite Forall_forall in Hall. apply (Hall _ Hdest).
  - destruct (decide (dest ∈ JsObject.prototype_keys)) as [Hin|Hout].
    + by rewrite (getDestinationName_inherited dest Hin) in Hname.
    + rewrite (getDestinationName_unknown dest Hdest Hout) in Hname.
      injection Hname as <-. by apply getDestinationName_unknown.
Qed.

(** ** The real-time entries of the route *)

Lemma entries_all_found ratings (trains : list NormalizedArrival) (s : State) :
  (∀ train, train ∈ trains → ∃ trainInfo, ratings (id train) = Returned trainInfo) →
  mapM (routeEntry ratings) trains s
  = (Returned ((fun train => Route.fromTrain train (trainInfoOf ratings train)) <$> trains), s).
Proof.
  induction trains as [|train trains IH]; intros Hfound; [done|].
  destruct (Hfound train ltac:(left)) as [trainInfo Hinfo].
  cbn [mapM]. unfold bind at 1. unfold routeEntry at 1. unfold bind at 1, lift.
  rewrite Hinfo. unfold ret at 1. unfold bind at 1.
  rewrite IH by (intros t Ht; apply Hfound; by right).
  unfold ret. rewrite fmap_cons. cbv beta.
  replace (trainInfoOf ratings train) with trainInfo; [done|].
  unfold trainInfoOf. by rewrite Hinfo.
Qed.

Lemma entries_one_failed ratings (trains : list NormalizedArrival) (s : State) :
  (∃ train e, train ∈ trains ∧ ratings (id train) = Thrown e) →
  ∃ e, mapM (routeEntry ratings) trains s = (Thrown e, s).
Proof.
  induction trains as [|train trains IH]; intros (bad & e & Hin & Hbad).
  - by apply elem_of_nil in Hin.
  - cbn [mapM]. unfold bind at 1. unfold routeEntry at 1. unfold bind at 1, lift.
    destruct (ratings (id train)) as [trainInfo|e0] eqn:Hinfo; [|by exists e0].
    unfold ret at 1. unfold bind at 1.
    apply elem_of_cons in Hin as [->|Hin]; [congruence|].
    destruct IH as [e1 ->]; [by exists bad, e|]. by exists e1.
Qed.

(** X12. The real-time entries of the route. With [realtime=false] there
    are none and nothing is asked of [getTrainArrivals]. Otherwise, when
    every rating lookup answers, they are the arrivals of [getTrainArrivals]
    in their order, each with its id, line, destination, time, colour and
    delay, the realtime flag set and the rating found (5 when the train is
    not rated); when one rating lookup fails, all of them are dropped. *)
Theorem realtimeArrivals_cases (env : Env) (ratings : option string -> outcome (option Q))
    (stationId : string) (s : State) :
  Route.realtimeArrivals env ratings false stationId s = (Returned [], s) ∧
  ∃ r s1,
    getTrainArrivals env stationId s = (Returned r, s1) ∧
    ((∀ train, train ∈ arrivals r → ∃ trainInfo, ratings (id train) = Returned trainInfo) →
     Route.realtimeArrivals env ratings true stationId s
     = (Returned ((fun train => Route.fromTrain train (trainInfoOf ratings train))
                    <$> arrivals r), s1)) ∧
    ((∃ train e, train ∈ arrivals r ∧ ratings (id train) = Thrown e) →
     Route.realtimeArrivals env ratings true stationId s = (Returned [], s1)).
Proof.
  split; [done|].
  destruct (proj1 (wp_returns _ _ _) (getTrainArrivals_ascending env stationId s))
    as (r & s1 & Hrun & _).
  exists r, s1. split; [done|].
  assert (Hunfold :
    Route.realtimeArrivals env ratings true stationId s
    = match mapM (routeEntry ratings) (arrivals r) s1 with
      | (Returned rts, s2) => (Returned rts, s2)
      | (Thrown _, s2) => (Returned [], s2)
      end).
  { unfold Route.realtimeArrivals, try_catch. unfold bind at 1. by rewrite Hrun. }
  rewrite Hunfold. split.
  - intros Hfound. by rewrite (entries_all_found ratings (arrivals r) s1 Hfound).
  - intros Hfailed.
    by destruct (entries_one_failed ratings (arrivals r) s1 Hfailed) as [e ->].
Qed.

(** ** The merged list, entry by entry *)

Lemma mergeArrivals_Permutation (rts : list Route.Arrival)
    (scheduled : list Route.ScheduledDeparture) (now : Z) :
  Route.mergeArrivals rts scheduled now
  ≡ₚ List.filter (fun a => now <? Route.arrivalTime a)
       (rts ++ (Route.fromScheduled <$> keptScheduled rts scheduled)).
Proof.
  unfold Route.mergeArrivals. apply filter_Permutation.
  by rewrite sort_by_Permutation, RouteFacts.combineArrivals_filter.
Qed.

Lemma mergeArrivals_elem_iff (rts : list Route.Arrival)
    (scheduled : list Route.ScheduledDeparture) (now : Z) (e : Route.Arrival) :
  e ∈ Route.mergeArrivals rts scheduled now ↔
  now < Route.arrivalTime e ∧
  (e ∈ rts ∨ ∃ sd, sd ∈ scheduled ∧ ¬ Exists (RouteSpec.matches sd) rts ∧
                   e = Route.fromScheduled sd).
Proof.
  rewrite mergeArrivals_Permutation.
  rewrite list_elem_of_In, filter_In, <- list_elem_of_In, Z.ltb_lt, elem_of_app.
  unfold keptScheduled. split.
  - intros [[Hrt|Hsd] Hfuture]; (split; [done|]); [by left|right].
    apply list_elem_of_fmap in Hsd as (sd & -> & Hsd).
    apply list_elem_of_filter in Hsd as [Hkept Hin]. by exists sd.
  - intros [Hfuture [Hrt|(sd & Hin & Hkept & ->)]]; (split; [|done]); [by left|right].
    apply list_elem_of_fmap. exists sd. split; [done|].
    by apply list_elem_of_filter.
Qed.

(** X13. The merge neither drops nor duplicates: its output holds, as often
    as they come in, the real-time arrivals after the merge time and the
    entries of the scheduled departures after the merge time that no
    real-time arrival stands for, and nothing else. *)
Theorem mergeArrivals_neither_drops_nor_duplicates (rts : list Route.Arrival)
    (scheduled : list Route.ScheduledDeparture) (now : Z) :
  Route.mergeArrivals rts scheduled now
  ≡ₚ List.filter (fun a => now <? Route.arrivalTime a)
       (rts ++ (Route.fromScheduled <$> keptScheduled rts scheduled)) ∧
  ∀ e, e ∈ Route.mergeArrivals rts scheduled now ↔
       now < Route.arrivalTime e ∧
       (e ∈ rts ∨ ∃ sd, sd ∈ scheduled ∧ ¬ Exists (RouteSpec.matches sd) rts ∧
                        e = Route.fromScheduled sd).
Proof.
  split; [apply mergeArrivals_Permutation|apply mergeArrivals_elem_iff].
Qed.

(** X14. In the merged output of real-time arrivals that carry the realtime
    flag, an entry with the flag and an entry without it, of the same line,
    are at least 120 seconds apart. *)
Theorem mergeArrivals_deduplicated (rts : list Route.Arrival)
    (scheduled : list Route.ScheduledDeparture) (now : Z) (e1 e2 : Route.Arrival) :
  Forall (fun rt => Route.isRealtime rt = true) rts →
  e1 ∈ Route.mergeArrivals rts scheduled now →
  e2 ∈ Route.mergeArrivals rts scheduled now →
  Route.isRealtime e1 = true → Route.isRealtime e2 = false →
  Route.line e1 = Route.line e2 →
  120000 <= Z.abs (Route.arrivalTime e1 - Route.arrivalTime e2).
Proof.
  intros Hflag H1 H2 Hrt Hst Hline. rewrite Forall_forall in Hflag.
  apply mergeArrivals_elem_iff in H1 as [_ [H1|(sd & _ & _ & ->)]]; [|done].
  apply mergeArrivals_elem_iff in H2 as [_ [H2|(sd & _ & Hkept & ->)]].
  - specialize (Hflag _ H2). congruence.
  - destruct (Z.lt_ge_cases (Z.abs (Route.arrivalTime e1
                                    - Route.arrivalTime (Route.fromScheduled sd))) 120000)
      as [Hnear|Hfar]; [|done].
    exfalso. apply Hkept. apply Exists_exists. exists e1. split; [done|].
    by split.
Qed.

Lemma insert_by_same_key {A} (key : A -> Z) (k : Z) (x : A) (l : list A) :
  List.filter (fun a => key a =? k) (insert_by key x l)
  = List.filter (fun a => key a =? k) (x :: l).
Proof.
  induction l as [|y l IH]; [done|]. cbn [insert_by].
  destruct (Z.leb_spec (key x) (key y)) as [Hle|Hgt]; [done|].
  cbn [List.filter] in *. rewrite IH.
  destruct (Z.eqb_spec (key x) k), (Z.eqb_spec (key y) k); try done. lia.
Qed.

(** The sort is stable: the elements of one key keep their order. *)
Lemma sort_by_same_key {A} (key : A -> Z) (k : Z) (l : list A) :
  List.filter (fun a => key a =? k) (sort_by key l)
  = List.filter (fun a => key a =? k) l.
Proof.
  induction l as [|x l IH]; [done|].
  cbn [sort_by foldr]. fold (sort_by key l).
  rewrite insert_by_same_key. cbn [List.filter]. by rewrite IH.
Qed.

Lemma filter_filter_comm {A} (p q : A -> bool) (l : list A) :
  List.filter p (List.filter q l) = List.filter q (List.filter p l).
Proof.
  induction l as [|x l IH]; [done|]. simpl.
  destruct (p x) eqn:Hp, (q x) eqn:Hq; simpl; rewrite ?Hp, ?Hq, IH; done.
Qed.

(** X15. Among the entries of one arrival time the merged output keeps the
    order of the combination: first the real-time arrivals of that time, in
    the order they came in, then the kept scheduled departures of that
    time, in theirs; none when the time is not after the merge time. *)
Theorem mergeArrivals_same_time_order (rts : list Route.Arrival)
    (scheduled : list Route.ScheduledDeparture) (now t : Z) :
  List.filter (fun a => Route.arrivalTime a =? t) (Route.mergeArrivals rts scheduled now)
  = if now <? t
    then List.filter (fun a => Route.arrivalTime a =? t) rts
         ++ List.filter (fun a => Route.arrivalTime a =? t)
              (Route.fromScheduled <$> keptScheduled rts scheduled)
    else [].
Proof.
  unfold Route.mergeArrivals. rewrite filter_filter_comm, sort_by_same_key.
  rewrite RouteFacts.combineArrivals_filter. fold (keptScheduled rts scheduled).
  rewrite <- List.filter_app.
  generalize (rts ++ (Route.fromScheduled <$> keptScheduled rts scheduled)).
  intros l. induction l as [|x l IH]; simpl.
  - by destruct (now <? t).
  - destruct (Z.eqb_spec (Route.arrivalTime x) t) as [Heq|Hne]; simpl; [|done].
    rewrite IH, Heq. by destruct (now <? t).
Qed.

(** ** The response of the handler *)

Lemma round_div_bounds (n d : Z) :
  0 < d → 2 * d * Handler.round_div n d <= 2 * n + d < 2 * d * (Handler.round_div n d + 1).
Proof.
  intros Hd. unfold Handler.round_div.
  pose proof (Z.div_mod (2 * n + d) (2 * d) ltac:(lia)).
  pose proof (Z.mod_pos_bound (2 * n + d) (2 * d) ltac:(lia)). lia.
Qed.

(** X16. The fields the handler adds to an arrival: [minutesUntil] is the
    number of minutes nearest to the time left (never negative for an
    arrival after [now]) and [delayMinutes] the number of minutes nearest to
    the delay; [delayInfo] is present exactly when the delay is positive,
    and reads [Delayed 0 min] for a delay below half a minute. *)
Theorem withInfo_fields (now : Z) (a : Route.Arrival) :
  let info := Handler.withInfo now a in
  Handler.arrival info = a ∧
  (60000 * Handler.minutesUntil info - 30000 <= Route.arrivalTime a - now
   < 60000 * Handler.minutesUntil info + 30000) ∧
  (now < Route.arrivalTime a → 0 <= Handler.minutesUntil info) ∧
  (60 * Handler.delayMinutes info - 30 <= Route.delay a
   < 60 * Handler.delayMinutes info + 30) ∧
  (Handler.delayInfo info = None ↔ Route.delay a <= 0) ∧
  (0 < Route.delay a < 30 → Handler.delayInfo info = Some "Delayed 0 min"%string).
Proof.
  cbv zeta. unfold Handler.withInfo. simpl.
  pose proof (round_div_bounds (Route.arrivalTime a - now) 60000 ltac:(lia)) as Hm.
  pose proof (round_div_bounds (Route.delay a) 60 ltac:(lia)) as Hd.
  split; [done|]. split; [lia|]. split; [lia|]. split; [lia|]. split.
  - destruct (Z.ltb_spec 0 (Route.delay a)); split; (done || lia).
  - intros Hsmall. destruct (Z.ltb_spec 0 (Route.delay a)); [|lia].
    assert (Handler.round_div (Route.delay a) 60 = 0) as -> by lia. done.
Qed.

Section HandlerFacts.
Context (env : Env) (db : Handler.Collaborators).

Lemma GET_found request st s :
  JsString.truthy (Handler.stationId request) = true →
  Handler.lookupStation db (default ""%string (Handler.stationId request))
  = Returned (Some st) →
  let stationId := default ""%string (Handler.stationId request) in
  let scheduled := Handler.getStationSchedule db stationId (Handler.limit request) in
  ∃ rts s1,
    Route.realtimeArrivals env (Handler.ratings db) (Handler.useRealtime request)
      stationId s = (Returned rts, s1) ∧
    Forall (fun e => Route.isRealtime e = true) rts ∧
    Handler.GET env db request s
    = (Returned
         (Handler.Json
            {| Handler.details_id := stationId;
               Handler.details_name := station_name st;
               Handler.details_lines := default [] (station_lines st);
               Handler.scheduled := length scheduled;
               Handler.realtime := length rts |}
            (Handler.slice0 (Handler.limit request)
               (Handler.withInfo (clock env (clock_reads s1))
                  <$> Route.mergeArrivals rts scheduled (clock env (clock_reads s1))))),
       after_clock s1).
Proof.
  intros Hid Hlookup stationId scheduled. subst stationId scheduled.
  pose proof (realtimeArrivals_flagged env (Handler.ratings db)
                (Handler.useRealtime request)
                (default ""%string (Handler.stationId request)) s) as Hwp.
  apply wp_returns in Hwp as (rts & s1 & Hrun & Hflag).
  unfold returns in Hrun.
  exists rts, s1. split; [done|]. split; [done|].
  unfold Handler.GET, try_catch. rewrite Hid. cbn [negb].
  unfold bind at 1. unfold lift at 1. rewrite Hlookup.
  unfold bind at 1. rewrite Hrun.
  unfold bind at 1. unfold Date_now at 1. done.
Qed.
End HandlerFacts.

(** X17. The status of the response. Without a station id: 400, and
    nothing is read or changed. When the station search fails: 500. When it
    finds nothing: 404 (500 when the listing made for the log fails), and
    [getTrainArrivals] is not called. When it finds the station: always a
    200 response with the station's id, name and lines and the numbers of
    scheduled and real-time entries, whatever the network, the decoder and
    the rating lookups do. *)
Theorem GET_status (env : Env) (db : Handler.Collaborators) (request : Handler.Request)
    (s : State) :
  let stationId := default ""%string (Handler.stationId request) in
  (JsString.truthy (Handler.stationId request) = false →
   Handler.GET env db request s
   = (Returned (Handler.Error 400 "Station ID is required"), s)) ∧
  (JsString.truthy (Handler.stationId request) = true →
   (∀ e, Handler.lookupStation db stationId = Thrown e →
         Handler.GET env db request s
         = (Returned (Handler.Error 500 "Failed to fetch station data"), s)) ∧
   (Handler.lookupStation db stationId = Returned None →
    Handler.GET env db request s
    = (Returned match Handler.listStations db with
                | Returned _ => Handler.Error 404 "Station not found"
                | Thrown _ => Handler.Error 500 "Failed to fetch station data"
                end, s)) ∧
   (∀ st, Handler.lookupStation db stationId = Returned (Some st) →
          ∃ details arrivals s',
            Handler.GET env db request s = (Returned (Handler.Json details arrivals), s') ∧
            Handler.details_id details = stationId ∧
            Handler.details_name details = station_name st ∧
            Handler.details_lines details = default [] (station_lines st) ∧
            Handler.scheduled details
            = length (Handler.getStationSchedule db stationId (Handler.limit request)) ∧
            (Handler.useRealtime request = false → Handler.realtime details = 0%nat))).
Proof.
  intros stationId. split.
  - intros Hid. unfold Handler.GET, try_catch. by rewrite Hid.
  - intros Hid. split_and!.
    + intros e Hlookup. unfold Handler.GET, try_catch. rewrite Hid. cbn [negb].
      unfold bind, lift. subst stationId. by rewrite Hlookup.
    + intros Hlookup. unfold Handler.GET, try_catch. rewrite Hid. cbn [negb].
      unfold bind, lift. subst stationId. rewrite Hlookup.
      by destruct (Handler.listStations db).
    + intros st Hlookup.
      destruct (GET_found env db request st s Hid Hlookup) as (rts & s1 & Hrt & _ & Hrun).
      eexists _, _, _. split; [exact Hrun|]. simpl. split_and!; try done.
      intros Hoff. rewrite Hoff in Hrt. by injection Hrt as <- _.
Qed.

(** X18. The arrivals of a 200 response are the first entries, with their
    added fields, of the list merged from the real-time entries of the
    request and its scheduled departures at the clock reading the handler
    takes after them: sorted by arrival time, all after that reading and
    with [minutesUntil] not negative; as many as [limit] and the merged list
    allow for a [limit] that is not negative, none for a [limit] that is no
    number. *)
Theorem GET_arrivals (env : Env) (db : Handler.Collaborators) (request : Handler.Request)
    (s s' : State) (details : Handler.StationDetails)
    (arrivals : list Handler.ArrivalInfo) :
  Handler.GET env db request s = (Returned (Handler.Json details arrivals), s') →
  ∃ rts s1,
    let stationId := default ""%string (Handler.stationId request) in
    let now := clock env (clock_reads s1) in
    let merged :=
      Route.mergeArrivals rts
        (Handler.getStationSchedule db stationId (Handler.limit request)) now in
    Route.realtimeArrivals env (Handler.ratings db) (Handler.useRealtime request)
      stationId s = (Returned rts, s1) ∧
    s' = after_clock s1 ∧
    Handler.realtime details = length rts ∧
    arrivals = Handler.slice0 (Handler.limit request) (Handler.withInfo now <$> merged) ∧
    Handler.arrival <$> arrivals `prefix_of` merged ∧
    ascending Route.arrivalTime (Handler.arrival <$> arrivals) ∧
    Forall (fun info => now < Route.arrivalTime (Handler.arrival info) ∧
                        0 <= Handler.minutesUntil info ∧
                        info = Handler.withInfo now (Handler.arrival info)) arrivals ∧
    (∀ k, Handler.limit request = Some k → 0 <= k →
          length arrivals = Nat.min (Z.to_nat k) (length merged)) ∧
    (Handler.limit request = None → arrivals = []).
Proof.
  intros Hrun.
  destruct (JsString.truthy (Handler.stationId request)) eqn:Hid.
  2:{ unfold Handler.GET, try_catch in Hrun. by rewrite Hid in Hrun. }
  destruct (Handler.lookupStation db (default ""%string (Handler.stationId request)))
    as [[st|]|e] eqn:Hlookup.
  2:{ unfold Handler.GET, try_catch in Hrun. rewrite Hid in Hrun. cbn [negb] in Hrun.
      unfold bind, lift in Hrun. rewrite Hlookup in Hrun.
      by destruct (Handler.listStations db). }
  2:{ unfold Handler.GET, try_catch in Hrun. rewrite Hid in Hrun. cbn [negb] in Hrun.
      unfold bind, lift in Hrun. by rewrite Hlookup in Hrun. }
  destruct (GET_found env db request st s Hid Hlookup) as (rts & s1 & Hrts & _ & Hfound).
  rewrite Hfound in Hrun. injection Hrun as <- <- <-.
  exists rts, s1. cbv zeta.
  set (now := clock env (clock_reads s1)).
  set (merged := Route.mergeArrivals rts _ _).
  assert (Hslice : ∀ limit,
    Handler.arrival <$> Handler.slice0 limit (Handler.withInfo now <$> merged)
    = Handler.slice0 limit merged).
  { assert (Hback : ∀ l : list Route.Arrival,
              Handler.arrival <$> (Handler.withInfo now <$> l) = l).
    { intros l. induction l as [|x l IH]; [done|]. rewrite !fmap_cons. by rewrite IH. }
    intros [k|]; simpl; [|done].
    destruct (0 <=? k); by rewrite ?length_fmap, fmap_take, Hback. }
  assert (Hprefix : ∀ limit, Handler.slice0 limit merged `prefix_of` merged).
  { intros [k|]; simpl; [|apply prefix_nil].
    destruct (0 <=? k); apply prefix_take. }
  split; [exact Hrts|]. split; [done|]. split; [done|]. split; [done|].
  split; [rewrite Hslice; apply Hprefix|]. split.
  { rewrite Hslice. destruct (Hprefix (Handler.limit request)) as [rest Hrest].
    assert (Hsorted : ascending Route.arrivalTime merged)
      by apply RouteFacts.mergeArrivals_ascending.
    rewrite Hrest in Hsorted.
    unfold ascending in *. by apply StronglySorted_app_1_l in Hsorted. }
  split.
  { assert (Hall : Forall (fun info => now < Route.arrivalTime (Handler.arrival info) ∧
                        0 <= Handler.minutesUntil info ∧
                        info = Handler.withInfo now (Handler.arrival info))
                      (Handler.withInfo now <$> merged)).
    { apply Forall_fmap.
      assert (Hfuture : Forall (fun a => now < Route.arrivalTime a) merged)
        by apply RouteFacts.mergeArrivals_future.
      eapply Forall_impl; [exact Hfuture|].
      intros a Ha. cbv beta in Ha.
      pose proof (round_div_bounds (Route.arrivalTime a - now) 60000 ltac:(lia)).
      change (now < Route.arrivalTime a ∧
              0 <= Handler.round_div (Route.arrivalTime a - now) 60000 ∧
              Handler.withInfo now a = Handler.withInfo now a).
      split; [done|]. split; [lia|done]. }
    destruct (Handler.limit request) as [k|]; simpl; [|constructor].
    destruct (0 <=? k); by apply Forall_take. }
  split.
  - intros k -> Hk. simpl. apply Z.leb_le in Hk as ->.
    by rewrite length_take, length_fmap.
  - by intros ->.
Qed.

(** * Instances of the further properties *)

Lemma initial_no_fresh_entry (feedId : string) (now : Z) :
  no_fresh_entry initial_state feedId now.
Proof. left. simpl. apply lookup_empty. Qed.

Lemma fetchMtaFeed_download_then_cache_hit_witness :
  ∃ feed s1,
    fetchMtaFeed (Cases.answering_env []) "IRT" initial_state = (Returned feed, s1) ∧
    requests s1 = [requestUrl "IRT"] ∧
    fetchMtaFeed (Cases.answering_env []) "IRT" s1 = (Returned feed, after_clock s1).
Proof.
  destruct (fetchMtaFeed_download_then_cache_hit (Cases.answering_env []) "IRT"
              initial_state [] eq_refl (initial_no_fresh_entry _ _) eq_refl)
    as (feed & s1 & Hrun & Hreq & Hhit).
  exists feed, s1. split; [exact Hrun|]. split; [exact Hreq|].
  apply (Hhit s1 (same_cache_refl s1)).
  assert (Hreads : clock_reads s1 = 1%nat).
  { rewrite (fetchMtaFeed_online_miss (Cases.answering_env []) "IRT" initial_state
               eq_refl (initial_no_fresh_entry _ _)) in Hrun.
    simpl in Hrun. by injection Hrun as _ <-. }
  rewrite Hreads. simpl. lia.
Defined.

Lemma fetchMtaFeed_failure_not_cached_witness :
  ∃ s1,
    fetchMtaFeed (Samples.sample_env false) "ACE" initial_state
    = (Returned (emptyFeed 1700000000000), s1) ∧
    requests s1 = [requestUrl "ACE"] ∧
    apiCache_data s1 = ∅.
Proof.
  destruct (fetchMtaFeed_failure_not_cached (Samples.sample_env false) "ACE"
              initial_state (TransportError None) eq_refl (initial_no_fresh_entry _ _)
              eq_refl) as (s1 & Hrun & Hreq & Hdata & _).
  exists s1. split; [exact Hrun|]. split; [exact Hreq|exact Hdata].
Defined.

Lemma fetchMtaFeed_caches_undecodable_response_witness :
  ∃ s1,
    fetchMtaFeed (Cases.answering_env [Byte.xff]) "L" initial_state
    = (Returned (emptyFeed 1700000000001), s1) ∧
    apiCache_data s1 !! "L"%string = Some (emptyFeed 1700000000001) ∧
    apiCache_timestamp s1 !! "L"%string = Some 1700000000000.
Proof.
  destruct (fetchMtaFeed_caches_undecodable_response (Cases.answering_env [Byte.xff]) "L"
              initial_state [Byte.xff] DecodeError eq_refl (initial_no_fresh_entry _ _)
              eq_refl eq_refl) as (s1 & Hrun & _ & Hdata & Hts & _).
  exists s1. split; [exact Hrun|]. split; [exact Hdata|exact Hts].
Defined.

Lemma reachable_cache_consistent_requests_in_registry_witness :
  let s := (getTrainArrivals (Cases.answering_env []) "127" initial_state).2 in
  dom (apiCache_data s) = dom (apiCache_timestamp s) ∧
  Forall (fun url => ∃ feedId feed, (feedId, feed) ∈ MTA_FEEDS ∧
                                    url = MTA_API_BASE_URL +:+ feed_url feed)
         (requests s).
Proof.
  intros s.
  apply (reachable_cache_consistent_requests_in_registry (Cases.answering_env [])).
  apply reachable_getTrainArrivals, reachable_loaded.
Defined.

Lemma getTrainArrivals_mock_mode_offline_witness :
  ∃ r s', getTrainArrivals (Samples.sample_env true) "127" initial_state = (Returned r, s') ∧
          requests s' = [] ∧ apiCache_data s' = ∅ ∧ apiCache_timestamp s' = ∅.
Proof.
  exact (getTrainArrivals_mock_mode_offline (Samples.sample_env true) "127"
           initial_state eq_refl).
Defined.

Lemma getTrainArrivals_real_or_synthetic_witness :
  ∃ r s',
    getTrainArrivals (Samples.sample_env false) "127" initial_state = (Returned r, s') ∧
    (Forall (fun a => is_Some (direction a)) (arrivals r) ∨
     Forall (fun a => direction a = None) (arrivals r)).
Proof.
  destruct (getTrainArrivals_real_or_synthetic (Samples.sample_env false) "127"
              Samples.times_square initial_state eq_refl) as (r & s' & Hrun & Hcases).
  exists r, s'. split; [exact Hrun|].
  destruct Hcases as [(? & ? & ? & ? & _ & _ & _ & _ & _ & Hreal & _)
                     |[(? & ? & _ & _ & Hmock & _)|(? & ? & ? & _ & _ & Hnone)]].
  - left. exact Hreal.
  - right. exact Hmock.
  - left. rewrite Hnone. constructor.
Defined.

Lemma extractUpdate_by_stop_id_witness :
  (∃ a, extractUpdate "127" 1700000000 Samples.sample_trip None Samples.update_future
          initial_state = (Returned [a], initial_state) ∧
        direction a = Some NORTH ∧ arrivalTime a = 1700000060000 ∧ line a = "6"%string ∧
        color a = JsObject.Str "#00933C") ∧
  arrivalTimeOf Samples.update_future = Some 1700000060.
Proof.
  destruct (extractUpdate_by_stop_id "127" 1700000000 Samples.sample_trip None
              Samples.update_future initial_state)
    as (_ & Hmatch & Hread & _ & Hcolor).
  split.
  - destruct (Hmatch NORTH 1700000060 eq_refl eq_refl eq_refl) as [Hin _].
    destruct (Hin ltac:(vm_compute; discriminate))
      as (a & Hrun & Hdir & Htime & Hline & _ & Ha & _).
    exists a. split; [exact Hrun|]. split; [exact Hdir|]. split; [exact Htime|].
    split; [exact Hline|]. rewrite Ha. apply Hcolor.
    exact (bool_decide_unpack ("6"%string ∉ JsObject.prototype_keys) I).
  - apply Hread.
    + reflexivity.
    + intros low high [= <- <-]. vm_compute. repeat split; discriminate.
    + vm_compute. split; reflexivity.
Defined.

Lemma getTrainArrivals_requests_relevant_feeds_witness :
  ∃ r s',
    getTrainArrivals (Samples.sample_env false) "127" initial_state = (Returned r, s') ∧
    requests s' = [] ++ (requestUrl <$> getRelevantFeeds (Some ["1"; "2"; "3"]%string)).
Proof.
  exact (getTrainArrivals_requests_relevant_feeds (Samples.sample_env false) "127"
           Samples.times_square initial_state eq_refl eq_refl eq_refl).
Defined.

Lemma generateMockArrivals_details_witness :
  (∃ arrs s',
     generateMockArrivals (Samples.sample_env true) Samples.times_square initial_state
     = (Returned arrs, s') ∧
     Forall (fun a => color a = lineColor (line a) ∧
                      (delay a = 0 ∨ ∃ d, 1 <= d <= 5 ∧ delay a = d * 60)) arrs) ∧
  (∃ arrs s',
     generateMockArrivals (Samples.sample_env true) Cases.prototype_station initial_state
     = (Returned arrs, s') ∧
     Forall (fun a => line a = "constructor"%string →
                      color a = JsObject.Member "constructor" ∧
                      destination a = JsObject.Undefined) arrs).
Proof.
  split.
  - destruct (generateMockArrivals_details (Samples.sample_env true) Samples.times_square
                initial_state (sample_random_ok true)) as (arrs & s' & Hrun & Hall).
    exists arrs, s'. split; [exact Hrun|].
    eapply Forall_impl; [exact Hall|].
    intros a (Hcolor & _ & Hdelay & _). split; [exact Hcolor|exact Hdelay].
  - destruct (generateMockArrivals_details (Samples.sample_env true)
                Cases.prototype_station initial_state (sample_random_ok true))
      as (arrs & s' & Hrun & Hall).
    exists arrs, s'. split; [exact Hrun|].
    eapply Forall_impl; [exact Hall|].
    intros a (_ & _ & _ & _ & _ & Hproto) Hline.
    rewrite Hline in Hproto. apply Hproto.
    exact (bool_decide_unpack ("constructor"%string ∈ JsObject.prototype_keys) I).
Defined.

Lemma getDestinationName_idempotent_witness :
  getDestinationName (Some "BBR"%string) = JsObject.Str "Brighton Beach" ∧
  getDestinationName (Some "Astoria"%string) = JsObject.Str "Astoria" ∧
  getDestinationName (Some "constructor"%string) = JsObject.Member "constructor".
Proof.
  split; [|split].
  - apply (proj1 (getDestinationName_idempotent "BBR")). reflexivity.
  - apply (proj1 (proj2 (proj2 (getDestinationName_idempotent "Astoria")))).
    + reflexivity.
    + exact (bool_decide_unpack ("Astoria"%string ∉ JsObject.prototype_keys) I).
  - apply (proj1 (proj2 (getDestinationName_idempotent "constructor"))).
    exact (bool_decide_unpack ("constructor"%string ∈ JsObject.prototype_keys) I).
Defined.

Lemma realtimeArrivals_cases_witness :
  ∃ r s1,
    getTrainArrivals (Samples.sample_env true) "127" initial_state = (Returned r, s1) ∧
    Route.realtimeArrivals (Samples.sample_env true) (fun _ => Returned None) true "127"
      initial_state
    = (Returned ((fun train => Route.fromTrain train None) <$> arrivals r), s1).
Proof.
  destruct (realtimeArrivals_cases (Samples.sample_env true) (fun _ => Returned None)
              "127" initial_state) as (_ & r & s1 & Hrun & Hfound & _).
  exists r, s1. split; [exact Hrun|].
  apply Hfound. intros train _. by exists None.
Defined.

Lemma mergeArrivals_deduplicated_witness :
  120000 <= Z.abs (Route.arrivalTime Samples.sample_realtime
                   - Route.arrivalTime (Route.fromScheduled Cases.later_scheduled)).
Proof.
  assert (Hmerged :
    Route.mergeArrivals [Samples.sample_realtime]
      [Samples.sample_scheduled; Cases.later_scheduled] 1699999990000
    = [Samples.sample_realtime; Route.fromScheduled Cases.later_scheduled])
    by reflexivity.
  apply (mergeArrivals_deduplicated [Samples.sample_realtime]
           [Samples.sample_scheduled; Cases.later_scheduled] 1699999990000).
  - repeat constructor.
  - rewrite Hmerged. left.
  - rewrite Hmerged. right. left.
  - reflexivity.
  - reflexivity.
  - reflexivity.
Defined.

Lemma withInfo_fields_witness :
  Handler.delayInfo
    (Handler.withInfo 1699999990000 (Route.fromScheduled Cases.later_scheduled)) = None ∧
  0 <= Handler.minutesUntil
         (Handler.withInfo 1699999990000 (Route.fromScheduled Cases.later_scheduled)).
Proof.
  pose proof (withInfo_fields 1699999990000 (Route.fromScheduled Cases.later_scheduled))
    as H. cbv zeta in H.
  destruct H as (_ & _ & Hminutes & _ & Hinfo & _).
  split.
  - apply Hinfo. simpl. lia.
  - apply Hminutes. simpl. lia.
Defined.

Lemma GET_status_witness :
  Handler.GET (Samples.sample_env true) Cases.sample_db
    {| Handler.stationId := Some "999"%string; Handler.limit := Some 20;
       Handler.useRealtime := true |} initial_state
  = (Returned (Handler.Error 404 "Station not found"), initial_state) ∧
  Handler.GET (Samples.sample_env true) Cases.sample_db
    {| Handler.stationId := None; Handler.limit := Some 20;
       Handler.useRealtime := true |} initial_state
  = (Returned (Handler.Error 400 "Station ID is required"), initial_state).
Proof.
  split.
  - pose proof (GET_status (Samples.sample_env true) Cases.sample_db
                  {| Handler.stationId := Some "999"%string; Handler.limit := Some 20;
                     Handler.useRealtime := true |} initial_state) as H.
    cbv zeta in H. destruct H as [_ H]. destruct (H eq_refl) as (_ & Hnone & _).
    apply Hnone. reflexivity.
  - pose proof (GET_status (Samples.sample_env true) Cases.sample_db
                  {| Handler.stationId := None; Handler.limit := Some 20;
                     Handler.useRealtime := true |} initial_state) as H.
    cbv zeta in H. destruct H as [H _]. apply H. reflexivity.
Defined.

Lemma GET_arrivals_witness :
  ∃ details arrivals s',
    Handler.GET (Samples.sample_env true) Cases.sample_db Cases.sample_request
      initial_state = (Returned (Handler.Json details arrivals), s') ∧
    (length arrivals <= 20)%nat ∧
    ascending Route.arrivalTime (Handler.arrival <$> arrivals).
Proof.
  destruct (GET_found (Samples.sample_env true) Cases.sample_db Cases.sample_request
              Samples.times_square initial_state eq_refl eq_refl)
    as (rts & s1 & _ & _ & Hrun).
  eexists _, _, _. split; [exact Hrun|].
  destruct (GET_arrivals _ _ _ _ _ _ _ Hrun) as (rts' & s1' & H).
  cbv zeta in H. destruct H as (_ & _ & _ & _ & _ & Hsorted & _ & Hlimit & _).
  split; [|exact Hsorted].
  rewrite (Hlimit 20 eq_refl ltac:(lia)). lia.
Defined.
